(** * A4: a JBOD volume (mdadm.c) with a block cache (cache.c)

    Shallow embedding of [src/cache.c] and [src/mdadm.c].

    - C [int] counters ([clock], [num_queries], [num_hits], the tick of an
      entry) are integers of [Z]; signed overflow is undefined in C, so the
      model describes the executions in which they stay below [INT_MAX].
    - [uint32_t] arithmetic of [mdadm.c] is [Z] with the wrap-around modulo
      [2^32] written out ([u32]); [uint8_t] parameters wrap modulo 256 ([u8]).
    - A byte buffer is a [list Z]; a pointer that may be [NULL] is an
      [option].
    - The globals of each file are the fields of a state record that every
      function takes and returns. *)

From Stdlib Require Import ZArith Lia Bool.
From stdpp Require Import base numbers list.

Local Open Scope Z_scope.

(** ** Constants of [jbod.h] *)

Definition JBOD_NUM_DISKS : Z := 16.
Definition JBOD_DISK_SIZE : Z := 65536.
Definition JBOD_BLOCK_SIZE : Z := 256.
Definition JBOD_NUM_BLOCKS_PER_DISK : Z := 256.

Definition JBOD_MOUNT : Z := 0.
Definition JBOD_UNMOUNT : Z := 1.
Definition JBOD_SEEK_TO_DISK : Z := 2.
Definition JBOD_SEEK_TO_BLOCK : Z := 3.
Definition JBOD_READ_BLOCK : Z := 4.
Definition JBOD_WRITE_BLOCK : Z := 5.
Definition JBOD_SIGN_BLOCK : Z := 6.
Definition JBOD_RESERVED : Z := 7.
Definition JBOD_WRITE_PERMISSION : Z := 8.
Definition JBOD_REVOKE_WRITE_PERMISSION : Z := 9.

(** ** Buffers *)

(** [p[i]] for a buffer [p]; reading outside the buffer is undefined in C and
    yields 0 here. *)
Definition byte_at (p : list Z) (i : Z) : Z :=
  if i <? 0 then 0 else nth (Z.to_nat i) p 0.

(** [memcpy(dst + doff, src + soff, n)]: the bytes [doff .. doff+n-1] of [dst]
    become the bytes [soff .. soff+n-1] of [src], every other byte of [dst]
    stays. *)
Definition memcpy (dst : list Z) (doff : Z) (src : list Z) (soff n : Z) : list Z :=
  imap (fun (i : nat) (x : Z) =>
          if (doff <=? Z.of_nat i) && (Z.of_nat i <? doff + n)
          then byte_at src (soff + (Z.of_nat i - doff))
          else x) dst.

(** ** The block cache, [cache.c] *)

Module Cache.

(** [cache_entry_t] is declared in [cache.h]; these are the fields [cache.c]
    reads and writes. *)
Record cache_entry_t := mk_entry {
  valid : bool;
  disk_num : Z;
  block_num : Z;
  block : list Z;
  clock_accesses : Z
}.

(** The static variables of [cache.c]; [cache = None] is the [NULL] pointer. *)
Record cache_state := mk_cache {
  cache : option (list cache_entry_t);
  cache_size : Z;
  clock : Z;
  num_queries : Z;
  num_hits : Z
}.

Definition initial_state : cache_state :=
  {| cache := None; cache_size := 0; clock := 0; num_queries := 0; num_hits := 0 |}.

(** What a call of [malloc] yields: [NULL] or an array whose entries hold
    whatever the memory held before. *)
Record malloc_outcome := mk_malloc {
  alloc_ok : bool;
  fresh : nat -> cache_entry_t
}.

Definition malloc (m : malloc_outcome) (n : Z) : option (list cache_entry_t) :=
  if alloc_ok m then Some (fresh m <$> seq 0 (Z.to_nat n)) else None.

(** An allocation that succeeds and hands out zeroed memory. *)
Definition zeroed : malloc_outcome :=
  {| alloc_ok := true;
     fresh := fun _ => mk_entry false 0 0 (replicate (Z.to_nat JBOD_BLOCK_SIZE) 0) 0 |}.

(** The entries the loops [for (i = 0; i < cache_size; i++)] visit. *)
Definition slots (st : cache_state) : list cache_entry_t :=
  take (Z.to_nat (cache_size st)) (default [] (cache st)).

Fixpoint find_cache_entry_from (es : list cache_entry_t) (i : Z)
    (disk block_ : Z) : Z :=
  match es with
  | [] => -1
  | e :: rest =>
      if valid e && (disk_num e =? disk) && (block_num e =? block_)
      then i
      else find_cache_entry_from rest (i + 1) disk block_
  end.

Definition find_cache_entry (st : cache_state) (disk block_ : Z) : Z :=
  find_cache_entry_from (slots st) 0 disk block_.

Fixpoint find_mru_entry_from (es : list cache_entry_t) (i : Z)
    (mru_index max_clock : Z) : Z :=
  match es with
  | [] => mru_index
  | e :: rest =>
      if valid e && (clock_accesses e >? max_clock)
      then find_mru_entry_from rest (i + 1) i (clock_accesses e)
      else find_mru_entry_from rest (i + 1) mru_index max_clock
  end.

Definition find_mru_entry (st : cache_state) : Z :=
  find_mru_entry_from (slots st) 0 (-1) (-1).

Fixpoint find_invalid_entry_from (es : list cache_entry_t) (i : Z) : Z :=
  match es with
  | [] => -1
  | e :: rest =>
      if negb (valid e) then i else find_invalid_entry_from rest (i + 1)
  end.

Definition find_invalid_entry (st : cache_state) : Z :=
  find_invalid_entry_from (slots st) 0.

Definition cache_enabled (st : cache_state) : bool :=
  bool_decide (is_Some (cache st)) && (0 <? cache_size st).

Definition invalidate (e : cache_entry_t) : cache_entry_t :=
  {| valid := false; disk_num := disk_num e; block_num := block_num e;
     block := block e; clock_accesses := clock_accesses e |}.

Definition cache_create (m : malloc_outcome) (num_entries : Z)
    (st : cache_state) : Z * cache_state :=
  if bool_decide (is_Some (cache st)) || (num_entries <? 2) || (num_entries >? 4096)
  then (-1, st)
  else
    match malloc m num_entries with
    | None => (-1, st)
    | Some es =>
        (1, {| cache := Some (invalidate <$> es);
               cache_size := num_entries;
               clock := 0;
               num_queries := num_queries st;
               num_hits := num_hits st |})
    end.

Definition cache_destroy (st : cache_state) : Z * cache_state :=
  match cache st with
  | None => (-1, st)
  | Some _ => (1, initial_state)
  end.

(** [cache[index].clock_accesses = c]. *)
Definition stamp (c : Z) (e : cache_entry_t) : cache_entry_t :=
  {| valid := valid e; disk_num := disk_num e; block_num := block_num e;
     block := block e; clock_accesses := c |}.

(** [memcpy(cache[index].block, buf, JBOD_BLOCK_SIZE)] followed by the stamp. *)
Definition refresh (buf : list Z) (c : Z) (e : cache_entry_t) : cache_entry_t :=
  {| valid := valid e; disk_num := disk_num e; block_num := block_num e;
     block := memcpy (block e) 0 buf 0 JBOD_BLOCK_SIZE; clock_accesses := c |}.

(** The five assignments of [cache_insert] to [cache[index]]. *)
Definition fill (disk block_ : Z) (buf : list Z) (c : Z)
    (e : cache_entry_t) : cache_entry_t :=
  {| valid := true; disk_num := disk; block_num := block_;
     block := memcpy (block e) 0 buf 0 JBOD_BLOCK_SIZE; clock_accesses := c |}.

Definition entry_block (es : list cache_entry_t) (index : Z) : list Z :=
  match es !! Z.to_nat index with
  | Some e => block e
  | None => []
  end.

Definition cache_lookup (disk block_ : Z) (buf : option (list Z))
    (st : cache_state) : Z * option (list Z) * cache_state :=
  match buf with
  | Some out =>
      if negb (cache_enabled st) || (disk <? 0) || (block_ <? 0)
      then (-1, buf, st)
      else
        let st1 := {| cache := cache st; cache_size := cache_size st;
                      clock := clock st;
                      num_queries := num_queries st + 1;
                      num_hits := num_hits st |} in
        let index := find_cache_entry st1 disk block_ in
        if negb (index =? -1)
        then
          let es := default [] (cache st1) in
          (1, Some (memcpy out 0 (entry_block es index) 0 JBOD_BLOCK_SIZE),
           {| cache := Some (alter (stamp (clock st1 + 1)) (Z.to_nat index) es);
              cache_size := cache_size st1;
              clock := clock st1 + 1;
              num_queries := num_queries st1;
              num_hits := num_hits st1 + 1 |})
        else (-1, buf, st1)
  | None => (-1, buf, st)
  end.

Definition cache_update (disk block_ : Z) (buf : option (list Z))
    (st : cache_state) : cache_state :=
  match buf with
  | Some src =>
      if negb (cache_enabled st) || (disk <? 0) || (block_ <? 0)
      then st
      else
        let index := find_cache_entry st disk block_ in
        if negb (index =? -1)
        then
          let es := default [] (cache st) in
          {| cache := Some (alter (refresh src (clock st + 1)) (Z.to_nat index) es);
             cache_size := cache_size st;
             clock := clock st + 1;
             num_queries := num_queries st;
             num_hits := num_hits st |}
        else st
  | None => st
  end.

Definition cache_insert (disk block_ : Z) (buf : option (list Z))
    (st : cache_state) : Z * cache_state :=
  match buf with
  | Some src =>
      if negb (cache_enabled st) || (disk <? 0) || (block_ <? 0)
      then (-1, st)
      else if negb (find_cache_entry st disk block_ =? -1)
      then (-1, st)
      else
        let index := find_invalid_entry st in
        let index := if index =? -1 then find_mru_entry st else index in
        if index =? -1
        then (-1, st)
        else
          let es := default [] (cache st) in
          (1, {| cache := Some (alter (fill disk block_ src (clock st + 1))
                                      (Z.to_nat index) es);
                 cache_size := cache_size st;
                 clock := clock st + 1;
                 num_queries := num_queries st;
                 num_hits := num_hits st |})
  | None => (-1, st)
  end.

(** [for (i = 0; i < entries_to_copy; i++) new_cache[i] = cache[i];] *)
Fixpoint copy_entries (entries_to_copy : nat)
    (old new_cache : list cache_entry_t) : list cache_entry_t :=
  match entries_to_copy with
  | O => new_cache
  | S i =>
      let copied := copy_entries i old new_cache in
      match old !! i with
      | Some e => <[i := e]> copied
      | None => copied
      end
  end.

Definition cache_resize (m : malloc_outcome) (new_size : Z)
    (st : cache_state) : Z * cache_state :=
  if (new_size <? 2) || (new_size >? 4096)
  then (-1, st)
  else if negb (cache_enabled st)
  then cache_create m new_size st
  else
    match malloc m new_size with
    | None => (-1, st)
    | Some fresh_entries =>
        let new_cache := invalidate <$> fresh_entries in
        let entries_to_copy :=
          if new_size <? cache_size st then new_size else cache_size st in
        (1, {| cache := Some (copy_entries (Z.to_nat entries_to_copy)
                                           (default [] (cache st)) new_cache);
               cache_size := new_size;
               clock := clock st;
               num_queries := num_queries st;
               num_hits := num_hits st |})
    end.

(** A call of the cache interface, with what [malloc] answers when the call
    allocates, and the state a sequence of calls leaves. *)
Inductive cache_call :=
  | Call_create (m : malloc_outcome) (num_entries : Z)
  | Call_destroy
  | Call_lookup (disk block_ : Z) (buf : option (list Z))
  | Call_update (disk block_ : Z) (buf : option (list Z))
  | Call_insert (disk block_ : Z) (buf : option (list Z))
  | Call_resize (m : malloc_outcome) (new_size : Z).

Definition run_call (st : cache_state) (c : cache_call) : cache_state :=
  match c with
  | Call_create m n => snd (cache_create m n st)
  | Call_destroy => snd (cache_destroy st)
  | Call_lookup d b buf => snd (cache_lookup d b buf st)
  | Call_update d b buf => cache_update d b buf st
  | Call_insert d b buf => snd (cache_insert d b buf st)
  | Call_resize m n => snd (cache_resize m n st)
  end.

Definition run_calls (cs : list cache_call) : cache_state :=
  foldl run_call initial_state cs.

(** Among valid entries the pairs (disk_num, block_num) are unique. *)
Definition unique_keys (es : list cache_entry_t) : Prop :=
  forall (i j : nat) (ei ej : cache_entry_t),
    es !! i = Some ei -> es !! j = Some ej ->
    valid ei = true -> valid ej = true ->
    disk_num ei = disk_num ej -> block_num ei = block_num ej -> i = j.

(** Every valid entry carries a tick between 1 and the clock. *)
Definition ticks_bounded (c : Z) (es : list cache_entry_t) : Prop :=
  forall (i : nat) (e : cache_entry_t),
    es !! i = Some e -> valid e = true -> 1 <= clock_accesses e <= c.

Definition cache_inv (st : cache_state) : Prop :=
  0 <= clock st /\
  match cache st with
  | None => cache_size st = 0 /\ clock st = 0 /\
            num_queries st = 0 /\ num_hits st = 0
  | Some es => 2 <= cache_size st <= 4096 /\
               Z.of_nat (length es) = cache_size st /\
               unique_keys es /\ ticks_bounded (clock st) es
  end.

(** What the scans of [cache.c] rely on: the array has [cache_size] slots,
    at least one, and no valid entry carries a negative tick. *)
Definition well_formed (st : cache_state) (es : list cache_entry_t) : Prop :=
  cache st = Some es
  /\ Z.of_nat (length es) = cache_size st
  /\ 0 < cache_size st
  /\ forall (i : nat) (e : cache_entry_t),
       es !! i = Some e -> valid e = true -> 0 <= clock_accesses e.

(** A full three-slot cache in which two entries share the maximal tick. *)
Definition tied_cache : cache_state :=
  {| cache := Some [mk_entry true 0 0 [] 5; mk_entry true 0 1 [] 5;
                    mk_entry true 0 2 [] 3];
     cache_size := 3; clock := 5; num_queries := 0; num_hits := 0 |}.

(** The slot [cache_insert] evicts from a full cache, in the words of the
    specification: the lowest index among the entries of maximal tick. *)
Definition is_mru_slot (es : list cache_entry_t) (i : nat) : Prop :=
  exists e, es !! i = Some e /\
    (forall (j : nat) (e' : cache_entry_t),
        es !! j = Some e' -> clock_accesses e' <= clock_accesses e) /\
    (forall (j : nat) (e' : cache_entry_t),
        es !! j = Some e' -> (j < i)%nat -> clock_accesses e' < clock_accesses e).

(** Every entry holds a block of [JBOD_BLOCK_SIZE] bytes, as the array
    [block] of [cache_entry_t] does. *)
Definition blocks_sized (es : list cache_entry_t) : Prop :=
  forall (i : nat) (e : cache_entry_t),
    es !! i = Some e -> length (block e) = Z.to_nat JBOD_BLOCK_SIZE.

(** No valid slot that the scans visit holds the pair (disk, block). *)
Definition absent (st : cache_state) (disk block_ : Z) : Prop :=
  forall (j : nat) (e : cache_entry_t),
    slots st !! j = Some e -> valid e = true ->
    ~ (disk_num e = disk /\ block_num e = block_).

(** Slot [i] is valid and holds the pair (disk, block). *)
Definition cached_at (es : list cache_entry_t) (i : nat) (e : cache_entry_t)
    (disk block_ : Z) : Prop :=
  es !! i = Some e /\ valid e = true /\ disk_num e = disk /\ block_num e = block_.

(** A three-slot cache after two inserts and one hit. *)
Definition warm_calls : list cache_call :=
  [Call_create zeroed 3;
   Call_insert 0 7 (Some (replicate 256 5));
   Call_insert 1 9 (Some (replicate 256 6));
   Call_lookup 0 7 (Some (replicate 256 0))].

End Cache.

(** ** The volume, [mdadm.c] *)

Module Mdadm.

Definition u32 (x : Z) : Z := x mod 2 ^ 32.
Definition u8 (x : Z) : Z := x mod 2 ^ 8.

(** [encode_op]: the three parameters are [uint8_t], the result [uint32_t]. *)
Definition encode_op (cmd disk_id block_id : Z) : Z :=
  u32 (Z.lor (Z.lor (Z.shiftl (u8 cmd) 12) (Z.shiftl (u8 block_id) 4)) (u8 disk_id)).

(** One block segment of a transfer: lines 74-85 of [mdadm_read], which are
    lines 162-173 of [mdadm_write]. *)
Record segment := mk_segment {
  seg_disk : Z;
  seg_block : Z;
  seg_offset : Z;
  seg_len : Z
}.

Definition segment_at (start_addr len done : Z) : segment :=
  let addr := u32 (start_addr + done) in
  let disk_num := addr / JBOD_DISK_SIZE in
  let addr_in_disk := addr mod JBOD_DISK_SIZE in
  let block_num := addr_in_disk / JBOD_BLOCK_SIZE in
  let offset_in_block := addr_in_disk mod JBOD_BLOCK_SIZE in
  let bytes_left_in_block := u32 (JBOD_BLOCK_SIZE - offset_in_block) in
  let bytes_to_move := u32 (len - done) in
  let bytes_to_move :=
    if bytes_to_move >? bytes_left_in_block then bytes_left_in_block
    else bytes_to_move in
  {| seg_disk := disk_num; seg_block := block_num;
     seg_offset := offset_in_block; seg_len := bytes_to_move |}.

(** The address check shared by [mdadm_read] and [mdadm_write]. *)
Definition out_of_range (start_addr len : Z) : bool :=
  let max_addr := u32 (JBOD_NUM_DISKS * JBOD_DISK_SIZE) in
  (u32 (start_addr + len) >? max_addr) || (u32 (start_addr + len) <? start_addr).

Section Engine.

(** The disk array is external: [jbod_operation op block] runs on the state
    of the array, returns a status and leaves new contents in the buffer
    [block] points to ([None] for [NULL]). *)
Context {device : Type}.
Variable jbod_operation :
  Z -> option (list Z) -> device -> Z * option (list Z) * device.

(** Contents of the uninitialised array [block] of [mdadm_read]. *)
Variable stack_block : list Z.

(** The static variables of [mdadm.c], the array, and the operation words
    handed to [jbod_operation] so far (a ghost field). *)
Record mdadm_state := mk_mdadm {
  mounted : Z;
  write_permission : bool;
  jbod : device;
  issued : list Z
}.

Definition jbod_call (op : Z) (blk : option (list Z))
    (st : mdadm_state) : Z * list Z * mdadm_state :=
  let '(rc, blk', d) := jbod_operation op blk (jbod st) in
  (rc, default (default [] blk) blk',
   {| mounted := mounted st; write_permission := write_permission st;
      jbod := d; issued := issued st ++ [op] |}).

Definition set_mounted (v : Z) (st : mdadm_state) : mdadm_state :=
  {| mounted := v; write_permission := write_permission st;
     jbod := jbod st; issued := issued st |}.

Definition mdadm_mount (st : mdadm_state) : Z * mdadm_state :=
  if negb (mounted st =? 0) then (-1, st)
  else
    let op := encode_op JBOD_MOUNT 0 0 in
    let '(rc, _, st1) := jbod_call op None st in
    if rc =? 0 then (1, set_mounted 1 st1) else (-1, st1).

Definition mdadm_unmount (st : mdadm_state) : Z * mdadm_state :=
  if mounted st =? 0 then (-1, st)
  else
    let op := encode_op JBOD_UNMOUNT 0 0 in
    let '(rc, _, st1) := jbod_call op None st in
    if rc =? 0 then (1, set_mounted 0 st1) else (-1, st1).

(** One iteration of the loop of [mdadm_read], lines 87-107: the value is
    -4 where the function returns -4, and 0 where the iteration ends. *)
Definition read_segment (s : segment) (read_buf : list Z) (bytes_read : Z)
    (st : mdadm_state) : Z * list Z * mdadm_state :=
  let op := encode_op JBOD_SEEK_TO_DISK (Z.land (seg_disk s) 15) 0 in
  let '(rc, _, st1) := jbod_call op None st in
  if negb (rc =? 0) then (-4, read_buf, st1) else
  let op := encode_op JBOD_SEEK_TO_BLOCK 0 (Z.land (seg_block s) 255) in
  let '(rc, _, st2) := jbod_call op None st1 in
  if negb (rc =? 0) then (-4, read_buf, st2) else
  let op := encode_op JBOD_READ_BLOCK 0 0 in
  let '(rc, blk, st3) := jbod_call op (Some stack_block) st2 in
  if negb (rc =? 0) then (-4, read_buf, st3) else
  (0, memcpy read_buf bytes_read blk (seg_offset s) (seg_len s), st3).

(** The loop of [mdadm_read]; [None] when the fuel runs out. *)
Fixpoint read_loop (fuel : nat) (start_addr read_len : Z) (read_buf : list Z)
    (bytes_read : Z) (st : mdadm_state) : option (Z * list Z * mdadm_state) :=
  if bytes_read <? read_len then
    match fuel with
    | O => None
    | S fuel' =>
        let s := segment_at start_addr read_len bytes_read in
        let '(rc, read_buf, st) := read_segment s read_buf bytes_read st in
        if negb (rc =? 0) then Some (rc, read_buf, st) else
        read_loop fuel' start_addr read_len read_buf
                  (u32 (bytes_read + seg_len s)) st
    end
  else Some (bytes_read, read_buf, st).

Definition mdadm_read (start_addr read_len : Z) (read_buf : option (list Z))
    (st : mdadm_state) : option (Z * option (list Z) * mdadm_state) :=
  if mounted st =? 0 then Some (-3, read_buf, st)
  else if read_len >? 1024 then Some (-2, read_buf, st)
  else if (read_len >? 0) && bool_decide (read_buf = None)
  then Some (-4, read_buf, st)
  else if out_of_range start_addr read_len then Some (-1, read_buf, st)
  else
    match read_buf with
    | Some buf =>
        match read_loop (Z.to_nat read_len) start_addr read_len buf 0 st with
        | Some (rc, buf', st') => Some (rc, Some buf', st')
        | None => None
        end
    | None => Some (0, None, st)
    end.

Definition mdadm_write_permission (st : mdadm_state) : Z * mdadm_state :=
  (0, {| mounted := mounted st; write_permission := true;
         jbod := jbod st; issued := issued st |}).

Definition mdadm_revoke_write_permission (st : mdadm_state) : Z * mdadm_state :=
  (0, {| mounted := mounted st; write_permission := false;
         jbod := jbod st; issued := issued st |}).

(** One iteration of the loop of [mdadm_write], lines 175-206: the value
    is -4 where the function returns -4, and 0 where the iteration ends. *)
Definition write_segment (s : segment) (write_buf : list Z) (bytes_written : Z)
    (st : mdadm_state) : Z * mdadm_state :=
  let op := encode_op JBOD_SEEK_TO_DISK (seg_disk s) 0 in
  let '(rc, _, st1) := jbod_call op None st in
  if negb (rc =? 0) then (-4, st1) else
  let op := encode_op JBOD_SEEK_TO_BLOCK 0 (seg_block s) in
  let '(rc, _, st2) := jbod_call op None st1 in
  if negb (rc =? 0) then (-4, st2) else
  let blk := replicate (Z.to_nat JBOD_BLOCK_SIZE) 0 in
  let '(rc, blk, st3) :=
    if (seg_len s <? JBOD_BLOCK_SIZE) || negb (seg_offset s =? 0)
    then jbod_call (encode_op JBOD_READ_BLOCK 0 0) (Some blk) st2
    else (0, blk, st2) in
  if negb (rc =? 0) then (-4, st3) else
  let blk := memcpy blk (seg_offset s) write_buf bytes_written (seg_len s) in
  let op := encode_op JBOD_WRITE_BLOCK 0 0 in
  let '(rc, _, st4) := jbod_call op (Some blk) st3 in
  if negb (rc =? 0) then (-4, st4) else
  (0, st4).

(** The loop of [mdadm_write]; [None] when the fuel runs out. *)
Fixpoint write_loop (fuel : nat) (start_addr write_len : Z) (write_buf : list Z)
    (bytes_written : Z) (st : mdadm_state) : option (Z * mdadm_state) :=
  if bytes_written <? write_len then
    match fuel with
    | O => None
    | S fuel' =>
        let s := segment_at start_addr write_len bytes_written in
        let '(rc, st) := write_segment s write_buf bytes_written st in
        if negb (rc =? 0) then Some (rc, st) else
        write_loop fuel' start_addr write_len write_buf
                   (u32 (bytes_written + seg_len s)) st
    end
  else Some (bytes_written, st).

Definition mdadm_write (start_addr write_len : Z) (write_buf : option (list Z))
    (st : mdadm_state) : option (Z * mdadm_state) :=
  if mounted st =? 0 then Some (-3, st)
  else if negb (write_permission st) then Some (-5, st)
  else if write_len >? 1024 then Some (-2, st)
  else if (write_len >? 0) && bool_decide (write_buf = None) then Some (-4, st)
  else if write_len =? 0 then Some (0, st)
  else if out_of_range start_addr write_len then Some (-1, st)
  else
    match write_buf with
    | Some buf => write_loop (Z.to_nat write_len) start_addr write_len buf 0 st
    | None => Some (0, st)
    end.

End Engine.

(** *** The disk array *)

(** Modelled from the spec: the disk array behind [jbod_operation], which
    [jbod.h] declares and the repository does not implement.  The operation
    word is [(command << 12) | (block_index << 4) | disk_index] with a 4-bit
    disk index and an 8-bit block index; the array keeps a current disk and
    a current block, set by the seek commands; read-block and write-block
    act on the block under that cursor; an operation returns 0 on success
    and a nonzero value on failure. *)
Record jbod_t := mk_jbod {
  jbod_mounted : bool;
  jbod_write_permission : bool;
  cur_disk : Z;
  cur_block : Z;
  storage : Z -> Z -> Z -> Z
}.

Definition op_cmd (op : Z) : Z := Z.shiftr op 12.
Definition op_block (op : Z) : Z := Z.land (Z.shiftr op 4) 255.
Definition op_disk (op : Z) : Z := Z.land op 15.

Definition block_under_cursor (d : jbod_t) : list Z :=
  (fun i : nat => storage d (cur_disk d) (cur_block d) (Z.of_nat i))
    <$> seq 0 (Z.to_nat JBOD_BLOCK_SIZE).

Definition store_under_cursor (b : list Z) (d : jbod_t) : Z -> Z -> Z -> Z :=
  fun disk blk i =>
    if (disk =? cur_disk d) && (blk =? cur_block d)
       && (0 <=? i) && (i <? JBOD_BLOCK_SIZE)
    then byte_at b i
    else storage d disk blk i.

Definition spec_jbod_operation (op : Z) (blk : option (list Z))
    (d : jbod_t) : Z * option (list Z) * jbod_t :=
  let cmd := op_cmd op in
  if cmd =? JBOD_MOUNT then
    if jbod_mounted d then (-1, blk, d)
    else (0, blk, mk_jbod true (jbod_write_permission d)
                          (cur_disk d) (cur_block d) (storage d))
  else if negb (jbod_mounted d) then (-1, blk, d)
  else if cmd =? JBOD_UNMOUNT then
    (0, blk, mk_jbod false (jbod_write_permission d)
                     (cur_disk d) (cur_block d) (storage d))
  else if cmd =? JBOD_SEEK_TO_DISK then
    (0, blk, mk_jbod true (jbod_write_permission d)
                     (op_disk op) (cur_block d) (storage d))
  else if cmd =? JBOD_SEEK_TO_BLOCK then
    (0, blk, mk_jbod true (jbod_write_permission d)
                     (cur_disk d) (op_block op) (storage d))
  else if cmd =? JBOD_READ_BLOCK then
    match blk with
    | Some _ => (0, Some (block_under_cursor d), d)
    | None => (-1, blk, d)
    end
  else if cmd =? JBOD_WRITE_BLOCK then
    match blk with
    | Some b => (0, blk, mk_jbod true (jbod_write_permission d)
                                 (cur_disk d) (cur_block d)
                                 (store_under_cursor b d))
    | None => (-1, blk, d)
    end
  else if cmd =? JBOD_SIGN_BLOCK then (0, blk, d)
  else if cmd =? JBOD_WRITE_PERMISSION then
    if jbod_write_permission d then (-1, blk, d)
    else (0, blk, mk_jbod true true (cur_disk d) (cur_block d) (storage d))
  else if cmd =? JBOD_REVOKE_WRITE_PERMISSION then
    if jbod_write_permission d
    then (0, blk, mk_jbod true false (cur_disk d) (cur_block d) (storage d))
    else (-1, blk, d)
  else (-1, blk, d).

(** The byte of the volume at linear address [a]. *)
Definition volume_byte (d : jbod_t) (a : Z) : Z :=
  storage d (a / JBOD_DISK_SIZE)
            ((a mod JBOD_DISK_SIZE) / JBOD_BLOCK_SIZE)
            ((a mod JBOD_DISK_SIZE) mod JBOD_BLOCK_SIZE).

(** An array on which every operation fails. *)
Definition failing_jbod_operation (op : Z) (blk : option (list Z))
    (d : unit) : Z * option (list Z) * unit := (1, blk, d).

(** *** The segments of a transfer and the operations a write issues *)

Fixpoint segments_from (fuel : nat) (start_addr len done : Z) : list segment :=
  if done <? len then
    match fuel with
    | O => []
    | S fuel' =>
        let s := segment_at start_addr len done in
        s :: segments_from fuel' start_addr len (done + seg_len s)
    end
  else [].

Definition segments (start_addr len : Z) : list segment :=
  segments_from (Z.to_nat len) start_addr len 0.

(** A segment that exactly covers a whole aligned block. *)
Definition whole_block (s : segment) : bool :=
  (seg_len s =? JBOD_BLOCK_SIZE) && (seg_offset s =? 0).

Definition write_segment_ops (s : segment) : list Z :=
  [encode_op JBOD_SEEK_TO_DISK (seg_disk s) 0;
   encode_op JBOD_SEEK_TO_BLOCK 0 (seg_block s)]
  ++ (if whole_block s then [] else [encode_op JBOD_READ_BLOCK 0 0])
  ++ [encode_op JBOD_WRITE_BLOCK 0 0].

(** [p] holds of 0, ..., n-1: a check that runs. *)
Fixpoint all_below (n : nat) (p : Z -> bool) : bool :=
  match n with
  | O => true
  | S k => p (Z.of_nat k) && all_below k p
  end.

(** *** Failure kinds *)

(** The failure kinds the specification names for [read] and [write], and
    the value [mdadm_read] and [mdadm_write] return at the place where
    they detect each. *)
Inductive failure :=
  | NotMounted | LengthTooLarge | NullBuffer | OutOfRange
  | DeviceError | PermissionDenied.

Definition failure_code (k : failure) : Z :=
  match k with
  | NotMounted => -3
  | LengthTooLarge => -2
  | NullBuffer => -4
  | OutOfRange => -1
  | DeviceError => -4
  | PermissionDenied => -5
  end.

(** The array with the status of every operation recorded: beside the state
    of the array, the values [jbod_operation] has returned so far. *)
Definition recording {device : Type}
    (jbod_operation : Z -> option (list Z) -> device -> Z * option (list Z) * device)
    (op : Z) (blk : option (list Z)) (dl : device * list Z)
    : Z * option (list Z) * (device * list Z) :=
  let '(rc, blk', d) := jbod_operation op blk (fst dl) in
  (rc, blk', (d, snd dl ++ [rc])).

(** Every recorded operation returned 0. *)
Definition all_succeeded (codes : list Z) : Prop :=
  Forall (fun rc => rc = 0) codes.

(** The last recorded operation failed, and it is the only one that did. *)
Definition stopped_at_failure (codes : list Z) : Prop :=
  exists ok bad, codes = ok ++ [bad] /\ all_succeeded ok /\ bad <> 0.

(** The check that rejects a read before any segment is transferred, in the
    order the specification lists them; [None] when the transfer starts. *)
Definition read_rejection {device : Type} (st : mdadm_state (device := device))
    (start_addr len : Z) (buf : option (list Z)) : option failure :=
  if mounted st =? 0 then Some NotMounted
  else if len >? 1024 then Some LengthTooLarge
  else if (len >? 0) && bool_decide (buf = None) then Some NullBuffer
  else if out_of_range start_addr len then Some OutOfRange
  else None.

Definition write_rejection {device : Type} (st : mdadm_state (device := device))
    (start_addr len : Z) (buf : option (list Z)) : option failure :=
  if mounted st =? 0 then Some NotMounted
  else if negb (write_permission st) then Some PermissionDenied
  else if len >? 1024 then Some LengthTooLarge
  else if (len >? 0) && bool_decide (buf = None) then Some NullBuffer
  else if negb (len =? 0) && out_of_range start_addr len then Some OutOfRange
  else None.

(** *** Concrete states *)

(** A core state over the array on which every operation fails. *)
Definition dead_state (m : Z) (w : bool) : mdadm_state (device := unit) :=
  mk_mdadm m w tt [].

(** A mounted array holding zeros, and a mounted core with write permission
    over it. *)
Definition blank_jbod : jbod_t :=
  mk_jbod true false 0 0 (fun _ _ _ => 0).

Definition blank_state : mdadm_state (device := jbod_t) :=
  mk_mdadm 1 true blank_jbod [].

(** *** More of the engine on the disk array *)

(** The operation words one segment of a read hands to the array. *)
Definition read_segment_ops (s : segment) : list Z :=
  [encode_op JBOD_SEEK_TO_DISK (Z.land (seg_disk s) 15) 0;
   encode_op JBOD_SEEK_TO_BLOCK 0 (Z.land (seg_block s) 255);
   encode_op JBOD_READ_BLOCK 0 0].

(** The core right after start over an unmounted array: the initial values
    of [mounted] and [write_permission]. *)
Definition power_on (d : jbod_t) : mdadm_state (device := jbod_t) :=
  mk_mdadm 0 false d [].

(** An unmounted array holding zeros. *)
Definition cold_jbod : jbod_t :=
  mk_jbod false false 0 0 (fun _ _ _ => 0).

(** A call of the volume interface, and the state a sequence of calls
    leaves on the disk array of the specification. *)
Inductive mdadm_call :=
  | Do_mount
  | Do_unmount
  | Do_write_permission
  | Do_revoke_write_permission
  | Do_read (stack_block : list Z) (start_addr read_len : Z)
            (read_buf : option (list Z))
  | Do_write (start_addr write_len : Z) (write_buf : option (list Z)).

Definition run_mdadm_call (st : mdadm_state (device := jbod_t))
    (c : mdadm_call) : mdadm_state (device := jbod_t) :=
  match c with
  | Do_mount => snd (mdadm_mount spec_jbod_operation st)
  | Do_unmount => snd (mdadm_unmount spec_jbod_operation st)
  | Do_write_permission => snd (mdadm_write_permission st)
  | Do_revoke_write_permission => snd (mdadm_revoke_write_permission st)
  | Do_read stack_block start_addr read_len read_buf =>
      match mdadm_read spec_jbod_operation stack_block
                       start_addr read_len read_buf st with
      | Some (_, _, st') => st'
      | None => st
      end
  | Do_write start_addr write_len write_buf =>
      match mdadm_write spec_jbod_operation start_addr write_len write_buf st with
      | Some (_, st') => st'
      | None => st
      end
  end.

Definition run_mdadm_calls (d : jbod_t) (cs : list mdadm_call)
    : mdadm_state (device := jbod_t) :=
  foldl run_mdadm_call (power_on d) cs.

(** The commands a read hands to the array, and those a transfer may. *)
Definition read_cmd (op : Z) : Prop :=
  op_cmd op = JBOD_SEEK_TO_DISK \/ op_cmd op = JBOD_SEEK_TO_BLOCK
  \/ op_cmd op = JBOD_READ_BLOCK.

Definition transfer_cmd (op : Z) : Prop :=
  read_cmd op \/ op_cmd op = JBOD_WRITE_BLOCK.

(** The mount flag of the core and the mount flag of the array agree. *)
Definition flags_agree (st : mdadm_state (device := jbod_t)) : Prop :=
  (mounted st = 0 /\ jbod_mounted (jbod st) = false)
  \/ (mounted st = 1 /\ jbod_mounted (jbod st) = true).

(** A segment lies inside one block of one disk of the array. *)
Definition in_one_block (s : segment) : Prop :=
  0 <= seg_disk s < 16 /\ 0 <= seg_block s < 256
  /\ 0 <= seg_offset s /\ 1 <= seg_len s /\ seg_offset s + seg_len s <= 256.

(** An array whose operations all fail. *)
Definition always_fails {device : Type}
    (jbod_operation : Z -> option (list Z) -> device -> Z * option (list Z) * device)
    : Prop :=
  forall op blk d, fst (fst (jbod_operation op blk d)) <> 0.

End Mdadm.

(** * Address translation *)

Section Translation.

Import Mdadm.

Lemma u32_small (x : Z) : 0 <= x < 2 ^ 32 -> u32 x = x.
Proof. intros H. unfold u32. apply Z.mod_small. exact H. Qed.

Lemma out_of_range_spec (start_addr len : Z) :
  0 <= start_addr < 2 ^ 32 -> 0 <= len < 2 ^ 32 ->
  out_of_range start_addr len = true <-> start_addr + len > 16 * 65536.
Proof.
  intros Hs Hl. unfold out_of_range, JBOD_NUM_DISKS, JBOD_DISK_SIZE.
  rewrite (u32_small (16 * 65536)) by lia.
  rewrite orb_true_iff, Z.gtb_lt, Z.ltb_lt.
  destruct (Z_lt_ge_dec (start_addr + len) (2 ^ 32)) as [Hlt | Hge].
  - rewrite u32_small by lia. lia.
  - unfold u32.
    replace (start_addr + len) with (start_addr + len - 2 ^ 32 + 1 * 2 ^ 32) by lia.
    rewrite Z.mod_add by lia. rewrite Z.mod_small by lia. lia.
Qed.

Lemma segment_at_in_range (start_addr len done : Z) :
  0 <= start_addr -> 0 <= done < len -> start_addr + len <= 16 * 65536 ->
  segment_at start_addr len done =
    {| seg_disk := (start_addr + done) / 65536;
       seg_block := ((start_addr + done) mod 65536) / 256;
       seg_offset := ((start_addr + done) mod 65536) mod 256;
       seg_len := Z.min (len - done)
                        (256 - ((start_addr + done) mod 65536) mod 256) |}.
Proof.
  intros Hs Hd Hl. unfold segment_at, JBOD_DISK_SIZE, JBOD_BLOCK_SIZE.
  assert (Hoff : 0 <= ((start_addr + done) mod 65536) mod 256 < 256)
    by (apply Z.mod_pos_bound; lia).
  rewrite (u32_small (start_addr + done)) by lia.
  rewrite (u32_small (256 - _)) by lia.
  rewrite (u32_small (len - done)) by lia.
  f_equal.
  destruct (Z.gtb_spec (len - done) (256 - ((start_addr + done) mod 65536) mod 256)); lia.
Qed.

Lemma segment_bounds (a : Z) :
  0 <= a < 16 * 65536 ->
  0 <= a / 65536 < 16
  /\ 0 <= (a mod 65536) / 256 < 256
  /\ 0 <= (a mod 65536) mod 256 < 256.
Proof.
  intros Ha.
  pose proof (Z.mod_pos_bound a 65536 ltac:(lia)).
  pose proof (Z.mod_pos_bound (a mod 65536) 256 ltac:(lia)).
  repeat split; try lia.
  - apply Z.div_pos; lia.
  - apply Z.div_lt_upper_bound; lia.
  - apply Z.div_pos; lia.
  - apply Z.div_lt_upper_bound; lia.
Qed.

(** C4. For a transfer inside the volume, the segment computed at linear
    address [a = start_addr + done] has disk index [a / 65536], block index
    [(a mod 65536) / 256], offset [(a mod 65536) mod 256] and length
    [min (remaining, 256 - offset)]; the masks of [mdadm_read] and the
    [uint8_t] conversions of [mdadm_write] leave the two indices as they
    are.  Address 0 is (disk 0, block 0, offset 0), address 65536 is
    (disk 1, block 0, offset 0) and address 300 is (disk 0, block 1,
    offset 44). *)
Theorem address_translation :
  (forall start_addr len done,
      0 <= start_addr -> 0 <= done < len -> start_addr + len <= 16 * 65536 ->
      let a := start_addr + done in
      let s := segment_at start_addr len done in
      seg_disk s = a / 65536
      /\ seg_block s = (a mod 65536) / 256
      /\ seg_offset s = (a mod 65536) mod 256
      /\ seg_len s = Z.min (len - done) (256 - seg_offset s)
      /\ Z.land (seg_disk s) 15 = seg_disk s
      /\ Z.land (seg_block s) 255 = seg_block s
      /\ u8 (seg_disk s) = seg_disk s
      /\ u8 (seg_block s) = seg_block s)
  /\ (let s := segment_at 0 1 0 in
      (seg_disk s, seg_block s, seg_offset s) = (0, 0, 0))
  /\ (let s := segment_at 65536 1 0 in
      (seg_disk s, seg_block s, seg_offset s) = (1, 0, 0))
  /\ (let s := segment_at 300 1 0 in
      (seg_disk s, seg_block s, seg_offset s) = (0, 1, 44)).
Proof.
  split; [| repeat split; reflexivity].
  intros start_addr len done Hs Hd Hl a s. subst s.
  rewrite segment_at_in_range by assumption. cbn [seg_disk seg_block seg_offset seg_len].
  fold a.
  destruct (segment_bounds a) as (Hd' & Hb' & _); [unfold a; lia |].
  repeat split.
  - change 15 with (Z.ones 4). rewrite Z.land_ones by lia.
    apply Z.mod_small. simpl. lia.
  - change 255 with (Z.ones 8). rewrite Z.land_ones by lia.
    apply Z.mod_small. simpl. lia.
  - unfold u8. apply Z.mod_small. simpl. lia.
  - unfold u8. apply Z.mod_small. simpl. lia.
Qed.

Lemma address_translation_witness :
  let s := segment_at 300 700 256 in
  seg_disk s = 0 /\ seg_block s = 2 /\ seg_offset s = 44 /\ seg_len s = 212.
Proof.
  pose proof (proj1 address_translation 300 700 256
                ltac:(lia) ltac:(lia) ltac:(lia)) as H.
  cbv zeta in H. destruct H as (H1 & H2 & H3 & H4 & _).
  cbv zeta. rewrite H4, H3, H2, H1. repeat split; reflexivity.
Defined.

End Translation.

(** * Properties of the volume engine *)

Section EngineFacts.

Import Mdadm.

Context {device : Type}.
Variable jbod_operation :
  Z -> option (list Z) -> device -> Z * option (list Z) * device.
Variable stack_block : list Z.

(** C10. [mdadm_write_permission] and [mdadm_revoke_write_permission]
    return 0 in every state, set the write-permission flag and nothing
    else: the mount flag and the state of the disk array are untouched and
    no operation word is handed to [jbod_operation], so the grant and
    revoke commands of the array are never issued. *)
Theorem write_permission_frame (st : mdadm_state (device := device)) :
  (fst (mdadm_write_permission st) = 0
   /\ write_permission (snd (mdadm_write_permission st)) = true
   /\ mounted (snd (mdadm_write_permission st)) = mounted st
   /\ jbod (snd (mdadm_write_permission st)) = jbod st
   /\ issued (snd (mdadm_write_permission st)) = issued st)
  /\ (fst (mdadm_revoke_write_permission st) = 0
      /\ write_permission (snd (mdadm_revoke_write_permission st)) = false
      /\ mounted (snd (mdadm_revoke_write_permission st)) = mounted st
      /\ jbod (snd (mdadm_revoke_write_permission st)) = jbod st
      /\ issued (snd (mdadm_revoke_write_permission st)) = issued st).
Proof. unfold mdadm_write_permission, mdadm_revoke_write_permission. simpl. tauto. Qed.

(** C2 (amended). While mounted, a read of length 0 returns 0 for every
    start address up to and including the end of the volume (1048576) and
    -1 for every start address beyond it; a write of length 0, with write
    permission granted, returns 0 for every start address and every
    buffer, null included.  Neither touches the state or the disk array. *)
Theorem zero_length_transfers (st : mdadm_state (device := device))
    (start_addr : Z) (buf : option (list Z)) :
  mounted st <> 0 ->
  0 <= start_addr < 2 ^ 32 ->
  mdadm_read jbod_operation stack_block start_addr 0 buf st
    = Some (if start_addr <=? 16 * 65536 then 0 else -1, buf, st)
  /\ (write_permission st = true ->
      mdadm_write jbod_operation start_addr 0 buf st = Some (0, st)).
Proof.
  intros Hm Hs. split.
  - unfold mdadm_read.
    destruct (Z.eqb_spec (mounted st) 0) as [E | _]; [contradiction |].
    simpl.
    destruct (out_of_range start_addr 0) eqn:Hoor.
    + apply out_of_range_spec in Hoor; [| lia | lia].
      destruct (Z.leb_spec start_addr (16 * 65536)); [lia | reflexivity].
    + assert (Hle : ~ start_addr + 0 > 16 * 65536).
      { intros Hgt. apply out_of_range_spec in Hgt; [| lia | lia]. congruence. }
      destruct (Z.leb_spec start_addr (16 * 65536)); [| lia].
      destruct buf as [b |]; [| reflexivity].
      destruct b; reflexivity.
  - intros Hw. unfold mdadm_write.
    destruct (Z.eqb_spec (mounted st) 0) as [E | _]; [contradiction |].
    rewrite Hw. reflexivity.
Qed.

Lemma read_segment_result (s : segment) (buf : list Z) (k : Z)
    (st : mdadm_state (device := device)) :
  fst (fst (read_segment jbod_operation stack_block s buf k st)) = -4
  \/ fst (fst (read_segment jbod_operation stack_block s buf k st)) = 0.
Proof.
  unfold read_segment.
  destruct (jbod_call _ _ None st) as [[rc1 b1] st1].
  destruct (negb (rc1 =? 0)); [left; reflexivity |].
  destruct (jbod_call _ _ None st1) as [[rc2 b2] st2].
  destruct (negb (rc2 =? 0)); [left; reflexivity |].
  destruct (jbod_call _ _ (Some stack_block) st2) as [[rc3 b3] st3].
  destruct (negb (rc3 =? 0)); [left | right]; reflexivity.
Qed.

Lemma write_segment_result (s : segment) (buf : list Z) (k : Z)
    (st : mdadm_state (device := device)) :
  fst (write_segment jbod_operation s buf k st) = -4
  \/ fst (write_segment jbod_operation s buf k st) = 0.
Proof.
  unfold write_segment.
  destruct (jbod_call _ _ None st) as [[rc1 b1] st1].
  destruct (negb (rc1 =? 0)); [left; reflexivity |].
  destruct (jbod_call _ _ None st1) as [[rc2 b2] st2].
  destruct (negb (rc2 =? 0)); [left; reflexivity |].
  destruct (if (seg_len s <? JBOD_BLOCK_SIZE) || negb (seg_offset s =? 0)
            then _ else _) as [[rc3 b3] st3].
  destruct (negb (rc3 =? 0)); [left; reflexivity |].
  destruct (jbod_call _ _ (Some _) st3) as [[rc4 b4] st4].
  destruct (negb (rc4 =? 0)); [left | right]; reflexivity.
Qed.

(** Inside the volume each iteration moves at least one byte, so the loops
    end within [read_len] (resp. [write_len]) iterations: with the value -4
    as soon as an operation of the array fails, with the length otherwise. *)
Lemma read_loop_outcome (start_addr read_len : Z) :
  0 <= start_addr -> start_addr + read_len <= 16 * 65536 ->
  forall (fuel : nat) (buf : list Z) (k : Z) (st : mdadm_state (device := device)),
    0 <= k <= read_len -> read_len - k <= Z.of_nat fuel ->
    exists rc buf' st',
      read_loop jbod_operation stack_block fuel start_addr read_len buf k st
        = Some (rc, buf', st')
      /\ (rc = -4 \/ rc = read_len).
Proof.
  intros Hs Hend. induction fuel as [| fuel IH]; intros buf k st Hk Hfuel;
    cbn [read_loop].
  - destruct (Z.ltb_spec k read_len); [lia |].
    exists k, buf, st. split; [reflexivity | right; lia].
  - destruct (Z.ltb_spec k read_len); [| exists k, buf, st; split; [reflexivity | right; lia]].
    cbv zeta.
    pose proof (read_segment_result (segment_at start_addr read_len k) buf k st) as Hseg.
    destruct (read_segment _ _ _ buf k st) as [[rc1 b1] st1]. cbn [fst] in Hseg.
    destruct Hseg as [-> | ->].
    + exists (-4), b1, st1. split; [reflexivity | left; reflexivity].
    + change (negb (0 =? 0)) with false. cbv iota.
      rewrite (segment_at_in_range start_addr read_len k) by lia. cbn [seg_len].
      pose proof (Z.mod_pos_bound ((start_addr + k) mod 65536) 256 ltac:(lia)).
      rewrite u32_small by lia.
      apply IH; lia.
Qed.

Lemma write_loop_outcome (start_addr write_len : Z) (buf : list Z) :
  0 <= start_addr -> start_addr + write_len <= 16 * 65536 ->
  forall (fuel : nat) (k : Z) (st : mdadm_state (device := device)),
    0 <= k <= write_len -> write_len - k <= Z.of_nat fuel ->
    exists rc st',
      write_loop jbod_operation fuel start_addr write_len buf k st = Some (rc, st')
      /\ (rc = -4 \/ rc = write_len).
Proof.
  intros Hs Hend. induction fuel as [| fuel IH]; intros k st Hk Hfuel;
    cbn [write_loop].
  - destruct (Z.ltb_spec k write_len); [lia |].
    exists k, st. split; [reflexivity | right; lia].
  - destruct (Z.ltb_spec k write_len); [| exists k, st; split; [reflexivity | right; lia]].
    cbv zeta.
    pose proof (write_segment_result (segment_at start_addr write_len k) buf k st) as Hseg.
    destruct (write_segment _ _ buf k st) as [rc1 st1]. cbn [fst] in Hseg.
    destruct Hseg as [-> | ->].
    + exists (-4), st1. split; [reflexivity | left; reflexivity].
    + change (negb (0 =? 0)) with false. cbv iota.
      rewrite (segment_at_in_range start_addr write_len k) by lia. cbn [seg_len].
      pose proof (Z.mod_pos_bound ((start_addr + k) mod 65536) 256 ltac:(lia)).
      rewrite u32_small by lia.
      apply IH; lia.
Qed.

Local Ltac rejected rc :=
  exists rc; split; [reflexivity | split; [lia | intros; simpl; try contradiction; try reflexivity]].

(** C5 (amended). A read of length above 1024, or whose range
    [start_addr + length] overflows or passes the end of the volume, and a
    write issued without write permission, of length above 1024, or of
    non-zero length with such a range, return a negative value and leave
    the state as it was: no operation reaches the disk array.  While
    mounted the value is -5 without permission, else -2 for the length,
    else -4 for a null buffer of a non-empty transfer, else -1 for the
    range. *)
Theorem rejected_transfers_issue_nothing (st : mdadm_state (device := device))
    (start_addr len : Z) (buf : option (list Z)) :
  0 <= start_addr < 2 ^ 32 ->
  0 <= len < 2 ^ 32 ->
  (len > 1024 \/ start_addr + len > 16 * 65536 ->
   exists rc,
     mdadm_read jbod_operation stack_block start_addr len buf st = Some (rc, buf, st)
     /\ rc < 0
     /\ (mounted st <> 0 ->
         rc = if len >? 1024 then -2
              else if (len >? 0) && bool_decide (buf = None) then -4
              else -1))
  /\ (write_permission st = false \/ len > 1024
      \/ (len <> 0 /\ start_addr + len > 16 * 65536) ->
      exists rc,
        mdadm_write jbod_operation start_addr len buf st = Some (rc, st)
        /\ rc < 0
        /\ (mounted st <> 0 ->
            rc = if negb (write_permission st) then -5
                 else if len >? 1024 then -2
                 else if (len >? 0) && bool_decide (buf = None) then -4
                 else -1)).
Proof.
  intros Hs Hl. split.
  - intros Hbad. unfold mdadm_read.
    destruct (Z.eqb_spec (mounted st) 0) as [E | NE].
    { rejected (-3). }
    destruct (Z.gtb_spec len 1024) as [Hgt | Hle].
    { rejected (-2). }
    destruct ((len >? 0) && bool_decide (buf = None)).
    { rejected (-4). }
    assert (Hoor : out_of_range start_addr len = true).
    { apply out_of_range_spec; [lia | lia |]. destruct Hbad; lia. }
    rewrite Hoor. rejected (-1).
  - intros Hbad. unfold mdadm_write.
    destruct (Z.eqb_spec (mounted st) 0) as [E | NE].
    { rejected (-3). }
    destruct (write_permission st) eqn:Hw; simpl.
    2:{ rejected (-5). }
    destruct (Z.gtb_spec len 1024) as [Hgt | Hle].
    { rejected (-2). }
    destruct ((len >? 0) && bool_decide (buf = None)).
    { rejected (-4). }
    destruct Hbad as [Hbad | [Hbad | [Hnz Hbad]]]; [discriminate | lia |].
    destruct (Z.eqb_spec len 0) as [E0 | _]; [contradiction |].
    assert (Hoor : out_of_range start_addr len = true).
    { apply out_of_range_spec; lia. }
    rewrite Hoor. rejected (-1).
Qed.

(** ** Failed operations of the array *)

Lemma jbod_call_recorded (op : Z) (blk : option (list Z))
    (st : mdadm_state (device := device * list Z)) :
  exists rc b st',
    jbod_call (recording jbod_operation) op blk st = (rc, b, st')
    /\ issued st' = issued st ++ [op]
    /\ snd (jbod st') = snd (jbod st) ++ [rc].
Proof.
  unfold jbod_call, recording.
  destruct (jbod_operation op blk (fst (jbod st))) as [[rc b] d].
  eexists _, _, _. split_and!; reflexivity.
Qed.

Lemma stopped_after (ok codes : list Z) :
  all_succeeded ok -> stopped_at_failure codes -> stopped_at_failure (ok ++ codes).
Proof.
  intros Hok (ok' & bad & -> & Hok' & Hbad).
  exists (ok ++ ok'), bad. rewrite app_assoc.
  split_and!; [reflexivity | apply Forall_app; split; assumption | exact Hbad].
Qed.

Lemma read_segment_recorded (s : segment) (buf : list Z) (k : Z)
    (st : mdadm_state (device := device * list Z)) :
  exists rc buf' st' ops codes,
    read_segment (recording jbod_operation) stack_block s buf k st = (rc, buf', st')
    /\ issued st' = issued st ++ ops
    /\ snd (jbod st') = snd (jbod st) ++ codes
    /\ length ops = length codes
    /\ ((rc = 0 /\ all_succeeded codes) \/ (rc = -4 /\ stopped_at_failure codes)).
Proof.
  unfold read_segment.
  destruct (jbod_call_recorded
              (encode_op JBOD_SEEK_TO_DISK (Z.land (seg_disk s) 15) 0) None st)
    as (rc1 & b1 & st1 & -> & Hi1 & Hc1).
  destruct (Z.eqb_spec rc1 0) as [-> | Hne1]; cbn [negb].
  2:{ eexists _, _, _, _, _. split; [reflexivity |].
      split_and!; [exact Hi1 | exact Hc1 | reflexivity |].
      right. split; [reflexivity |]. exists [], rc1.
      split_and!; [reflexivity | constructor 1 | exact Hne1]. }
  destruct (jbod_call_recorded
              (encode_op JBOD_SEEK_TO_BLOCK 0 (Z.land (seg_block s) 255)) None st1)
    as (rc2 & b2 & st2 & -> & Hi2 & Hc2).
  rewrite Hi1 in Hi2. rewrite Hc1 in Hc2. rewrite <- app_assoc in Hi2, Hc2.
  destruct (Z.eqb_spec rc2 0) as [-> | Hne2]; cbn [negb].
  2:{ eexists _, _, _, _, _. split; [reflexivity |].
      split_and!; [exact Hi2 | exact Hc2 | reflexivity |].
      right. split; [reflexivity |]. exists [0], rc2.
      split_and!; [reflexivity | repeat constructor | exact Hne2]. }
  destruct (jbod_call_recorded (encode_op JBOD_READ_BLOCK 0 0) (Some stack_block) st2)
    as (rc3 & b3 & st3 & -> & Hi3 & Hc3).
  rewrite Hi2 in Hi3. rewrite Hc2 in Hc3. rewrite <- app_assoc in Hi3, Hc3.
  destruct (Z.eqb_spec rc3 0) as [-> | Hne3]; cbn [negb].
  2:{ eexists _, _, _, _, _. split; [reflexivity |].
      split_and!; [exact Hi3 | exact Hc3 | reflexivity |].
      right. split; [reflexivity |]. exists [0; 0], rc3.
      split_and!; [reflexivity | repeat constructor | exact Hne3]. }
  eexists _, _, _, _, _. split; [reflexivity |].
  split_and!; [exact Hi3 | exact Hc3 | reflexivity |].
  left. split; [reflexivity | repeat constructor].
Qed.

Lemma write_segment_recorded (s : segment) (buf : list Z) (k : Z)
    (st : mdadm_state (device := device * list Z)) :
  exists rc st' ops codes,
    write_segment (recording jbod_operation) s buf k st = (rc, st')
    /\ issued st' = issued st ++ ops
    /\ snd (jbod st') = snd (jbod st) ++ codes
    /\ length ops = length codes
    /\ ((rc = 0 /\ all_succeeded codes) \/ (rc = -4 /\ stopped_at_failure codes)).
Proof.
  unfold write_segment.
  destruct (jbod_call_recorded (encode_op JBOD_SEEK_TO_DISK (seg_disk s) 0) None st)
    as (rc1 & b1 & st1 & -> & Hi1 & Hc1).
  destruct (Z.eqb_spec rc1 0) as [-> | Hne1]; cbn [negb].
  2:{ eexists _, _, _, _. split; [reflexivity |].
      split_and!; [exact Hi1 | exact Hc1 | reflexivity |].
      right. split; [reflexivity |]. exists [], rc1.
      split_and!; [reflexivity | constructor 1 | exact Hne1]. }
  destruct (jbod_call_recorded (encode_op JBOD_SEEK_TO_BLOCK 0 (seg_block s)) None st1)
    as (rc2 & b2 & st2 & -> & Hi2 & Hc2).
  rewrite Hi1 in Hi2. rewrite Hc1 in Hc2. rewrite <- app_assoc in Hi2, Hc2.
  destruct (Z.eqb_spec rc2 0) as [-> | Hne2]; cbn [negb].
  2:{ eexists _, _, _, _. split; [reflexivity |].
      split_and!; [exact Hi2 | exact Hc2 | reflexivity |].
      right. split; [reflexivity |]. exists [0], rc2.
      split_and!; [reflexivity | repeat constructor | exact Hne2]. }
  set (zeros := replicate (Z.to_nat JBOD_BLOCK_SIZE) 0).
  destruct ((seg_len s <? JBOD_BLOCK_SIZE) || negb (seg_offset s =? 0)).
  - destruct (jbod_call_recorded (encode_op JBOD_READ_BLOCK 0 0) (Some zeros) st2)
      as (rc3 & b3 & st3 & -> & Hi3 & Hc3).
    rewrite Hi2 in Hi3. rewrite Hc2 in Hc3. rewrite <- app_assoc in Hi3, Hc3.
    destruct (Z.eqb_spec rc3 0) as [-> | Hne3]; cbn [negb].
    2:{ eexists _, _, _, _. split; [reflexivity |].
        split_and!; [exact Hi3 | exact Hc3 | reflexivity |].
        right. split; [reflexivity |]. exists [0; 0], rc3.
        split_and!; [reflexivity | repeat constructor | exact Hne3]. }
    destruct (jbod_call_recorded (encode_op JBOD_WRITE_BLOCK 0 0)
                (Some (memcpy b3 (seg_offset s) buf k (seg_len s))) st3)
      as (rc4 & b4 & st4 & -> & Hi4 & Hc4).
    rewrite Hi3 in Hi4. rewrite Hc3 in Hc4. rewrite <- app_assoc in Hi4, Hc4.
    destruct (Z.eqb_spec rc4 0) as [-> | Hne4]; cbn [negb].
    2:{ eexists _, _, _, _. split; [reflexivity |].
        split_and!; [exact Hi4 | exact Hc4 | reflexivity |].
        right. split; [reflexivity |]. exists [0; 0; 0], rc4.
        split_and!; [reflexivity | repeat constructor | exact Hne4]. }
    eexists _, _, _, _. split; [reflexivity |].
    split_and!; [exact Hi4 | exact Hc4 | reflexivity |].
    left. split; [reflexivity | repeat constructor].
  - change (negb (0 =? 0)) with false. cbv iota.
    destruct (jbod_call_recorded (encode_op JBOD_WRITE_BLOCK 0 0)
                (Some (memcpy zeros (seg_offset s) buf k (seg_len s))) st2)
      as (rc4 & b4 & st4 & -> & Hi4 & Hc4).
    rewrite Hi2 in Hi4. rewrite Hc2 in Hc4. rewrite <- app_assoc in Hi4, Hc4.
    destruct (Z.eqb_spec rc4 0) as [-> | Hne4]; cbn [negb].
    2:{ eexists _, _, _, _. split; [reflexivity |].
        split_and!; [exact Hi4 | exact Hc4 | reflexivity |].
        right. split; [reflexivity |]. exists [0; 0], rc4.
        split_and!; [reflexivity | repeat constructor | exact Hne4]. }
    eexists _, _, _, _. split; [reflexivity |].
    split_and!; [exact Hi4 | exact Hc4 | reflexivity |].
    left. split; [reflexivity | repeat constructor].
Qed.

(** Inside the volume a loop returns the length when every operation of the
    array succeeded, and -4 right after the first one that failed. *)
Lemma read_loop_recorded (start_addr read_len : Z) :
  0 <= start_addr -> start_addr + read_len <= 16 * 65536 ->
  forall (fuel : nat) (buf : list Z) (k : Z)
         (st : mdadm_state (device := device * list Z)),
    0 <= k <= read_len -> read_len - k <= Z.of_nat fuel ->
    exists rc buf' st' ops codes,
      read_loop (recording jbod_operation) stack_block fuel start_addr read_len buf k st
        = Some (rc, buf', st')
      /\ issued st' = issued st ++ ops
      /\ snd (jbod st') = snd (jbod st) ++ codes
      /\ length ops = length codes
      /\ ((rc = read_len /\ all_succeeded codes)
          \/ (rc = -4 /\ stopped_at_failure codes)).
Proof.
  intros Hs Hend. induction fuel as [| fuel IH]; intros buf k st Hk Hfuel;
    cbn [read_loop].
  - destruct (Z.ltb_spec k read_len); [lia |].
    exists k, buf, st, [], []. rewrite !app_nil_r.
    split_and!; try reflexivity. left. split; [lia | constructor 1].
  - destruct (Z.ltb_spec k read_len).
    2:{ exists k, buf, st, [], []. rewrite !app_nil_r.
        split_and!; try reflexivity. left. split; [lia | constructor 1]. }
    cbv zeta.
    destruct (read_segment_recorded (segment_at start_addr read_len k) buf k st)
      as (rc1 & b1 & st1 & ops1 & codes1 & -> & Hi1 & Hc1 & Hl1 & [[-> Hok] | [-> Hbad]]).
    + change (negb (0 =? 0)) with false. cbv iota.
      rewrite (segment_at_in_range start_addr read_len k) by lia. cbn [seg_len].
      pose proof (Z.mod_pos_bound ((start_addr + k) mod 65536) 256 ltac:(lia)).
      rewrite u32_small by lia.
      destruct (IH b1 (k + Z.min (read_len - k)
                                 (256 - ((start_addr + k) mod 65536) mod 256)) st1
                  ltac:(lia) ltac:(lia))
        as (rc & buf' & st' & ops & codes & -> & Hi & Hc & Hl & Hout).
      exists rc, buf', st', (ops1 ++ ops), (codes1 ++ codes).
      split_and!; [reflexivity | | | |].
      * rewrite Hi, Hi1, <- app_assoc. reflexivity.
      * rewrite Hc, Hc1, <- app_assoc. reflexivity.
      * rewrite !length_app. lia.
      * destruct Hout as [[-> Hok'] | [-> Hbad]].
        -- left. split; [reflexivity | apply Forall_app; split; assumption].
        -- right. split; [reflexivity | apply stopped_after; assumption].
    + change (negb (-4 =? 0)) with true. cbv iota.
      exists (-4), b1, st1, ops1, codes1.
      split_and!; try assumption; [reflexivity |]. right. split; [reflexivity | exact Hbad].
Qed.

Lemma write_loop_recorded (start_addr write_len : Z) (buf : list Z) :
  0 <= start_addr -> start_addr + write_len <= 16 * 65536 ->
  forall (fuel : nat) (k : Z) (st : mdadm_state (device := device * list Z)),
    0 <= k <= write_len -> write_len - k <= Z.of_nat fuel ->
    exists rc st' ops codes,
      write_loop (recording jbod_operation) fuel start_addr write_len buf k st
        = Some (rc, st')
      /\ issued st' = issued st ++ ops
      /\ snd (jbod st') = snd (jbod st) ++ codes
      /\ length ops = length codes
      /\ ((rc = write_len /\ all_succeeded codes)
          \/ (rc = -4 /\ stopped_at_failure codes)).
Proof.
  intros Hs Hend. induction fuel as [| fuel IH]; intros k st Hk Hfuel;
    cbn [write_loop].
  - destruct (Z.ltb_spec k write_len); [lia |].
    exists k, st, [], []. rewrite !app_nil_r.
    split_and!; try reflexivity. left. split; [lia | constructor 1].
  - destruct (Z.ltb_spec k write_len).
    2:{ exists k, st, [], []. rewrite !app_nil_r.
        split_and!; try reflexivity. left. split; [lia | constructor 1]. }
    cbv zeta.
    destruct (write_segment_recorded (segment_at start_addr write_len k) buf k st)
      as (rc1 & st1 & ops1 & codes1 & -> & Hi1 & Hc1 & Hl1 & [[-> Hok] | [-> Hbad]]).
    + change (negb (0 =? 0)) with false. cbv iota.
      rewrite (segment_at_in_range start_addr write_len k) by lia. cbn [seg_len].
      pose proof (Z.mod_pos_bound ((start_addr + k) mod 65536) 256 ltac:(lia)).
      rewrite u32_small by lia.
      destruct (IH (k + Z.min (write_len - k)
                              (256 - ((start_addr + k) mod 65536) mod 256)) st1
                  ltac:(lia) ltac:(lia))
        as (rc & st' & ops & codes & -> & Hi & Hc & Hl & Hout).
      exists rc, st', (ops1 ++ ops), (codes1 ++ codes).
      split_and!; [reflexivity | | | |].
      * rewrite Hi, Hi1, <- app_assoc. reflexivity.
      * rewrite Hc, Hc1, <- app_assoc. reflexivity.
      * rewrite !length_app. lia.
      * destruct Hout as [[-> Hok'] | [-> Hbad]].
        -- left. split; [reflexivity | apply Forall_app; split; assumption].
        -- right. split; [reflexivity | apply stopped_after; assumption].
    + change (negb (-4 =? 0)) with true. cbv iota.
      exists (-4), st1, ops1, codes1.
      split_and!; try assumption; [reflexivity |]. right. split; [reflexivity | exact Hbad].
Qed.

(** C8 (amended). Every failure of [mdadm_read] and [mdadm_write] is
    reported as a negative value: -3 unmounted, -5 permission denied, -2
    length above 1024, -1 range, and -4 both for a null buffer and for a
    failed operation of the disk array.  Two different failure kinds
    yield different values unless they are the null buffer and the device
    error.  A call that passes the checks returns its length when every
    operation of the array succeeded, and the value of the device error
    right after the first operation that failed, which is then the last
    one it issued. *)
Theorem failure_codes :
  (forall k, failure_code k < 0)
  /\ (forall k1 k2, failure_code k1 = failure_code k2 ->
        k1 = k2 \/ (k1 = NullBuffer /\ k2 = DeviceError)
        \/ (k1 = DeviceError /\ k2 = NullBuffer))
  /\ (forall (st : mdadm_state (device := device)) start_addr len buf,
        0 <= start_addr < 2 ^ 32 -> 0 <= len < 2 ^ 32 ->
        match read_rejection st start_addr len buf with
        | Some k =>
            mdadm_read jbod_operation stack_block start_addr len buf st
              = Some (failure_code k, buf, st)
        | None =>
            exists rc buf' st',
              mdadm_read jbod_operation stack_block start_addr len buf st
                = Some (rc, buf', st')
              /\ (rc = failure_code DeviceError \/ rc = len)
        end)
  /\ (forall (st : mdadm_state (device := device)) start_addr len buf,
        0 <= start_addr < 2 ^ 32 -> 0 <= len < 2 ^ 32 ->
        match write_rejection st start_addr len buf with
        | Some k =>
            mdadm_write jbod_operation start_addr len buf st
              = Some (failure_code k, st)
        | None =>
            exists rc st',
              mdadm_write jbod_operation start_addr len buf st = Some (rc, st')
              /\ (rc = failure_code DeviceError \/ rc = len)
        end)
  /\ (forall (st : mdadm_state (device := device * list Z)) start_addr len buf,
        0 <= start_addr < 2 ^ 32 -> 0 <= len < 2 ^ 32 ->
        read_rejection st start_addr len buf = None ->
        exists rc buf' st' ops codes,
          mdadm_read (recording jbod_operation) stack_block start_addr len buf st
            = Some (rc, buf', st')
          /\ issued st' = issued st ++ ops
          /\ snd (jbod st') = snd (jbod st) ++ codes
          /\ length ops = length codes
          /\ ((rc = len /\ all_succeeded codes)
              \/ (rc = failure_code DeviceError /\ stopped_at_failure codes)))
  /\ (forall (st : mdadm_state (device := device * list Z)) start_addr len buf,
        0 <= start_addr < 2 ^ 32 -> 0 <= len < 2 ^ 32 ->
        write_rejection st start_addr len buf = None ->
        exists rc st' ops codes,
          mdadm_write (recording jbod_operation) start_addr len buf st
            = Some (rc, st')
          /\ issued st' = issued st ++ ops
          /\ snd (jbod st') = snd (jbod st) ++ codes
          /\ length ops = length codes
          /\ ((rc = len /\ all_succeeded codes)
              \/ (rc = failure_code DeviceError /\ stopped_at_failure codes))).
Proof.
  split; [intros []; simpl; lia |].
  split; [intros [] []; simpl; intros H; try discriminate H; tauto |].
  assert (Hnone : forall (st : mdadm_state (device := device * list Z)) (rc : Z),
             exists ops codes : list Z,
               issued st = issued st ++ ops
               /\ snd (jbod st) = snd (jbod st) ++ codes
               /\ length ops = length codes
               /\ ((rc = rc /\ all_succeeded codes)
                   \/ (rc = failure_code DeviceError /\ stopped_at_failure codes))).
  { intros st rc. exists [], []. rewrite !app_nil_r.
    split_and!; try reflexivity. left. split; [reflexivity | constructor 1]. }
  split; [| split; [| split]].
  3:{ intros st start_addr len buf Hs Hl. unfold read_rejection, mdadm_read.
      destruct (mounted st =? 0); [discriminate |].
      destruct (Z.gtb_spec len 1024); [discriminate |].
      destruct ((len >? 0) && bool_decide (buf = None)) eqn:Hnull; [discriminate |].
      destruct (out_of_range start_addr len) eqn:Hoor; [discriminate |].
      intros _.
      assert (Hend : start_addr + len <= 16 * 65536).
      { destruct (Z_le_gt_dec (start_addr + len) (16 * 65536)) as [Hle | Hgt];
          [exact Hle |].
        apply out_of_range_spec in Hgt; [congruence | lia | lia]. }
      destruct buf as [b |].
      - destruct (read_loop_recorded start_addr len ltac:(lia) Hend
                    (Z.to_nat len) b 0 st ltac:(lia) ltac:(lia))
          as (rc & b' & st' & ops & codes & -> & Hrest).
        exists rc, (Some b'), st', ops, codes. split; [reflexivity | exact Hrest].
      - assert (len = 0) as ->.
        { rewrite andb_true_r in Hnull. rewrite Z.gtb_ltb, Z.ltb_ge in Hnull. lia. }
        destruct (Hnone st 0) as (ops & codes & Hrest).
        exists 0, None, st, ops, codes. split; [reflexivity | exact Hrest]. }
  3:{ intros st start_addr len buf Hs Hl. unfold write_rejection, mdadm_write.
      destruct (mounted st =? 0); [discriminate |].
      destruct (negb (write_permission st)); [discriminate |].
      destruct (Z.gtb_spec len 1024); [discriminate |].
      destruct ((len >? 0) && bool_decide (buf = None)) eqn:Hnull; [discriminate |].
      destruct (Z.eqb_spec len 0) as [-> | Hnz]; cbn [negb andb].
      { intros _. destruct (Hnone st 0) as (ops & codes & Hrest).
        exists 0, st, ops, codes. split; [reflexivity | exact Hrest]. }
      destruct (out_of_range start_addr len) eqn:Hoor; [discriminate |].
      intros _.
      assert (Hend : start_addr + len <= 16 * 65536).
      { destruct (Z_le_gt_dec (start_addr + len) (16 * 65536)) as [Hle | Hgt];
          [exact Hle |].
        apply out_of_range_spec in Hgt; [congruence | lia | lia]. }
      destruct buf as [b |].
      - apply (write_loop_recorded start_addr len b ltac:(lia) Hend
                 (Z.to_nat len) 0 st ltac:(lia) ltac:(lia)).
      - exfalso. rewrite andb_true_r in Hnull.
        rewrite Z.gtb_ltb, Z.ltb_ge in Hnull. lia. }
  - intros st start_addr len buf Hs Hl. unfold read_rejection, mdadm_read.
    destruct (mounted st =? 0); [reflexivity |].
    destruct (Z.gtb_spec len 1024); [reflexivity |].
    destruct ((len >? 0) && bool_decide (buf = None)) eqn:Hnull; [reflexivity |].
    destruct (out_of_range start_addr len) eqn:Hoor; [reflexivity |].
    assert (Hend : start_addr + len <= 16 * 65536).
    { destruct (Z_le_gt_dec (start_addr + len) (16 * 65536)) as [Hle | Hgt]; [exact Hle |].
      apply out_of_range_spec in Hgt; [congruence | lia | lia]. }
    destruct buf as [b |].
    + destruct (read_loop_outcome start_addr len ltac:(lia) Hend
                  (Z.to_nat len) b 0 st ltac:(lia) ltac:(lia))
        as (rc & b' & st' & -> & Hrc).
      exists rc, (Some b'), st'. split; [reflexivity | exact Hrc].
    + exists 0, None, st. split; [reflexivity |]. right.
      rewrite andb_true_r in Hnull.
      rewrite Z.gtb_ltb, Z.ltb_ge in Hnull. lia.
  - intros st start_addr len buf Hs Hl. unfold write_rejection, mdadm_write.
    destruct (mounted st =? 0); [reflexivity |].
    destruct (negb (write_permission st)); [reflexivity |].
    destruct (Z.gtb_spec len 1024); [reflexivity |].
    destruct ((len >? 0) && bool_decide (buf = None)) eqn:Hnull; [reflexivity |].
    destruct (Z.eqb_spec len 0) as [-> | Hnz]; cbn [negb andb].
    { exists 0, st. split; [reflexivity | right; reflexivity]. }
    destruct (out_of_range start_addr len) eqn:Hoor; [reflexivity |].
    assert (Hend : start_addr + len <= 16 * 65536).
    { destruct (Z_le_gt_dec (start_addr + len) (16 * 65536)) as [Hle | Hgt]; [exact Hle |].
      apply out_of_range_spec in Hgt; [congruence | lia | lia]. }
    destruct buf as [b |].
    + apply (write_loop_outcome start_addr len b ltac:(lia) Hend
               (Z.to_nat len) 0 st ltac:(lia) ltac:(lia)).
    + exfalso. rewrite andb_true_r in Hnull.
      rewrite Z.gtb_ltb, Z.ltb_ge in Hnull. lia.
Qed.

End EngineFacts.

Section EngineExamples.

Import Mdadm.

Lemma zero_length_transfers_witness :
  mdadm_read failing_jbod_operation [] 1048576 0 None (dead_state 1 true)
    = Some (0, None, dead_state 1 true)
  /\ mdadm_write failing_jbod_operation 4000000 0 None (dead_state 1 true)
     = Some (0, dead_state 1 true).
Proof.
  destruct (zero_length_transfers failing_jbod_operation [] (dead_state 1 true)
              1048576 None ltac:(discriminate) ltac:(lia)) as [Hr _].
  destruct (zero_length_transfers failing_jbod_operation [] (dead_state 1 true)
              4000000 None ltac:(discriminate) ltac:(lia)) as [_ Hw].
  split; [exact Hr | exact (Hw eq_refl)].
Defined.

Lemma failure_codes_witness :
  mdadm_read failing_jbod_operation [] 0 1 None (dead_state 1 true)
    = Some (failure_code NullBuffer, None, dead_state 1 true)
  /\ (exists rc st',
         mdadm_write failing_jbod_operation 0 1 (Some [0]) (dead_state 1 true)
           = Some (rc, st')
         /\ (rc = failure_code DeviceError \/ rc = 1))
  /\ (exists st',
         mdadm_write (recording failing_jbod_operation) 0 1 (Some [0])
           (mk_mdadm 1 true (tt, []) [])
         = Some (failure_code DeviceError, st')
         /\ stopped_at_failure (snd (jbod st'))).
Proof.
  split; [| split].
  - exact (proj1 (proj2 (proj2 (failure_codes failing_jbod_operation [])))
             (dead_state 1 true) 0 1 None ltac:(lia) ltac:(lia)).
  - exact (proj1 (proj2 (proj2 (proj2 (failure_codes failing_jbod_operation []))))
             (dead_state 1 true) 0 1 (Some [0]) ltac:(lia) ltac:(lia)).
  - destruct (proj2 (proj2 (proj2 (proj2 (proj2
                (failure_codes failing_jbod_operation [])))))
                (mk_mdadm 1 true (tt, []) []) 0 1 (Some [0])
                ltac:(lia) ltac:(lia) eq_refl)
      as (rc & st' & ops & codes & Hw & _ & Hc & _ & [[Hrc Hok] | [Hrc Hbad]]).
    + exfalso. rewrite Hrc in Hw. vm_compute in Hw. discriminate Hw.
    + exists st'. rewrite Hrc in Hw. split; [exact Hw |].
      rewrite Hc. exact Hbad.
Defined.

(** C2, as stated, fails: a mounted read of length 0 that starts one byte
    beyond the end of the volume returns -1, not 0. *)
Lemma zero_length_read_beyond_volume :
  mdadm_read failing_jbod_operation [] 1048577 0 None (dead_state 1 true)
    = Some (-1, None, dead_state 1 true).
Proof. reflexivity. Qed.

Lemma rejected_transfers_issue_nothing_witness :
  (exists rc,
      mdadm_read failing_jbod_operation [] 1048000 1000 (Some []) (dead_state 1 true)
        = Some (rc, Some [], dead_state 1 true) /\ rc < 0)
  /\ (exists rc,
         mdadm_write failing_jbod_operation 0 8 (Some []) (dead_state 1 false)
           = Some (rc, dead_state 1 false) /\ rc < 0).
Proof.
  split.
  - destruct (rejected_transfers_issue_nothing failing_jbod_operation []
                (dead_state 1 true) 1048000 1000 (Some [])
                ltac:(lia) ltac:(lia)) as [Hr _].
    destruct (Hr ltac:(lia)) as (rc & H1 & H2 & _). exists rc. split; assumption.
  - destruct (rejected_transfers_issue_nothing failing_jbod_operation []
                (dead_state 1 false) 0 8 (Some [])
                ltac:(lia) ltac:(lia)) as [_ Hw].
    destruct (Hw ltac:(left; reflexivity)) as (rc & H1 & H2 & _).
    exists rc. split; assumption.
Defined.

(** C5, as stated, fails: with the volume mounted and write permission
    granted, a write of length 0 whose start address lies beyond the end
    of the volume does not fail; it returns 0. *)
Lemma zero_length_write_beyond_volume :
  1048577 + 0 > 16 * 65536
  /\ mdadm_write failing_jbod_operation 1048577 0 (Some []) (dead_state 1 true)
     = Some (0, dead_state 1 true).
Proof. split; [lia | reflexivity]. Qed.

(** C8, as stated, fails: a read with a null buffer and a read whose
    first array operation fails are two different failure kinds, and both
    return -4. *)
Lemma null_buffer_and_device_error_collide :
  read_rejection (dead_state 1 true) 0 1 None = Some NullBuffer
  /\ mdadm_read failing_jbod_operation [] 0 1 None (dead_state 1 true)
     = Some (-4, None, dead_state 1 true)
  /\ read_rejection (dead_state 1 true) 0 1 (Some [0]) = None
  /\ mdadm_read failing_jbod_operation [] 0 1 (Some [0]) (dead_state 1 true)
     = Some (-4, Some [0],
             mk_mdadm 1 true tt [encode_op JBOD_SEEK_TO_DISK 0 0])
  /\ NullBuffer <> DeviceError
  /\ failure_code NullBuffer = failure_code DeviceError.
Proof. repeat split; try reflexivity. discriminate. Qed.

End EngineExamples.

(** * Properties of the block cache *)

Section CacheFacts.

Import Cache.

(** ** The three scans *)

Lemma find_cache_entry_from_spec (disk block_ : Z) (es : list cache_entry_t) :
  forall i : Z, 0 <= i ->
    (find_cache_entry_from es i disk block_ = -1
     /\ forall (j : nat) (e : cache_entry_t),
          es !! j = Some e -> valid e = true ->
          disk_num e = disk -> block_num e = block_ -> False)
    \/ (exists (j : nat) (e : cache_entry_t),
          find_cache_entry_from es i disk block_ = i + Z.of_nat j
          /\ es !! j = Some e /\ valid e = true
          /\ disk_num e = disk /\ block_num e = block_).
Proof.
  induction es as [| e es IH]; intros i Hi; simpl.
  - left. split; [reflexivity |]. intros j e' H. discriminate H.
  - destruct (valid e && (disk_num e =? disk) && (block_num e =? block_)) eqn:Hm.
    + right. exists 0%nat, e.
      apply andb_true_iff in Hm as [Hm Hb]. apply andb_true_iff in Hm as [Hv Hd].
      repeat split; [lia | assumption | lia | lia].
    + destruct (IH (i + 1) ltac:(lia)) as [[Hr Hnone] | (j & e' & Hr & Hj & Hv & Hd & Hb)].
      * left. split; [exact Hr |].
        intros [| j] e' Hj Hv Hd Hb.
        -- injection Hj as <-. rewrite Hv in Hm. simpl in Hm.
           apply andb_false_iff in Hm as [Hm | Hm]; lia.
        -- exact (Hnone j e' Hj Hv Hd Hb).
      * right. exists (S j), e'. repeat split; [lia | assumption ..].
Qed.

Lemma find_invalid_entry_from_spec (es : list cache_entry_t) :
  forall i : Z, 0 <= i ->
    (find_invalid_entry_from es i = -1
     /\ forall (j : nat) (e : cache_entry_t), es !! j = Some e -> valid e = true)
    \/ (exists (j : nat) (e : cache_entry_t),
          find_invalid_entry_from es i = i + Z.of_nat j
          /\ es !! j = Some e /\ valid e = false).
Proof.
  induction es as [| e es IH]; intros i Hi; simpl.
  - left. split; [reflexivity |]. intros j e' H. discriminate H.
  - destruct (valid e) eqn:Hv; simpl.
    + destruct (IH (i + 1) ltac:(lia)) as [[Hr Hall] | (j & e' & Hr & Hj & Hv')].
      * left. split; [exact Hr |].
        intros [| j] e' Hj; [injection Hj as <-; exact Hv | exact (Hall j e' Hj)].
      * right. exists (S j), e'. repeat split; [lia | assumption ..].
    + right. exists 0%nat, e. repeat split; [lia | assumption].
Qed.

(** The scan of [find_mru_entry] keeps the running maximum and the first
    index that reached it. *)
Lemma find_mru_entry_from_spec (es : list cache_entry_t) :
  forall i mru_index max_clock : Z,
    (find_mru_entry_from es i mru_index max_clock = mru_index
     /\ forall (j : nat) (e : cache_entry_t),
          es !! j = Some e -> valid e = true -> clock_accesses e <= max_clock)
    \/ (exists (j : nat) (e : cache_entry_t),
          find_mru_entry_from es i mru_index max_clock = i + Z.of_nat j
          /\ es !! j = Some e /\ valid e = true
          /\ max_clock < clock_accesses e
          /\ (forall (j' : nat) (e' : cache_entry_t),
                es !! j' = Some e' -> valid e' = true ->
                clock_accesses e' <= clock_accesses e)
          /\ (forall (j' : nat) (e' : cache_entry_t),
                es !! j' = Some e' -> valid e' = true -> (j' < j)%nat ->
                clock_accesses e' < clock_accesses e)).
Proof.
  induction es as [| e es IH]; intros i mru_index max_clock; simpl.
  - left. split; [reflexivity |]. intros j e' H. discriminate H.
  - destruct (valid e && (clock_accesses e >? max_clock)) eqn:Hm.
    + apply andb_true_iff in Hm as [Hv Hgt]. apply Z.gtb_lt in Hgt.
      destruct (IH (i + 1) i (clock_accesses e))
        as [[Hr Hmax] | (j & e' & Hr & Hj & Hv' & Hgt' & Hmax & Hfirst)].
      * right. exists 0%nat, e. rewrite Hr.
        repeat split; [lia | assumption | lia | |].
        -- intros [| j'] e' Hj' Hv'; [injection Hj' as <-; lia | exact (Hmax j' e' Hj' Hv')].
        -- intros j' e' _ _ Hlt. lia.
      * right. exists (S j), e'. rewrite Hr.
        repeat split; [lia | assumption | assumption | lia | |].
        -- intros [| j'] e'' Hj' Hv''; [injection Hj' as <-; lia | exact (Hmax j' e'' Hj' Hv'')].
        -- intros [| j'] e'' Hj' Hv'' Hlt; [injection Hj' as <-; lia |].
           apply (Hfirst j' e'' Hj' Hv''). lia.
    + assert (Hle : valid e = true -> clock_accesses e <= max_clock).
      { intros Hv. rewrite Hv in Hm. simpl in Hm. rewrite Z.gtb_ltb, Z.ltb_ge in Hm. exact Hm. }
      destruct (IH (i + 1) mru_index max_clock)
        as [[Hr Hmax] | (j & e' & Hr & Hj & Hv' & Hgt' & Hmax & Hfirst)].
      * left. split; [exact Hr |].
        intros [| j'] e' Hj' Hv'; [injection Hj' as <-; auto | exact (Hmax j' e' Hj' Hv')].
      * right. exists (S j), e'. rewrite Hr.
        repeat split; [lia | assumption | assumption | lia | |].
        -- intros [| j'] e'' Hj' Hv''; [injection Hj' as <-; specialize (Hle Hv''); lia
                                       | exact (Hmax j' e'' Hj' Hv'')].
        -- intros [| j'] e'' Hj' Hv'' Hlt; [injection Hj' as <-; specialize (Hle Hv''); lia |].
           apply (Hfirst j' e'' Hj' Hv''). lia.
Qed.

(** ** Updates of one slot *)

Lemma slots_all (st : cache_state) (es : list cache_entry_t) :
  cache st = Some es -> Z.of_nat (length es) = cache_size st -> slots st = es.
Proof. intros H L. unfold slots. rewrite H. simpl. apply take_ge. lia. Qed.

Lemma enabled_of_inv (st : cache_state) (es : list cache_entry_t) :
  cache_inv st -> cache st = Some es ->
  cache_enabled st = true /\ slots st = es /\ default [] (cache st) = es.
Proof.
  intros [_ Hinv] Hc. rewrite Hc in Hinv. destruct Hinv as (Hsz & Hlen & _).
  split; [| split].
  - unfold cache_enabled. rewrite Hc.
    rewrite bool_decide_true by eauto. simpl. apply Z.ltb_lt. lia.
  - apply slots_all; assumption.
  - rewrite Hc. reflexivity.
Qed.

Lemma lookup_alter_inv (f : cache_entry_t -> cache_entry_t) (i : nat)
    (es : list cache_entry_t) (j : nat) (e : cache_entry_t) :
  alter f i es !! j = Some e ->
  exists e0, es !! j = Some e0 /\ ((j <> i /\ e = e0) \/ (j = i /\ e = f e0)).
Proof.
  rewrite list_lookup_alter. destruct (decide (i = j)) as [<- | Hne].
  - destruct (es !! i) as [e0 |]; simpl; [| discriminate].
    intros [= <-]. exists e0. split; [reflexivity | right; split; reflexivity].
  - intros H. exists e. split; [exact H | left; split; [congruence | reflexivity]].
Qed.

Lemma unique_keys_alter (f : cache_entry_t -> cache_entry_t) (i : nat)
    (es : list cache_entry_t) :
  (forall e, valid (f e) = valid e /\ disk_num (f e) = disk_num e
             /\ block_num (f e) = block_num e) ->
  unique_keys es -> unique_keys (alter f i es).
Proof.
  intros Hf Hu a b ea eb Ha Hb Hva Hvb Hd Hbk.
  apply lookup_alter_inv in Ha as (ea0 & Ha & Hea).
  apply lookup_alter_inv in Hb as (eb0 & Hb & Heb).
  apply (Hu a b ea0 eb0 Ha Hb).
  - destruct Hea as [[_ ->] | [_ ->]]; [exact Hva |]. rewrite <- (proj1 (Hf ea0)). exact Hva.
  - destruct Heb as [[_ ->] | [_ ->]]; [exact Hvb |]. rewrite <- (proj1 (Hf eb0)). exact Hvb.
  - destruct (Hf ea0) as (_ & Hda & _). destruct (Hf eb0) as (_ & Hdb & _).
    destruct Hea as [[_ ->] | [_ ->]]; destruct Heb as [[_ ->] | [_ ->]]; congruence.
  - destruct (Hf ea0) as (_ & _ & Hba). destruct (Hf eb0) as (_ & _ & Hbb).
    destruct Hea as [[_ ->] | [_ ->]]; destruct Heb as [[_ ->] | [_ ->]]; congruence.
Qed.

Lemma unique_keys_fill (disk block_ : Z) (src : list Z) (c : Z) (i : nat)
    (es : list cache_entry_t) :
  (forall (j : nat) (e : cache_entry_t),
      es !! j = Some e -> valid e = true ->
      disk_num e = disk -> block_num e = block_ -> False) ->
  unique_keys es -> unique_keys (alter (fill disk block_ src c) i es).
Proof.
  intros Hnew Hu a b ea eb Ha Hb Hva Hvb Hd Hbk.
  apply lookup_alter_inv in Ha as (ea0 & Ha & Hea).
  apply lookup_alter_inv in Hb as (eb0 & Hb & Heb).
  destruct Hea as [[Hai ->] | [Hai ->]]; destruct Heb as [[Hbi ->] | [Hbi ->]].
  - exact (Hu a b ea0 eb0 Ha Hb Hva Hvb Hd Hbk).
  - exfalso. simpl in Hd, Hbk. exact (Hnew a ea0 Ha Hva Hd Hbk).
  - exfalso. simpl in Hd, Hbk. apply (Hnew b eb0 Hb Hvb); congruence.
  - congruence.
Qed.

Lemma ticks_bounded_alter (f : cache_entry_t -> cache_entry_t) (c : Z) (i : nat)
    (es : list cache_entry_t) :
  0 <= c ->
  (forall e, clock_accesses (f e) = c + 1) ->
  ticks_bounded c es ->
  ticks_bounded (c + 1) (alter f i es).
Proof.
  intros Hc Hf Hold j e Hj Hv.
  apply lookup_alter_inv in Hj as (e0 & Hj & [[Hne ->] | [-> ->]]).
  - specialize (Hold j e0 Hj Hv). lia.
  - rewrite Hf. lia.
Qed.

(** ** The copy loop of [cache_resize] *)

Lemma copy_entries_length (n : nat) (old new_cache : list cache_entry_t) :
  length (copy_entries n old new_cache) = length new_cache.
Proof.
  induction n as [| n IH]; simpl; [reflexivity |].
  destruct (old !! n); [rewrite length_insert |]; exact IH.
Qed.

Lemma copy_entries_lookup (n : nat) (old new_cache : list cache_entry_t) (i : nat) :
  (n <= length old)%nat -> (n <= length new_cache)%nat ->
  copy_entries n old new_cache !! i
    = if decide (i < n)%nat then old !! i else new_cache !! i.
Proof.
  induction n as [| n IH]; intros Hold Hnew; simpl.
  - destruct (decide (i < 0)%nat); [lia | reflexivity].
  - destruct (lookup_lt_is_Some_2 old n ltac:(lia)) as [e He]. rewrite He.
    rewrite list_lookup_insert, copy_entries_length.
    rewrite IH by lia.
    destruct (decide (n = i /\ (n < length new_cache)%nat)) as [[-> _] | Hne].
    + destruct (decide (i < S i)%nat); [symmetry; exact He | lia].
    + destruct (decide (i < n)%nat); destruct (decide (i < S n)%nat);
        try reflexivity; lia.
Qed.

(** ** Every call keeps the invariant *)

Lemma inv_enabled (st : cache_state) :
  cache_inv st -> cache_enabled st = true ->
  exists es, cache st = Some es /\ slots st = es /\ default [] (cache st) = es
             /\ 0 <= clock st /\ 2 <= cache_size st <= 4096
             /\ Z.of_nat (length es) = cache_size st
             /\ unique_keys es /\ ticks_bounded (clock st) es.
Proof.
  intros Hinv Hen. unfold cache_enabled in Hen.
  apply andb_true_iff in Hen as [Hen _]. apply bool_decide_eq_true in Hen as [es Hes].
  destruct (enabled_of_inv st es Hinv Hes) as (_ & Hsl & Hdf).
  destruct Hinv as [Hc Hinv]. rewrite Hes in Hinv.
  destruct Hinv as (Hsz & Hlen & Hu & Ht).
  exists es. split_and!; try assumption; lia.
Qed.

Lemma fresh_entries_invalid (fresh_entries : list cache_entry_t)
    (i : nat) (e : cache_entry_t) :
  (invalidate <$> fresh_entries) !! i = Some e -> valid e = false.
Proof.
  rewrite list_lookup_fmap. destruct (fresh_entries !! i); simpl; [| discriminate].
  intros [= <-]. reflexivity.
Qed.

Lemma malloc_length (m : malloc_outcome) (n : Z) (es : list cache_entry_t) :
  malloc m n = Some es -> length es = Z.to_nat n.
Proof.
  unfold malloc. destruct (alloc_ok m); [| discriminate].
  intros [= <-]. rewrite length_fmap, length_seq. reflexivity.
Qed.

Lemma cache_create_inv (m : malloc_outcome) (n : Z) (st : cache_state) :
  cache_inv st -> cache_inv (snd (cache_create m n st)).
Proof.
  intros Hinv. unfold cache_create.
  destruct (bool_decide (is_Some (cache st))) eqn:Hsome; [exact Hinv |]. simpl.
  destruct (Z.ltb_spec n 2); [exact Hinv |].
  destruct (Z.gtb_spec n 4096); [exact Hinv |]. simpl.
  destruct (malloc m n) as [es |] eqn:Hm; [| exact Hinv]. simpl.
  apply malloc_length in Hm.
  split; simpl; [lia |]. split; [lia |]. split.
  { rewrite length_fmap, Hm. lia. }
  split.
  - intros a b ea eb Ha _ Hva. apply fresh_entries_invalid in Ha. congruence.
  - intros a ea Ha Hva. apply fresh_entries_invalid in Ha. congruence.
Qed.

Lemma initial_state_inv : cache_inv initial_state.
Proof. split; simpl; [lia | repeat split]. Qed.

Lemma cache_destroy_inv (st : cache_state) :
  cache_inv st -> cache_inv (snd (cache_destroy st)).
Proof.
  intros Hinv. unfold cache_destroy.
  destruct (cache st); [exact initial_state_inv | exact Hinv].
Qed.

Lemma cache_lookup_inv (disk block_ : Z) (buf : option (list Z)) (st : cache_state) :
  cache_inv st ->
  cache_inv (snd (cache_lookup disk block_ buf st))
  /\ (fst (fst (cache_lookup disk block_ buf st)) = 1 ->
      clock (snd (cache_lookup disk block_ buf st)) = clock st + 1).
Proof.
  intros Hinv. unfold cache_lookup.
  destruct buf as [out |]; [| split; [exact Hinv | discriminate]].
  destruct (cache_enabled st) eqn:Hen; simpl; [| split; [exact Hinv | discriminate]].
  destruct (disk <? 0); simpl; [split; [exact Hinv | discriminate] |].
  destruct (block_ <? 0); simpl; [split; [exact Hinv | discriminate] |].
  destruct (inv_enabled st Hinv Hen) as (es & Hes & Hsl & Hdf & Hc & Hsz & Hlen & Hu & Ht).
  unfold find_cache_entry.
  change (slots _) with (slots st). rewrite Hsl, Hdf.
  destruct (find_cache_entry_from_spec disk block_ es 0 ltac:(lia))
    as [[-> _] | (j & e & -> & Hj & Hv & _)].
  - simpl. split; [| discriminate].
    split; simpl; [lia |]. rewrite Hes. split_and!; assumption || lia.
  - replace (negb (0 + Z.of_nat j =? -1)) with true
      by (symmetry; apply negb_true_iff, Z.eqb_neq; lia).
    replace (Z.to_nat (0 + Z.of_nat j)) with j by lia.
    simpl. split; [| reflexivity].
    split; simpl; [lia |]. split; [lia |]. split; [rewrite length_alter; lia |].
    split.
    + apply unique_keys_alter; [intros e0; repeat split | exact Hu].
    + apply ticks_bounded_alter; [lia | reflexivity | exact Ht].
Qed.

Lemma cache_update_inv (disk block_ : Z) (buf : option (list Z)) (st : cache_state) :
  cache_inv st ->
  cache_inv (cache_update disk block_ buf st)
  /\ (forall src, buf = Some src -> cache_enabled st = true ->
      0 <= disk -> 0 <= block_ ->
      find_cache_entry st disk block_ <> -1 ->
      clock (cache_update disk block_ buf st) = clock st + 1).
Proof.
  intros Hinv. unfold cache_update.
  destruct buf as [src |]; [| split; [exact Hinv | discriminate]].
  destruct (cache_enabled st) eqn:Hen; simpl; [| split; [exact Hinv | discriminate]].
  destruct (Z.ltb_spec disk 0); simpl; [split; [exact Hinv | intros; lia] |].
  destruct (Z.ltb_spec block_ 0); simpl; [split; [exact Hinv | intros; lia] |].
  destruct (inv_enabled st Hinv Hen) as (es & Hes & Hsl & Hdf & Hc & Hsz & Hlen & Hu & Ht).
  unfold find_cache_entry. rewrite Hsl, Hdf.
  destruct (find_cache_entry_from_spec disk block_ es 0 ltac:(lia))
    as [[-> _] | (j & e & -> & Hj & Hv & _)].
  - simpl. split; [exact Hinv | intros; congruence].
  - replace (negb (0 + Z.of_nat j =? -1)) with true
      by (symmetry; apply negb_true_iff, Z.eqb_neq; lia).
    replace (Z.to_nat (0 + Z.of_nat j)) with j by lia.
    simpl. split; [| reflexivity].
    split; simpl; [lia |]. split; [lia |]. split; [rewrite length_alter; lia |].
    split.
    + apply unique_keys_alter; [intros e0; repeat split | exact Hu].
    + apply ticks_bounded_alter; [lia | reflexivity | exact Ht].
Qed.

Lemma alter_as_insert (f : cache_entry_t -> cache_entry_t) (i : nat)
    (es : list cache_entry_t) (e : cache_entry_t) :
  es !! i = Some e -> alter f i es = <[i := f e]> es.
Proof.
  intros He. apply list_eq. intros j.
  rewrite list_lookup_alter, list_lookup_insert.
  pose proof (lookup_lt_Some es i e He) as Hlt.
  destruct (decide (i = j)) as [<- | Hne].
  - rewrite He. simpl. destruct (decide (i = i /\ (i < length es)%nat)); [reflexivity | tauto].
  - destruct (decide (i = j /\ (i < length es)%nat)); [tauto | reflexivity].
Qed.

(** What [cache_insert] does with valid arguments and a pair that is not
    cached: it fills an invalid slot, or, when every slot is valid, the
    most recently used one. *)
Lemma well_formed_of_inv (st : cache_state) (es : list cache_entry_t) :
  cache_inv st -> cache st = Some es -> well_formed st es.
Proof.
  intros [_ Hinv] Hes. rewrite Hes in Hinv. destruct Hinv as (Hsz & Hlen & _ & Ht).
  split_and!; [exact Hes | exact Hlen | lia |].
  intros i e Hi Hv. specialize (Ht i e Hi Hv). lia.
Qed.

Lemma cache_insert_fresh (disk block_ : Z) (src : list Z) (st : cache_state)
    (es : list cache_entry_t) :
  well_formed st es ->
  0 <= disk -> 0 <= block_ ->
  (forall (j : nat) (e : cache_entry_t),
      es !! j = Some e -> valid e = true ->
      disk_num e = disk -> block_num e = block_ -> False) ->
  exists (i : nat) (e : cache_entry_t),
    es !! i = Some e
    /\ cache_insert disk block_ (Some src) st
       = (1, {| cache := Some (<[i := fill disk block_ src (clock st + 1) e]> es);
                cache_size := cache_size st;
                clock := clock st + 1;
                num_queries := num_queries st;
                num_hits := num_hits st |})
    /\ (valid e = false
        \/ ((forall (j : nat) (e' : cache_entry_t), es !! j = Some e' -> valid e' = true)
            /\ is_mru_slot es i)).
Proof.
  intros (Hes & Hlen & Hsz & Ht) Hd Hb Hnew.
  assert (Hen : cache_enabled st = true).
  { unfold cache_enabled. rewrite Hes, bool_decide_true by eauto.
    simpl. apply Z.ltb_lt. exact Hsz. }
  pose proof (slots_all st es Hes Hlen) as Hsl.
  assert (Hdf : default [] (cache st) = es) by (rewrite Hes; reflexivity).
  unfold cache_insert. rewrite Hen. simpl.
  destruct (Z.ltb_spec disk 0); [lia |]. destruct (Z.ltb_spec block_ 0); [lia |]. simpl.
  unfold find_cache_entry, find_invalid_entry, find_mru_entry. rewrite Hsl, Hdf.
  destruct (find_cache_entry_from_spec disk block_ es 0 ltac:(lia))
    as [[-> _] | (j & e & _ & Hj & Hv & Hdj & Hbj)];
    [| exfalso; exact (Hnew j e Hj Hv Hdj Hbj)].
  simpl.
  destruct (find_invalid_entry_from_spec es 0 ltac:(lia))
    as [[-> Hfull] | (j & e & -> & Hj & Hv)].
  - simpl.
    destruct (find_mru_entry_from_spec es 0 (-1) (-1))
      as [[_ Hneg] | (j & e & -> & Hj & Hv & Hgt & Hmax & Hfirst)].
    + exfalso.
      destruct (lookup_lt_is_Some_2 es 0 ltac:(lia)) as [e0 He0].
      specialize (Hneg 0%nat e0 He0 (Hfull 0%nat e0 He0)).
      specialize (Ht 0%nat e0 He0 (Hfull 0%nat e0 He0)). lia.
    + exists j, e. split; [exact Hj |].
      replace (0 + Z.of_nat j =? -1) with false by (symmetry; apply Z.eqb_neq; lia).
      replace (Z.to_nat (0 + Z.of_nat j)) with j by lia.
      rewrite (alter_as_insert _ j es e Hj).
      split; [reflexivity |]. right. split; [exact Hfull |].
      exists e. split; [exact Hj |]. split.
      * intros j' e' Hj'. exact (Hmax j' e' Hj' (Hfull j' e' Hj')).
      * intros j' e' Hj' Hlt. exact (Hfirst j' e' Hj' (Hfull j' e' Hj') Hlt).
  - exists j, e. split; [exact Hj |].
    assert (Hne : (0 + Z.of_nat j =? -1) = false) by (apply Z.eqb_neq; lia).
    rewrite Hne. cbv beta iota zeta. rewrite Hne.
    replace (Z.to_nat (0 + Z.of_nat j)) with j by lia.
    rewrite (alter_as_insert _ j es e Hj).
    split; [reflexivity | left; exact Hv].
Qed.

Lemma cache_insert_inv (disk block_ : Z) (buf : option (list Z)) (st : cache_state) :
  cache_inv st ->
  cache_inv (snd (cache_insert disk block_ buf st))
  /\ (fst (cache_insert disk block_ buf st) = 1 ->
      clock (snd (cache_insert disk block_ buf st)) = clock st + 1).
Proof.
  intros Hinv.
  destruct buf as [src |]; [| split; [exact Hinv | discriminate]].
  destruct (cache_enabled st) eqn:Hen;
    [| unfold cache_insert; rewrite Hen; split; [exact Hinv | discriminate]].
  destruct (Z.ltb_spec disk 0) as [Hd | Hd].
  { unfold cache_insert. rewrite Hen. apply Z.ltb_lt in Hd. rewrite Hd.
    split; [exact Hinv | discriminate]. }
  destruct (Z.ltb_spec block_ 0) as [Hb | Hb].
  { unfold cache_insert. rewrite Hen. apply Z.ltb_lt in Hb. rewrite Hb.
    rewrite orb_true_r. split; [exact Hinv | discriminate]. }
  destruct (inv_enabled st Hinv Hen) as (es & Hes & Hsl & Hdf & Hc & Hsz & Hlen & Hu & Ht).
  destruct (find_cache_entry_from_spec disk block_ es 0 ltac:(lia))
    as [[Hfind Hnew] | (j & e & Hfind & Hj & Hv & Hdj & Hbj)].
  - destruct (cache_insert_fresh disk block_ src st es
                (well_formed_of_inv st es Hinv Hes) Hd Hb Hnew)
      as (i & e & Hi & -> & _).
    simpl. split; [| reflexivity].
    rewrite <- (alter_as_insert (fill disk block_ src (clock st + 1)) i es e Hi).
    split; simpl; [lia |]. split; [lia |]. split; [rewrite length_alter; lia |].
    split.
    + apply unique_keys_fill; assumption.
    + apply ticks_bounded_alter; [lia | reflexivity | exact Ht].
  - unfold cache_insert. rewrite Hen.
    apply Z.ltb_ge in Hd, Hb. rewrite Hd, Hb. simpl.
    unfold find_cache_entry. rewrite Hsl, Hfind.
    replace (negb (0 + Z.of_nat j =? -1)) with true
      by (symmetry; apply negb_true_iff, Z.eqb_neq; lia).
    split; [exact Hinv | discriminate].
Qed.

Lemma cache_resize_enabled (m : malloc_outcome) (new_size : Z) (st : cache_state)
    (es : list cache_entry_t) :
  cache_inv st -> cache st = Some es ->
  2 <= new_size <= 4096 -> alloc_ok m = true ->
  exists es',
    cache_resize m new_size st
      = (1, {| cache := Some es'; cache_size := new_size; clock := clock st;
               num_queries := num_queries st; num_hits := num_hits st |})
    /\ Z.of_nat (length es') = new_size
    /\ (forall i : nat, Z.of_nat i < Z.min new_size (cache_size st) ->
          es' !! i = es !! i)
    /\ (forall (i : nat) (e : cache_entry_t),
          Z.min new_size (cache_size st) <= Z.of_nat i ->
          es' !! i = Some e -> valid e = false).
Proof.
  intros Hinv Hes Hn Hok.
  destruct (enabled_of_inv st es Hinv Hes) as (Hen & Hsl & Hdf).
  destruct (inv_enabled st Hinv Hen) as (es0 & Hes0 & _ & _ & Hc & Hsz & Hlen & Hu & Ht).
  assert (es0 = es) as -> by congruence.
  unfold cache_resize.
  destruct (Z.ltb_spec new_size 2); [lia |]. destruct (Z.gtb_spec new_size 4096); [lia |].
  simpl. rewrite Hen. simpl. unfold malloc. rewrite Hok, Hdf.
  set (fresh_entries := fresh m <$> seq 0 (Z.to_nat new_size)).
  set (n := if new_size <? cache_size st then new_size else cache_size st).
  assert (Hn' : n = Z.min new_size (cache_size st)).
  { unfold n. destruct (Z.ltb_spec new_size (cache_size st)); lia. }
  assert (Hfl : length (invalidate <$> fresh_entries) = Z.to_nat new_size).
  { unfold fresh_entries. rewrite !length_fmap, length_seq. reflexivity. }
  eexists. split; [reflexivity |]. split; [| split].
  - rewrite copy_entries_length, Hfl. lia.
  - intros i Hi. rewrite copy_entries_lookup by lia.
    destruct (decide (i < Z.to_nat n)%nat); [reflexivity | lia].
  - intros i e Hi. rewrite copy_entries_lookup by lia.
    destruct (decide (i < Z.to_nat n)%nat); [lia |].
    apply fresh_entries_invalid.
Qed.

Lemma cache_resize_inv (m : malloc_outcome) (new_size : Z) (st : cache_state) :
  cache_inv st -> cache_inv (snd (cache_resize m new_size st)).
Proof.
  intros Hinv.
  destruct (Z_lt_ge_dec new_size 2) as [Hlo | Hlo].
  { unfold cache_resize. apply Z.ltb_lt in Hlo. rewrite Hlo. exact Hinv. }
  destruct (Z_gt_le_dec new_size 4096) as [Hhi | Hhi].
  { unfold cache_resize. apply Z.gt_lt, Z.gtb_lt in Hhi. rewrite Hhi, orb_true_r. exact Hinv. }
  destruct (cache_enabled st) eqn:Hen.
  2:{ unfold cache_resize.
      destruct ((new_size <? 2) || (new_size >? 4096)); [exact Hinv |].
      rewrite Hen. simpl. apply cache_create_inv. exact Hinv. }
  destruct (inv_enabled st Hinv Hen) as (es & Hes & Hsl & Hdf & Hc & Hsz & Hlen & Hu & Ht).
  destruct (alloc_ok m) eqn:Hok.
  2:{ unfold cache_resize.
      destruct ((new_size <? 2) || (new_size >? 4096)); [exact Hinv |].
      rewrite Hen. simpl. unfold malloc. rewrite Hok. exact Hinv. }
  destruct (cache_resize_enabled m new_size st es Hinv Hes ltac:(lia) Hok)
    as (es' & -> & Hlen' & Hcopy & Hrest).
  simpl. split; simpl; [lia |]. split; [lia |]. split; [exact Hlen' |].
  assert (Hold : forall (i : nat) (e : cache_entry_t),
             es' !! i = Some e -> valid e = true -> es !! i = Some e).
  { intros i e Hi Hv.
    destruct (Z_lt_ge_dec (Z.of_nat i) (Z.min new_size (cache_size st))) as [Hlt | Hge].
    - rewrite <- (Hcopy i Hlt). exact Hi.
    - rewrite (Hrest i e ltac:(lia) Hi) in Hv. discriminate Hv. }
  split.
  - intros a b ea eb Ha Hb Hva Hvb. apply (Hu a b ea eb); auto.
  - intros a ea Ha Hva. apply (Ht a ea); auto.
Qed.

Lemma run_call_inv (st : cache_state) (c : cache_call) :
  cache_inv st -> cache_inv (run_call st c).
Proof.
  intros Hinv. destruct c; simpl.
  - apply cache_create_inv, Hinv.
  - apply cache_destroy_inv, Hinv.
  - apply cache_lookup_inv, Hinv.
  - apply cache_update_inv, Hinv.
  - apply cache_insert_inv, Hinv.
  - apply cache_resize_inv, Hinv.
Qed.

Lemma run_calls_inv (cs : list cache_call) : cache_inv (run_calls cs).
Proof.
  unfold run_calls. induction cs as [| c cs IH] using rev_ind.
  - exact initial_state_inv.
  - rewrite foldl_app. simpl. apply run_call_inv, IH.
Qed.

End CacheFacts.

Section CacheClaims.

Import Cache.

Lemma is_mru_slot_unique (es : list cache_entry_t) (i j : nat) :
  is_mru_slot es i -> is_mru_slot es j -> i = j.
Proof.
  intros (ei & Hi & Hmaxi & Hfirsti) (ej & Hj & Hmaxj & Hfirstj).
  destruct (Nat.lt_trichotomy i j) as [Hlt | [Heq | Hgt]]; [| exact Heq |].
  - specialize (Hfirstj i ei Hi Hlt). specialize (Hmaxi j ej Hj). lia.
  - specialize (Hfirsti j ej Hj Hgt). specialize (Hmaxj i ei Hi). lia.
Qed.

(** C1. In every state whose cache is full (every slot valid), with ticks
    that are not negative, as in every state the cache reaches, an insert
    of a pair (disk, block) that no entry holds, with valid arguments,
    returns 1 and replaces exactly one slot: the one whose tick is maximal,
    and the lowest such slot when several share the maximum.  Every other
    slot keeps its entry. *)
Theorem insert_evicts_most_recently_used :
  (forall (cs : list cache_call) (es : list cache_entry_t),
      cache (run_calls cs) = Some es -> well_formed (run_calls cs) es)
  /\ (forall (st : cache_state) (es : list cache_entry_t)
             (disk block_ : Z) (src : list Z),
        well_formed st es ->
        (forall (i : nat) (e : cache_entry_t), es !! i = Some e -> valid e = true) ->
        0 <= disk -> 0 <= block_ ->
        (forall (i : nat) (e : cache_entry_t),
            es !! i = Some e -> ~ (disk_num e = disk /\ block_num e = block_)) ->
        exists (i : nat) (e : cache_entry_t),
          es !! i = Some e
          /\ is_mru_slot es i
          /\ (forall j : nat, is_mru_slot es j -> j = i)
          /\ cache_insert disk block_ (Some src) st
             = (1, {| cache := Some (<[i := fill disk block_ src (clock st + 1) e]> es);
                      cache_size := cache_size st;
                      clock := clock st + 1;
                      num_queries := num_queries st;
                      num_hits := num_hits st |})).
Proof.
  split.
  { intros cs es Hes. exact (well_formed_of_inv _ es (run_calls_inv cs) Hes). }
  intros st es disk block_ src Hwf Hfull Hd Hb Hnew.
  destruct (cache_insert_fresh disk block_ src st es Hwf Hd Hb)
    as (i & e & Hi & Hins & Hslot).
  { intros j e Hj _ Hdj Hbj. exact (Hnew j e Hj (conj Hdj Hbj)). }
  destruct Hslot as [Hv | [_ Hmru]].
  { rewrite (Hfull i e Hi) in Hv. discriminate Hv. }
  exists i, e. split_and!; try assumption.
  intros j Hj. exact (is_mru_slot_unique es j i Hj Hmru).
Qed.

Lemma insert_evicts_most_recently_used_witness :
  cache_insert 0 3 (Some []) tied_cache
  = (1, {| cache := Some [mk_entry true 0 3 [] 6; mk_entry true 0 1 [] 5;
                          mk_entry true 0 2 [] 3];
           cache_size := 3; clock := 6; num_queries := 0; num_hits := 0 |}).
Proof.
  destruct (proj2 insert_evicts_most_recently_used tied_cache
              [mk_entry true 0 0 [] 5; mk_entry true 0 1 [] 5; mk_entry true 0 2 [] 3]
              0 3 [])
    as (i & e & Hi & Hmru & _ & Hins).
  - split_and!; [reflexivity | reflexivity | reflexivity |].
    intros [| [| [| i]]] e H; simpl in H; try discriminate H;
      injection H as <-; simpl; lia.
  - intros [| [| [| i]]] e H; simpl in H; try discriminate H;
      injection H as <-; reflexivity.
  - lia.
  - lia.
  - intros [| [| [| i]]] e H; simpl in H; try discriminate H;
      injection H as <-; simpl; intros [_ Hb]; discriminate Hb.
  - assert (i = 0%nat) as ->.
    { apply (is_mru_slot_unique
               [mk_entry true 0 0 [] 5; mk_entry true 0 1 [] 5; mk_entry true 0 2 [] 3]);
        [exact Hmru |].
      exists (mk_entry true 0 0 [] 5). split; [reflexivity |]. split.
      - intros [| [| [| j]]] e' H; simpl in H; try discriminate H;
          injection H as <-; simpl; lia.
      - intros j e' _ Hlt. lia. }
    injection Hi as <-. rewrite Hins. reflexivity.
Defined.

(** C9. In every state the cache reaches, [cache_create] returns -1 and
    changes nothing when a cache exists or the capacity is outside
    [2, 4096]; it returns 1 only from a state without a cache, with a
    capacity in that interval, when the allocation succeeds; and then the
    new cache has [num_entries] entries, all invalid, and the clock, the
    query count and the hit count are 0. *)
Theorem cache_create_spec (cs : list cache_call) (m : malloc_outcome)
    (num_entries : Z) :
  (is_Some (cache (run_calls cs)) \/ num_entries < 2 \/ num_entries > 4096 ->
   cache_create m num_entries (run_calls cs) = (-1, run_calls cs))
  /\ (fst (cache_create m num_entries (run_calls cs)) = 1 ->
      cache (run_calls cs) = None /\ 2 <= num_entries <= 4096
      /\ alloc_ok m = true)
  /\ (cache (run_calls cs) = None -> 2 <= num_entries <= 4096 ->
      alloc_ok m = true ->
      exists es,
        cache_create m num_entries (run_calls cs)
          = (1, {| cache := Some es; cache_size := num_entries; clock := 0;
                   num_queries := 0; num_hits := 0 |})
        /\ Z.of_nat (length es) = num_entries
        /\ (forall (i : nat) (e : cache_entry_t),
              es !! i = Some e -> valid e = false)).
Proof.
  pose proof (run_calls_inv cs) as Hinv.
  set (st := run_calls cs) in *.
  split; [| split].
  - intros Hbad. unfold cache_create.
    destruct (bool_decide (is_Some (cache st))) eqn:Hsome; [reflexivity |].
    apply bool_decide_eq_false in Hsome.
    destruct (Z.ltb_spec num_entries 2); [reflexivity |].
    destruct (Z.gtb_spec num_entries 4096); [reflexivity |].
    exfalso. destruct Hbad as [Hbad | Hbad]; [exact (Hsome Hbad) | lia].
  - unfold cache_create.
    destruct (bool_decide (is_Some (cache st))) eqn:Hsome; [discriminate |].
    apply bool_decide_eq_false in Hsome.
    destruct (Z.ltb_spec num_entries 2); [discriminate |].
    destruct (Z.gtb_spec num_entries 4096); [discriminate |]. simpl.
    unfold malloc. destruct (alloc_ok m); [| discriminate].
    intros _. split_and!; try lia; try reflexivity.
    destruct (cache st) as [es |] eqn:Hc; [| reflexivity].
    exfalso. apply Hsome. eauto.
  - intros Hnone Hn Hok.
    destruct Hinv as [_ Hinv]. rewrite Hnone in Hinv.
    destruct Hinv as (_ & _ & Hq & Hh).
    unfold cache_create. rewrite Hnone.
    rewrite bool_decide_false by (intros [x Hx]; discriminate Hx).
    destruct (Z.ltb_spec num_entries 2); [lia |].
    destruct (Z.gtb_spec num_entries 4096); [lia |]. simpl.
    unfold malloc. rewrite Hok, Hq, Hh.
    eexists. split; [reflexivity |]. split.
    + rewrite !length_fmap, length_seq. lia.
    + intros i e. apply fresh_entries_invalid.
Qed.

Lemma cache_create_spec_witness :
  exists es,
    cache_create zeroed 2 (run_calls [Call_create zeroed 5; Call_lookup 0 0 (Some []);
                                       Call_destroy])
      = (1, {| cache := Some es; cache_size := 2; clock := 0;
               num_queries := 0; num_hits := 0 |})
    /\ Z.of_nat (length es) = 2.
Proof.
  destruct (proj2 (proj2 (cache_create_spec
                            [Call_create zeroed 5; Call_lookup 0 0 (Some []);
                             Call_destroy] zeroed 2))
              eq_refl ltac:(lia) eq_refl) as (es & H1 & H2 & _).
  exists es. split; assumption.
Defined.

(** C6. In every state the cache reaches: [cache_resize] outside
    [2, 4096] returns -1 and changes nothing; on a cache that is not
    enabled it is [cache_create]; on an enabled cache, with a size in
    [2, 4096] and a successful allocation, it returns 1, the new array has
    [new_size] entries, its first [min (new_size, cache_size)] entries are
    the old entries of the same slots, every later entry is invalid, and
    the clock and the two counters are unchanged. *)
Theorem cache_resize_spec (cs : list cache_call) (m : malloc_outcome)
    (new_size : Z) :
  (new_size < 2 \/ new_size > 4096 ->
   cache_resize m new_size (run_calls cs) = (-1, run_calls cs))
  /\ (cache_enabled (run_calls cs) = false ->
      cache_resize m new_size (run_calls cs)
        = cache_create m new_size (run_calls cs))
  /\ (cache_enabled (run_calls cs) = true -> 2 <= new_size <= 4096 ->
      alloc_ok m = true ->
      exists es es',
        cache (run_calls cs) = Some es
        /\ cache_resize m new_size (run_calls cs)
           = (1, {| cache := Some es'; cache_size := new_size;
                    clock := clock (run_calls cs);
                    num_queries := num_queries (run_calls cs);
                    num_hits := num_hits (run_calls cs) |})
        /\ Z.of_nat (length es') = new_size
        /\ (forall i : nat,
              Z.of_nat i < Z.min new_size (cache_size (run_calls cs)) ->
              es' !! i = es !! i)
        /\ (forall (i : nat) (e : cache_entry_t),
              Z.min new_size (cache_size (run_calls cs)) <= Z.of_nat i ->
              es' !! i = Some e -> valid e = false)).
Proof.
  pose proof (run_calls_inv cs) as Hinv.
  set (st := run_calls cs) in *.
  split; [| split].
  - intros Hbad. unfold cache_resize.
    destruct (Z.ltb_spec new_size 2); [reflexivity |].
    destruct (Z.gtb_spec new_size 4096); [reflexivity | lia].
  - intros Hen. unfold cache_resize. rewrite Hen.
    destruct ((new_size <? 2) || (new_size >? 4096)) eqn:Hbad; [| reflexivity].
    unfold cache_create. rewrite <- orb_assoc, Hbad, orb_true_r. reflexivity.
  - intros Hen Hn Hok.
    destruct (inv_enabled st Hinv Hen) as (es & Hes & _).
    destruct (cache_resize_enabled m new_size st es Hinv Hes Hn Hok)
      as (es' & Hr & Hlen & Hcopy & Hrest).
    exists es, es'. split_and!; assumption.
Qed.

Lemma cache_resize_spec_witness :
  exists es',
    cache_resize zeroed 2
      (run_calls [Call_create zeroed 3; Call_insert 0 7 (Some [5]);
                  Call_insert 1 9 (Some [6]); Call_insert 2 4 (Some [8])])
      = (1, {| cache := Some es'; cache_size := 2; clock := 3;
               num_queries := 0; num_hits := 0 |})
    /\ es' !! 0%nat = Some (fill 0 7 [5] 1 (fresh zeroed 0))
    /\ es' !! 1%nat = Some (fill 1 9 [6] 2 (fresh zeroed 1))
    /\ es' !! 2%nat = None.
Proof.
  destruct (proj2 (proj2 (cache_resize_spec
                            [Call_create zeroed 3; Call_insert 0 7 (Some [5]);
                             Call_insert 1 9 (Some [6]); Call_insert 2 4 (Some [8])]
                            zeroed 2))
              eq_refl ltac:(lia) eq_refl)
    as (es & es' & Hes & Hr & Hlen & Hcopy & _).
  exists es'. split; [exact Hr |].
  injection Hes as <-.
  split; [| split].
  - rewrite (Hcopy 0%nat) by (simpl; lia). reflexivity.
  - rewrite (Hcopy 1%nat) by (simpl; lia). reflexivity.
  - apply lookup_ge_None. lia.
Defined.

(** C7. After every sequence of calls of create, destroy, lookup, update,
    insert and resize: the valid entries of an existing cache carry
    pairwise different (disk_num, block_num) pairs, its capacity lies in
    [2, 4096] and is the number of its slots; and a lookup that hits, an
    insert that succeeds and an update of a cached pair each leave a clock
    strictly above the clock before. *)
Theorem cache_invariants (cs : list cache_call) :
  (forall es, cache (run_calls cs) = Some es ->
     unique_keys es
     /\ 2 <= cache_size (run_calls cs) <= 4096
     /\ Z.of_nat (length es) = cache_size (run_calls cs))
  /\ (forall disk block_ buf,
        fst (fst (cache_lookup disk block_ buf (run_calls cs))) = 1 ->
        clock (run_calls cs)
          < clock (snd (cache_lookup disk block_ buf (run_calls cs))))
  /\ (forall disk block_ buf,
        fst (cache_insert disk block_ buf (run_calls cs)) = 1 ->
        clock (run_calls cs)
          < clock (snd (cache_insert disk block_ buf (run_calls cs))))
  /\ (forall disk block_ src (es : list cache_entry_t) (i : nat) (e : cache_entry_t),
        cache (run_calls cs) = Some es ->
        es !! i = Some e -> valid e = true ->
        disk_num e = disk -> block_num e = block_ ->
        0 <= disk -> 0 <= block_ ->
        clock (run_calls cs)
          < clock (cache_update disk block_ (Some src) (run_calls cs))).
Proof.
  pose proof (run_calls_inv cs) as Hinv.
  set (st := run_calls cs) in *.
  split_and!.
  - intros es Hes. destruct Hinv as [_ Hinv]. rewrite Hes in Hinv. tauto.
  - intros disk block_ buf Hhit.
    rewrite (proj2 (cache_lookup_inv disk block_ buf st Hinv) Hhit). lia.
  - intros disk block_ buf Hok.
    rewrite (proj2 (cache_insert_inv disk block_ buf st Hinv) Hok). lia.
  - intros disk block_ src es i e Hes Hi Hv Hd Hb Hdn Hbn.
    destruct (enabled_of_inv st es Hinv Hes) as (Hen & Hsl & _).
    rewrite (proj2 (cache_update_inv disk block_ (Some src) st Hinv)
               src eq_refl Hen Hdn Hbn); [lia |].
    unfold find_cache_entry. rewrite Hsl.
    destruct (find_cache_entry_from_spec disk block_ es 0 ltac:(lia))
      as [[_ Hnone] | (j & e' & -> & _)]; [| lia].
    exfalso. exact (Hnone i e Hi Hv Hd Hb).
Qed.

Lemma cache_invariants_witness :
  clock (run_calls [Call_create zeroed 2; Call_insert 0 0 (Some [])])
    < clock (snd (cache_lookup 0 0 (Some [])
                    (run_calls [Call_create zeroed 2; Call_insert 0 0 (Some [])])))
  /\ clock (run_calls [Call_create zeroed 2; Call_insert 0 0 (Some [])])
      < clock (cache_update 0 0 (Some [])
                 (run_calls [Call_create zeroed 2; Call_insert 0 0 (Some [])])).
Proof.
  destruct (cache_invariants [Call_create zeroed 2; Call_insert 0 0 (Some [])])
    as (_ & Hlook & _ & Hupd).
  split.
  - apply Hlook. reflexivity.
  - apply (Hupd 0 0 [] [fill 0 0 [] 1 (fresh zeroed 0); invalidate (fresh zeroed 1)]
                0%nat (fill 0 0 [] 1 (fresh zeroed 0))); try reflexivity; lia.
Defined.

End CacheClaims.


(** * The write path on the disk array of the specification *)

Section ArrayFacts.

Import Mdadm.

Lemma all_below_spec (n : nat) (p : Z -> bool) :
  all_below n p = true -> forall z, 0 <= z < Z.of_nat n -> p z = true.
Proof.
  induction n as [| n IH]; simpl; intros H z Hz; [lia |].
  apply andb_true_iff in H as [Hn Hrest].
  destruct (Z.eq_dec z (Z.of_nat n)) as [-> | Hne]; [exact Hn |].
  apply IH; [exact Hrest | lia].
Qed.

Lemma decode_seek_to_disk (d : Z) :
  0 <= d < 16 ->
  op_cmd (encode_op JBOD_SEEK_TO_DISK d 0) = JBOD_SEEK_TO_DISK
  /\ op_disk (encode_op JBOD_SEEK_TO_DISK d 0) = d.
Proof.
  intros Hd.
  pose proof (all_below_spec 16
    (fun d => (op_cmd (encode_op JBOD_SEEK_TO_DISK d 0) =? JBOD_SEEK_TO_DISK)
              && (op_disk (encode_op JBOD_SEEK_TO_DISK d 0) =? d))
    ltac:(vm_compute; reflexivity) d ltac:(lia)) as H.
  apply andb_true_iff in H as [H1 H2].
  split; apply Z.eqb_eq; assumption.
Qed.

Lemma decode_seek_to_block (b : Z) :
  0 <= b < 256 ->
  op_cmd (encode_op JBOD_SEEK_TO_BLOCK 0 b) = JBOD_SEEK_TO_BLOCK
  /\ op_block (encode_op JBOD_SEEK_TO_BLOCK 0 b) = b.
Proof.
  intros Hb.
  pose proof (all_below_spec 256
    (fun b => (op_cmd (encode_op JBOD_SEEK_TO_BLOCK 0 b) =? JBOD_SEEK_TO_BLOCK)
              && (op_block (encode_op JBOD_SEEK_TO_BLOCK 0 b) =? b))
    ltac:(vm_compute; reflexivity) b ltac:(lia)) as H.
  apply andb_true_iff in H as [H1 H2].
  split; apply Z.eqb_eq; assumption.
Qed.

Lemma spec_seek_to_disk (d : Z) (dev : jbod_t) :
  jbod_mounted dev = true -> 0 <= d < 16 ->
  spec_jbod_operation (encode_op JBOD_SEEK_TO_DISK d 0) None dev
    = (0, None, mk_jbod true (jbod_write_permission dev) d (cur_block dev) (storage dev)).
Proof.
  intros Hm Hd. destruct (decode_seek_to_disk d Hd) as [Hc Ho].
  unfold spec_jbod_operation. rewrite Hc, Ho, Hm. reflexivity.
Qed.

Lemma spec_seek_to_block (b : Z) (dev : jbod_t) :
  jbod_mounted dev = true -> 0 <= b < 256 ->
  spec_jbod_operation (encode_op JBOD_SEEK_TO_BLOCK 0 b) None dev
    = (0, None, mk_jbod true (jbod_write_permission dev) (cur_disk dev) b (storage dev)).
Proof.
  intros Hm Hb. destruct (decode_seek_to_block b Hb) as [Hc Ho].
  unfold spec_jbod_operation. rewrite Hc, Ho, Hm. reflexivity.
Qed.

Lemma spec_read_block (blk : list Z) (dev : jbod_t) :
  jbod_mounted dev = true ->
  spec_jbod_operation (encode_op JBOD_READ_BLOCK 0 0) (Some blk) dev
    = (0, Some (block_under_cursor dev), dev).
Proof.
  intros Hm. unfold spec_jbod_operation.
  change (op_cmd (encode_op JBOD_READ_BLOCK 0 0)) with JBOD_READ_BLOCK.
  rewrite Hm. reflexivity.
Qed.

Lemma spec_write_block (blk : list Z) (dev : jbod_t) :
  jbod_mounted dev = true ->
  spec_jbod_operation (encode_op JBOD_WRITE_BLOCK 0 0) (Some blk) dev
    = (0, Some blk, mk_jbod true (jbod_write_permission dev) (cur_disk dev)
                            (cur_block dev) (store_under_cursor blk dev)).
Proof.
  intros Hm. unfold spec_jbod_operation.
  change (op_cmd (encode_op JBOD_WRITE_BLOCK 0 0)) with JBOD_WRITE_BLOCK.
  rewrite Hm. reflexivity.
Qed.

(** ** Bytes of a buffer after [memcpy] *)

Lemma byte_at_lookup (p : list Z) (i : nat) :
  byte_at p (Z.of_nat i) = default 0 (p !! i).
Proof.
  unfold byte_at. destruct (Z.ltb_spec (Z.of_nat i) 0); [lia |].
  rewrite Nat2Z.id. apply nth_lookup.
Qed.

Lemma byte_at_memcpy (dst : list Z) (doff : Z) (src : list Z) (soff n i : Z) :
  0 <= i < Z.of_nat (length dst) ->
  byte_at (memcpy dst doff src soff n) i
    = if (doff <=? i) && (i <? doff + n)
      then byte_at src (soff + (i - doff))
      else byte_at dst i.
Proof.
  intros Hi. rewrite <- (Z2Nat.id i) by lia.
  rewrite !byte_at_lookup. unfold memcpy. rewrite list_lookup_imap.
  destruct (lookup_lt_is_Some_2 dst (Z.to_nat i) ltac:(lia)) as [x Hx].
  rewrite Hx. simpl.
  destruct ((doff <=? Z.of_nat (Z.to_nat i)) && (Z.of_nat (Z.to_nat i) <? doff + n));
    reflexivity.
Qed.

Lemma length_block_under_cursor (dev : jbod_t) :
  length (block_under_cursor dev) = 256%nat.
Proof. unfold block_under_cursor. rewrite length_fmap, length_seq. reflexivity. Qed.

Lemma byte_at_block_under_cursor (dev : jbod_t) (i : Z) :
  0 <= i < 256 ->
  byte_at (block_under_cursor dev) i = storage dev (cur_disk dev) (cur_block dev) i.
Proof.
  intros Hi. rewrite <- (Z2Nat.id i) at 1 by lia. rewrite byte_at_lookup.
  unfold block_under_cursor. rewrite list_lookup_fmap.
  rewrite lookup_seq_lt by (change (Z.to_nat JBOD_BLOCK_SIZE) with 256%nat; lia).
  simpl. rewrite Z2Nat.id by lia. reflexivity.
Qed.

(** ** One segment of a write *)

Lemma whole_block_pre_read (s : segment) :
  seg_len s <= 256 ->
  (seg_len s <? JBOD_BLOCK_SIZE) || negb (seg_offset s =? 0) = negb (whole_block s).
Proof.
  intros Hlen. unfold whole_block, JBOD_BLOCK_SIZE.
  destruct (Z.ltb_spec (seg_len s) 256); destruct (Z.eqb_spec (seg_len s) 256);
    destruct (Z.eqb_spec (seg_offset s) 0); simpl; try reflexivity; lia.
Qed.

Lemma write_segment_on_array (s : segment) (buf : list Z) (k : Z)
    (st : mdadm_state (device := jbod_t)) :
  jbod_mounted (jbod st) = true ->
  0 <= seg_disk s < 16 -> 0 <= seg_block s < 256 -> 0 <= seg_offset s < 256 ->
  1 <= seg_len s <= 256 - seg_offset s ->
  exists st',
    write_segment spec_jbod_operation s buf k st = (0, st')
    /\ mounted st' = mounted st
    /\ write_permission st' = write_permission st
    /\ jbod_mounted (jbod st') = true
    /\ issued st' = issued st ++ write_segment_ops s
    /\ forall disk blk i,
         storage (jbod st') disk blk i
           = if (disk =? seg_disk s) && (blk =? seg_block s)
                && (seg_offset s <=? i) && (i <? seg_offset s + seg_len s)
             then byte_at buf (k + (i - seg_offset s))
             else storage (jbod st) disk blk i.
Proof.
  intros Hm Hd Hb Ho Hl.
  unfold write_segment, jbod_call.
  rewrite (spec_seek_to_disk _ _ Hm Hd). cbn [jbod mounted write_permission issued].
  change (negb (0 =? 0)) with false. cbv iota.
  rewrite (spec_seek_to_block (seg_block s)) by (reflexivity || assumption).
  cbn [jbod mounted write_permission issued cur_disk cur_block storage
       jbod_write_permission jbod_mounted].
  change (negb (0 =? 0)) with false. cbv iota.
  rewrite whole_block_pre_read by lia.
  unfold write_segment_ops.
  destruct (whole_block s) eqn:Hwhole; cbn [negb].
  - (* the segment covers the block: no read *)
    unfold whole_block, JBOD_BLOCK_SIZE in Hwhole.
    apply andb_true_iff in Hwhole as [Hl256 Ho0].
    apply Z.eqb_eq in Hl256, Ho0.
    change (negb (0 =? 0)) with false. cbv iota.
    rewrite spec_write_block by reflexivity.
    cbn [jbod mounted write_permission issued cur_disk cur_block storage
         jbod_write_permission jbod_mounted default].
    change (negb (0 =? 0)) with false. cbv iota.
    eexists. split; [reflexivity |].
    cbn [jbod mounted write_permission issued storage jbod_mounted].
    split_and!; try reflexivity.
    { rewrite <- !app_assoc. reflexivity. }
    intros disk blk i. unfold store_under_cursor, JBOD_BLOCK_SIZE.
    cbn [cur_disk cur_block storage].
    destruct (Z.eqb_spec disk (seg_disk s)); [| reflexivity].
    destruct (Z.eqb_spec blk (seg_block s)); [| reflexivity].
    cbn [andb].
    destruct (Z.leb_spec 0 i); destruct (Z.ltb_spec i 256);
      destruct (Z.leb_spec (seg_offset s) i);
      destruct (Z.ltb_spec i (seg_offset s + seg_len s));
      cbn [andb]; try reflexivity; try lia.
    rewrite byte_at_memcpy
      by (rewrite length_replicate; change (Z.to_nat 256) with 256%nat; lia).
    destruct (Z.leb_spec (seg_offset s) i); [| lia].
    destruct (Z.ltb_spec i (seg_offset s + seg_len s)); [| lia].
    reflexivity.
  - (* a partial block: read, merge, write *)
    rewrite spec_read_block by reflexivity.
    cbn [jbod mounted write_permission issued cur_disk cur_block storage
         jbod_write_permission jbod_mounted default].
    change (negb (0 =? 0)) with false. cbv iota.
    rewrite spec_write_block by reflexivity.
    cbn [jbod mounted write_permission issued cur_disk cur_block storage
         jbod_write_permission jbod_mounted default].
    change (negb (0 =? 0)) with false. cbv iota.
    eexists. split; [reflexivity |].
    cbn [jbod mounted write_permission issued storage jbod_mounted].
    split_and!; try reflexivity.
    { rewrite <- !app_assoc. reflexivity. }
    intros disk blk i. unfold store_under_cursor, JBOD_BLOCK_SIZE.
    cbn [cur_disk cur_block storage].
    destruct (Z.eqb_spec disk (seg_disk s)) as [-> |]; [| reflexivity].
    destruct (Z.eqb_spec blk (seg_block s)) as [-> |]; [| reflexivity].
    cbn [andb].
    destruct (Z.leb_spec 0 i); destruct (Z.ltb_spec i 256); cbn [andb].
    + unfold id. rewrite byte_at_memcpy by (rewrite length_block_under_cursor; lia).
      destruct ((seg_offset s <=? i) && (i <? seg_offset s + seg_len s));
        [reflexivity |].
      rewrite byte_at_block_under_cursor by lia. reflexivity.
    + destruct (Z.leb_spec (seg_offset s) i);
        destruct (Z.ltb_spec i (seg_offset s + seg_len s));
        cbn [andb]; try reflexivity; lia.
    + destruct (Z.leb_spec (seg_offset s) i);
        destruct (Z.ltb_spec i (seg_offset s + seg_len s));
        cbn [andb]; try reflexivity; lia.
    + destruct (Z.leb_spec (seg_offset s) i);
        destruct (Z.ltb_spec i (seg_offset s + seg_len s));
        cbn [andb]; try reflexivity; lia.
Qed.

(** ** The whole write *)

(** The addresses of the volume that fall into a segment are the bytes
    [seg_offset .. seg_offset + seg_len - 1] of its block. *)
Lemma segment_covers (A n a : Z) :
  0 <= A -> 0 <= a -> 1 <= n <= 256 - (A mod 65536) mod 256 ->
  ((a / 65536 =? A / 65536) && ((a mod 65536) / 256 =? (A mod 65536) / 256)
   && ((A mod 65536) mod 256 <=? (a mod 65536) mod 256)
   && ((a mod 65536) mod 256 <? (A mod 65536) mod 256 + n))
  = (A <=? a) && (a <? A + n)
  /\ (A <= a < A + n -> (a mod 65536) mod 256 - (A mod 65536) mod 256 = a - A).
Proof.
  intros HA Ha Hn.
  split.
  - destruct (Z.leb_spec A a); destruct (Z.ltb_spec a (A + n)); cbn [andb].
    + assert (a / 65536 = A / 65536 /\ (a mod 65536) / 256 = (A mod 65536) / 256
              /\ (A mod 65536) mod 256 <= (a mod 65536) mod 256
                  < (A mod 65536) mod 256 + n) as (-> & -> & H1 & H2)
        by (Z.div_mod_to_equations; lia).
      rewrite !Z.eqb_refl.
      destruct (Z.leb_spec ((A mod 65536) mod 256) ((a mod 65536) mod 256)); [| lia].
      destruct (Z.ltb_spec ((a mod 65536) mod 256) ((A mod 65536) mod 256 + n)); [| lia].
      reflexivity.
    + destruct (Z.eqb_spec (a / 65536) (A / 65536)); [| reflexivity].
      destruct (Z.eqb_spec ((a mod 65536) / 256) ((A mod 65536) / 256)); [| reflexivity].
      destruct (Z.leb_spec ((A mod 65536) mod 256) ((a mod 65536) mod 256)); [| reflexivity].
      destruct (Z.ltb_spec ((a mod 65536) mod 256) ((A mod 65536) mod 256 + n));
        [| reflexivity].
      exfalso. Z.div_mod_to_equations. lia.
    + destruct (Z.eqb_spec (a / 65536) (A / 65536)); [| reflexivity].
      destruct (Z.eqb_spec ((a mod 65536) / 256) ((A mod 65536) / 256)); [| reflexivity].
      destruct (Z.leb_spec ((A mod 65536) mod 256) ((a mod 65536) mod 256)); [| reflexivity].
      exfalso. Z.div_mod_to_equations. lia.
    + lia.
  - intros Hin. Z.div_mod_to_equations. lia.
Qed.

Lemma write_loop_on_array (start_addr write_len : Z) (buf : list Z) :
  0 <= start_addr -> start_addr + write_len <= 16 * 65536 ->
  forall (fuel : nat) (k : Z) (st : mdadm_state (device := jbod_t)),
    0 <= k <= write_len -> write_len - k <= Z.of_nat fuel ->
    jbod_mounted (jbod st) = true ->
    exists st',
      write_loop spec_jbod_operation fuel start_addr write_len buf k st
        = Some (write_len, st')
      /\ mounted st' = mounted st
      /\ write_permission st' = write_permission st
      /\ issued st'
         = issued st
           ++ flat_map write_segment_ops (segments_from fuel start_addr write_len k)
      /\ forall a, 0 <= a < 16 * 65536 ->
           volume_byte (jbod st') a
             = if (start_addr + k <=? a) && (a <? start_addr + write_len)
               then byte_at buf (a - start_addr)
               else volume_byte (jbod st) a.
Proof.
  intros Hs Hend. induction fuel as [| fuel IH]; intros k st Hk Hfuel Hm.
  - assert (k = write_len) as -> by lia.
    cbn [write_loop segments_from]. rewrite Z.ltb_irrefl.
    exists st. split_and!; try reflexivity.
    + cbn [flat_map]. rewrite app_nil_r. reflexivity.
    + intros a Ha.
      destruct (Z.leb_spec (start_addr + write_len) a);
        destruct (Z.ltb_spec a (start_addr + write_len)); cbn [andb];
        reflexivity || lia.
  - cbn [write_loop segments_from].
    destruct (Z.ltb_spec k write_len) as [Hlt | Hge].
    2:{ assert (k = write_len) as -> by lia.
        exists st. split_and!; try reflexivity.
        + cbn [flat_map]. rewrite app_nil_r. reflexivity.
        + intros a Ha.
          destruct (Z.leb_spec (start_addr + write_len) a);
            destruct (Z.ltb_spec a (start_addr + write_len)); cbn [andb];
            reflexivity || lia. }
    cbv zeta.
    rewrite (segment_at_in_range start_addr write_len k) by lia.
    set (A := start_addr + k).
    set (s := {| seg_disk := A / 65536; seg_block := (A mod 65536) / 256;
                 seg_offset := (A mod 65536) mod 256;
                 seg_len := Z.min (write_len - k) (256 - (A mod 65536) mod 256) |}).
    destruct (segment_bounds A ltac:(unfold A; lia)) as (Hd & Hb & Ho).
    assert (Hn : 1 <= seg_len s <= 256 - seg_offset s) by (cbn [s seg_len seg_offset]; lia).
    destruct (write_segment_on_array s buf k st Hm Hd Hb Ho Hn)
      as (st1 & -> & Hm1 & Hw1 & Hjm1 & Hi1 & Hst1).
    change (negb (0 =? 0)) with false. cbv iota.
    assert (Hk' : u32 (k + seg_len s) = k + seg_len s).
    { apply u32_small. cbn [s seg_len]. lia. }
    rewrite Hk'.
    destruct (IH (k + seg_len s) st1) as (st' & -> & Hm' & Hw' & Hi' & Hst');
      [cbn [s seg_len]; lia | cbn [s seg_len]; lia | exact Hjm1 |].
    exists st'. split_and!; try congruence.
    + rewrite Hi', Hi1. cbn [flat_map]. rewrite <- !app_assoc. reflexivity.
    + intros a Ha. rewrite (Hst' a Ha).
      assert (Hseg : volume_byte (jbod st1) a
                     = if (A <=? a) && (a <? A + seg_len s)
                       then byte_at buf (a - start_addr)
                       else volume_byte (jbod st) a).
      { unfold volume_byte, JBOD_DISK_SIZE, JBOD_BLOCK_SIZE. rewrite Hst1.
        destruct (segment_covers A (seg_len s) a ltac:(unfold A; lia) ltac:(lia)
                    ltac:(cbn [s seg_len seg_offset] in Hn |- *; lia)) as [Hcov Hoff].
        cbn [s seg_disk seg_block seg_offset] in Hcov, Hoff |- *.
        rewrite Hcov.
        destruct (Z.leb_spec A a); destruct (Z.ltb_spec a (A + seg_len s));
          cbn [andb]; try reflexivity.
        rewrite Hoff by lia. f_equal. unfold A. lia. }
      rewrite Hseg.
      replace (start_addr + (k + seg_len s)) with (A + seg_len s) by (unfold A; lia).
      assert (A + seg_len s <= start_addr + write_len)
        by (unfold A; cbn [s seg_len]; lia).
      destruct (Z.leb_spec A a); destruct (Z.ltb_spec a (A + seg_len s));
        destruct (Z.leb_spec (A + seg_len s) a);
        destruct (Z.ltb_spec a (start_addr + write_len));
        cbn [andb]; try reflexivity; lia.
Qed.

End ArrayFacts.

Section WriteClaim.

Import Mdadm.

(** C3. On the disk array of the specification, a write of 1 to 1024 bytes
    inside the volume, mounted and with write permission, returns its
    length; for each of its segments it issues seek-to-disk, seek-to-block,
    then read-block unless the segment is a whole aligned block (length 256
    at offset 0), then write-block; afterwards every byte of the volume in
    the written range holds the caller's byte and every byte outside it, in
    the blocks written and elsewhere, holds the value it had before. *)
Theorem write_read_modify_write (st : mdadm_state (device := jbod_t))
    (start_addr write_len : Z) (buf : list Z) :
  mounted st <> 0 -> write_permission st = true ->
  jbod_mounted (jbod st) = true ->
  0 <= start_addr -> 0 < write_len <= 1024 ->
  start_addr + write_len <= 16 * 65536 ->
  exists st',
    mdadm_write spec_jbod_operation start_addr write_len (Some buf) st
      = Some (write_len, st')
    /\ issued st'
       = issued st ++ flat_map write_segment_ops (segments start_addr write_len)
    /\ forall a, 0 <= a < 16 * 65536 ->
         volume_byte (jbod st') a
           = if (start_addr <=? a) && (a <? start_addr + write_len)
             then byte_at buf (a - start_addr)
             else volume_byte (jbod st) a.
Proof.
  intros Hm Hw Hjm Hs Hl Hend.
  unfold mdadm_write.
  destruct (Z.eqb_spec (mounted st) 0); [contradiction |].
  rewrite Hw. cbn [negb].
  destruct (Z.gtb_spec write_len 1024); [lia |].
  rewrite bool_decide_false by discriminate. rewrite andb_false_r.
  destruct (Z.eqb_spec write_len 0); [lia |].
  destruct (out_of_range start_addr write_len) eqn:Hoor.
  { apply out_of_range_spec in Hoor; lia. }
  destruct (write_loop_on_array start_addr write_len buf Hs Hend
              (Z.to_nat write_len) 0 st ltac:(lia) ltac:(lia) Hjm)
    as (st' & Hloop & _ & _ & Hissued & Hbytes).
  exists st'. split; [exact Hloop |]. split; [exact Hissued |].
  intros a Ha. rewrite (Hbytes a Ha). rewrite Z.add_0_r. reflexivity.
Qed.

Lemma write_read_modify_write_witness :
  (exists st',
      mdadm_write spec_jbod_operation 300 100 (Some (replicate 100 7)) blank_state
        = Some (100, st')
      /\ issued st' = [encode_op JBOD_SEEK_TO_DISK 0 0;
                       encode_op JBOD_SEEK_TO_BLOCK 0 1;
                       encode_op JBOD_READ_BLOCK 0 0;
                       encode_op JBOD_WRITE_BLOCK 0 0]
      /\ volume_byte (jbod st') 299 = 0
      /\ volume_byte (jbod st') 300 = 7
      /\ volume_byte (jbod st') 399 = 7
      /\ volume_byte (jbod st') 400 = 0)
  /\ (exists st',
         mdadm_write spec_jbod_operation 65536 256 (Some (replicate 256 9)) blank_state
           = Some (256, st')
         /\ issued st' = [encode_op JBOD_SEEK_TO_DISK 1 0;
                          encode_op JBOD_SEEK_TO_BLOCK 0 0;
                          encode_op JBOD_WRITE_BLOCK 0 0]).
Proof.
  split.
  - destruct (write_read_modify_write blank_state 300 100 (replicate 100 7))
      as (st' & Hw & Hi & Hb);
      [discriminate | reflexivity | reflexivity | lia | lia | lia |].
    exists st'. split; [exact Hw |]. split; [rewrite Hi; reflexivity |].
    rewrite !Hb by lia. repeat split; reflexivity.
  - destruct (write_read_modify_write blank_state 65536 256 (replicate 256 9))
      as (st' & Hw & Hi & _);
      [discriminate | reflexivity | reflexivity | lia | lia | lia |].
    exists st'. split; [exact Hw | rewrite Hi; reflexivity].
Defined.

End WriteClaim.


(** * Further properties of the block cache *)

Section CacheLookups.

Import Cache.

Lemma find_cache_entry_from_at (es : list cache_entry_t) (i : nat)
    (e : cache_entry_t) (disk block_ : Z) :
  cached_at es i e disk block_ ->
  (forall (j : nat) (e' : cache_entry_t),
      cached_at es j e' disk block_ -> j = i) ->
  forall base : Z, 0 <= base ->
    find_cache_entry_from es base disk block_ = base + Z.of_nat i.
Proof.
  intros (Hi & Hv & Hd & Hb) Huniq base Hbase.
  destruct (find_cache_entry_from_spec disk block_ es base Hbase)
    as [[_ Hnone] | (j & e' & -> & Hj & Hv' & Hd' & Hb')].
  - exfalso. exact (Hnone i e Hi Hv Hd Hb).
  - rewrite (Huniq j e'); [reflexivity |]. repeat split; assumption.
Qed.

Lemma enabled_of_slots (st : cache_state) (es : list cache_entry_t) :
  cache st = Some es -> Z.of_nat (length es) = cache_size st -> 0 < cache_size st ->
  cache_enabled st = true /\ slots st = es.
Proof.
  intros Hes Hlen Hsz. split.
  - unfold cache_enabled. rewrite Hes, bool_decide_true by eauto.
    simpl. apply Z.ltb_lt. exact Hsz.
  - apply slots_all; assumption.
Qed.

(** A lookup of a pair cached in exactly one slot. *)
Lemma cache_lookup_hit (st : cache_state) (es : list cache_entry_t) (i : nat)
    (e : cache_entry_t) (disk block_ : Z) (out : list Z) :
  cache st = Some es -> Z.of_nat (length es) = cache_size st -> 0 < cache_size st ->
  cached_at es i e disk block_ ->
  (forall (j : nat) (e' : cache_entry_t), cached_at es j e' disk block_ -> j = i) ->
  0 <= disk -> 0 <= block_ ->
  cache_lookup disk block_ (Some out) st
  = (1, Some (memcpy out 0 (block e) 0 JBOD_BLOCK_SIZE),
     {| cache := Some (<[i := stamp (clock st + 1) e]> es);
        cache_size := cache_size st;
        clock := clock st + 1;
        num_queries := num_queries st + 1;
        num_hits := num_hits st + 1 |}).
Proof.
  intros Hes Hlen Hsz Hat Huniq Hd Hb.
  destruct (enabled_of_slots st es Hes Hlen Hsz) as [Hen Hsl].
  unfold cache_lookup. rewrite Hen.
  destruct (Z.ltb_spec disk 0); [lia |]. destruct (Z.ltb_spec block_ 0); [lia |].
  cbn [negb orb].
  unfold find_cache_entry. change (slots _) with (slots st). rewrite Hsl.
  rewrite (find_cache_entry_from_at es i e disk block_ Hat Huniq 0 ltac:(lia)).
  replace (negb (0 + Z.of_nat i =? -1)) with true
    by (symmetry; apply negb_true_iff, Z.eqb_neq; lia).
  unfold entry_block.
  replace (Z.to_nat (0 + Z.of_nat i)) with i by lia.
  cbn [cache cache_size clock num_queries num_hits]. rewrite Hes. cbn [default].
  unfold id. destruct Hat as (Hi & _). rewrite Hi.
  rewrite (alter_as_insert _ i es e Hi). reflexivity.
Qed.

Lemma byte_at_block_copy (dst src : list Z) (i : Z) :
  0 <= i < 256 -> (256 <= length dst)%nat ->
  byte_at (memcpy dst 0 src 0 JBOD_BLOCK_SIZE) i = byte_at src i.
Proof.
  intros Hi Hlen. rewrite byte_at_memcpy by lia. unfold JBOD_BLOCK_SIZE.
  destruct (Z.leb_spec 0 i); [| lia]. destruct (Z.ltb_spec i (0 + 256)); [| lia].
  cbn [andb]. f_equal. lia.
Qed.

Lemma find_invalid_entry_from_first (es : list cache_entry_t) :
  forall (i : nat) (e : cache_entry_t) (base : Z),
    es !! i = Some e -> valid e = false ->
    (forall (j : nat) (e' : cache_entry_t),
        es !! j = Some e' -> (j < i)%nat -> valid e' = true) ->
    find_invalid_entry_from es base = base + Z.of_nat i.
Proof.
  induction es as [| e0 es IH]; intros i e base Hi Hv Hbefore; [discriminate Hi |].
  destruct i as [| i]; simpl.
  - injection Hi as ->. rewrite Hv. simpl. lia.
  - rewrite (Hbefore 0%nat e0 eq_refl ltac:(lia)). simpl.
    rewrite (IH i e (base + 1) Hi Hv); [lia |].
    intros j e' Hj Hlt. apply (Hbefore (S j) e' Hj). lia.
Qed.

(** A lookup of a pair that no valid slot holds. *)
Lemma cache_lookup_absent (st : cache_state) (disk block_ : Z) (buf : option (list Z)) :
  absent st disk block_ ->
  cache_lookup disk block_ buf st
  = (-1, buf,
     {| cache := cache st; cache_size := cache_size st; clock := clock st;
        num_queries :=
          num_queries st
          + (if cache_enabled st && bool_decide (buf <> None)
                && (0 <=? disk) && (0 <=? block_) then 1 else 0);
        num_hits := num_hits st |}).
Proof.
  intros Habs. unfold cache_lookup.
  destruct buf as [out |].
  2:{ rewrite bool_decide_false by congruence. rewrite andb_false_r. cbn [andb].
      rewrite Z.add_0_r. destruct st; reflexivity. }
  rewrite bool_decide_true by discriminate. rewrite andb_true_r.
  destruct (cache_enabled st); cbn [negb orb andb];
    [| rewrite Z.add_0_r; destruct st; reflexivity].
  destruct (Z.ltb_spec disk 0); destruct (Z.leb_spec 0 disk); try lia; cbn [orb andb];
    [rewrite Z.add_0_r; destruct st; reflexivity |].
  destruct (Z.ltb_spec block_ 0); destruct (Z.leb_spec 0 block_); try lia; cbn [orb andb];
    [rewrite Z.add_0_r; destruct st; reflexivity |].
  unfold find_cache_entry. change (slots _) with (slots st).
  destruct (find_cache_entry_from_spec disk block_ (slots st) 0 ltac:(lia))
    as [[-> _] | (j & e & _ & Hj & Hv & Hd & Hb)].
  - reflexivity.
  - exfalso. exact (Habs j e Hj Hv (conj Hd Hb)).
Qed.

(** An update of a pair cached in exactly one slot. *)
Lemma cache_update_hit (st : cache_state) (es : list cache_entry_t) (i : nat)
    (e : cache_entry_t) (disk block_ : Z) (src : list Z) :
  cache st = Some es -> Z.of_nat (length es) = cache_size st -> 0 < cache_size st ->
  cached_at es i e disk block_ ->
  (forall (j : nat) (e' : cache_entry_t), cached_at es j e' disk block_ -> j = i) ->
  0 <= disk -> 0 <= block_ ->
  cache_update disk block_ (Some src) st
  = {| cache := Some (<[i := refresh src (clock st + 1) e]> es);
       cache_size := cache_size st;
       clock := clock st + 1;
       num_queries := num_queries st;
       num_hits := num_hits st |}.
Proof.
  intros Hes Hlen Hsz Hat Huniq Hd Hb.
  destruct (enabled_of_slots st es Hes Hlen Hsz) as [Hen Hsl].
  unfold cache_update. rewrite Hen.
  destruct (Z.ltb_spec disk 0); [lia |]. destruct (Z.ltb_spec block_ 0); [lia |].
  cbn [negb orb].
  unfold find_cache_entry. rewrite Hsl.
  rewrite (find_cache_entry_from_at es i e disk block_ Hat Huniq 0 ltac:(lia)).
  replace (negb (0 + Z.of_nat i =? -1)) with true
    by (symmetry; apply negb_true_iff, Z.eqb_neq; lia).
  replace (Z.to_nat (0 + Z.of_nat i)) with i by lia.
  rewrite Hes. cbn [default]. unfold id. destruct Hat as (Hi & _).
  rewrite (alter_as_insert _ i es e Hi). reflexivity.
Qed.

(** In a state the cache reaches, a cached pair sits in exactly one slot. *)
Lemma cached_at_unique (cs : list cache_call) (es : list cache_entry_t)
    (i j : nat) (e e' : cache_entry_t) (disk block_ : Z) :
  cache (run_calls cs) = Some es ->
  cached_at es i e disk block_ -> cached_at es j e' disk block_ -> j = i.
Proof.
  intros Hes (Hi & Hv & Hd & Hb) (Hj & Hv' & Hd' & Hb').
  destruct (run_calls_inv cs) as [_ Hinv]. rewrite Hes in Hinv.
  destruct Hinv as (_ & _ & Hu & _).
  apply (Hu j i e' e Hj Hi Hv' Hv); congruence.
Qed.

Lemma run_call_counters (st : cache_state) (c : cache_call) :
  0 <= num_hits st <= num_queries st ->
  0 <= num_hits (run_call st c) <= num_queries (run_call st c).
Proof.
  intros H. destruct c as [m n | | d b buf | d b buf | d b buf | m n]; cbn [run_call].
  - unfold cache_create.
    destruct (bool_decide _ || _ || _); [exact H |].
    destruct (malloc m n); cbn [snd num_hits num_queries]; exact H.
  - unfold cache_destroy. destruct (cache st); cbn; [lia | exact H].
  - unfold cache_lookup. destruct buf; [| exact H].
    destruct (negb _ || _ || _); [exact H |].
    destruct (negb _); cbn [snd num_hits num_queries]; lia.
  - unfold cache_update. destruct buf; [| exact H].
    destruct (negb _ || _ || _); [exact H |].
    destruct (negb _); cbn [num_hits num_queries]; exact H.
  - unfold cache_insert. destruct buf; [| exact H].
    destruct (negb _ || _ || _); [exact H |].
    destruct (negb _); [exact H |].
    match goal with
    | |- context [if ?c then (-1, st) else _] => destruct c
    end; cbn [snd num_hits num_queries]; exact H.
  - unfold cache_resize. destruct (_ || _); [exact H |].
    destruct (negb _).
    + unfold cache_create.
      destruct (bool_decide _ || _ || _); [exact H |].
      destruct (malloc m n); cbn [snd num_hits num_queries]; exact H.
    + destruct (malloc m n); cbn [snd num_hits num_queries]; exact H.
Qed.

End CacheLookups.

Section CacheExtras.

Import Cache.

(** X1. Insert, then lookup: after a successful insert of a pair that was
    not cached, a lookup of that pair hits and copies the 256 inserted
    bytes into the caller's buffer; the two calls count one query and one
    hit and advance the clock by two. *)
Theorem insert_then_lookup (st : cache_state) (es : list cache_entry_t)
    (disk block_ : Z) (src out : list Z) :
  well_formed st es -> blocks_sized es ->
  0 <= disk -> 0 <= block_ ->
  absent st disk block_ ->
  (256 <= length out)%nat ->
  exists st1 out' st2,
    cache_insert disk block_ (Some src) st = (1, st1)
    /\ cache_lookup disk block_ (Some out) st1 = (1, Some out', st2)
    /\ length out' = length out
    /\ (forall k, 0 <= k < 256 -> byte_at out' k = byte_at src k)
    /\ num_queries st2 = num_queries st + 1
    /\ num_hits st2 = num_hits st + 1
    /\ clock st2 = clock st + 2.
Proof.
  intros Hwf Hsized Hd Hb Habs Hout.
  pose proof Hwf as (Hes & Hlen & Hsz & _).
  pose proof (slots_all st es Hes Hlen) as Hsl.
  assert (Hnew : forall (j : nat) (e : cache_entry_t),
             es !! j = Some e -> valid e = true ->
             disk_num e = disk -> block_num e = block_ -> False).
  { intros j e Hj Hv Hdj Hbj. apply (Habs j e); [rewrite Hsl; exact Hj | exact Hv | tauto]. }
  destruct (cache_insert_fresh disk block_ src st es Hwf Hd Hb Hnew)
    as (i & e & Hi & Hins & _).
  pose proof (lookup_lt_Some es i e Hi) as Hlt.
  set (e1 := fill disk block_ src (clock st + 1) e) in *.
  eexists _, _, _. split; [exact Hins |].
  split.
  { apply (cache_lookup_hit _ (<[i := e1]> es) i e1 disk block_ out);
      cbn [cache cache_size]; try assumption; try reflexivity.
    - rewrite length_insert. exact Hlen.
    - split_and!; try reflexivity. apply list_lookup_insert_eq. exact Hlt.
    - intros j e' (Hj & Hv & Hdj & Hbj).
      destruct (decide (j = i)) as [-> | Hne]; [reflexivity |].
      rewrite list_lookup_insert_ne in Hj by congruence.
      exfalso. exact (Hnew j e' Hj Hv Hdj Hbj). }
  cbn [num_queries num_hits clock].
  split_and!; try lia.
  - unfold memcpy. apply length_imap.
  - intros k Hk. rewrite byte_at_block_copy by lia.
    subst e1. cbn [block]. apply byte_at_block_copy; [lia |].
    rewrite (Hsized i e Hi). unfold JBOD_BLOCK_SIZE. lia.
Qed.

Lemma insert_then_lookup_witness :
  exists st1 out' st2,
    cache_insert 3 4 (Some (replicate 256 9)) (run_calls [Call_create zeroed 2])
      = (1, st1)
    /\ cache_lookup 3 4 (Some (replicate 256 0)) st1 = (1, Some out', st2)
    /\ byte_at out' 255 = 9.
Proof.
  destruct (insert_then_lookup (run_calls [Call_create zeroed 2])
              [invalidate (fresh zeroed 0); invalidate (fresh zeroed 1)]
              3 4 (replicate 256 9) (replicate 256 0))
    as (st1 & out' & st2 & H1 & H2 & _ & Hbytes & _).
  - split_and!; [reflexivity | reflexivity | reflexivity |].
    intros [| [| i]] e H; simpl in H; try discriminate H;
      injection H as <-; simpl; lia.
  - intros [| [| i]] e H; simpl in H; try discriminate H;
      injection H as <-; reflexivity.
  - lia.
  - lia.
  - intros [| [| j]] e H; simpl in H; try discriminate H;
      injection H as <-; simpl; discriminate.
  - rewrite length_replicate. lia.
  - exists st1, out', st2. split; [exact H1 |]. split; [exact H2 |].
    rewrite Hbytes by lia. reflexivity.
Defined.

(** X2. A lookup of a pair that no valid slot holds returns -1 and leaves
    the caller's buffer, the entries, the clock and the hit count as they
    were; the query count grows by one exactly when the cache is enabled
    and the arguments are valid. *)
Theorem lookup_miss (st : cache_state) (disk block_ : Z) (buf : option (list Z)) :
  absent st disk block_ ->
  exists st',
    cache_lookup disk block_ buf st = (-1, buf, st')
    /\ cache st' = cache st /\ cache_size st' = cache_size st
    /\ clock st' = clock st /\ num_hits st' = num_hits st
    /\ num_queries st'
       = num_queries st
         + (if cache_enabled st && bool_decide (buf <> None)
               && (0 <=? disk) && (0 <=? block_) then 1 else 0).
Proof.
  intros Habs. eexists. split; [apply cache_lookup_absent; exact Habs |].
  cbn [cache cache_size clock num_hits num_queries]. split_and!; reflexivity.
Qed.

Lemma lookup_miss_witness :
  exists st',
    cache_lookup 5 5 (Some []) (run_calls warm_calls) = (-1, Some [], st')
    /\ num_queries st' = 2 /\ num_hits st' = 1.
Proof.
  destruct (lookup_miss (run_calls warm_calls) 5 5 (Some []))
    as (st' & H & _ & _ & _ & Hh & Hq).
  - intros [| [| [| j]]] e H; simpl in H; try discriminate H;
      injection H as <-; simpl; intros Hv [Hd _]; (discriminate Hv || discriminate Hd).
  - exists st'. split; [exact H |]. split; [rewrite Hq | rewrite Hh]; reflexivity.
Defined.

(** X3. [cache_update] never creates, drops or re-keys an entry: validity
    and the pair (disk_num, block_num) of every slot are the same after the
    call; and an update of a pair that no valid slot holds changes nothing
    at all. *)
Theorem update_never_inserts (st : cache_state) (disk block_ : Z)
    (buf : option (list Z)) :
  ((fun e => (valid e, disk_num e, block_num e))
     <$> default [] (cache (cache_update disk block_ buf st))
   = (fun e => (valid e, disk_num e, block_num e)) <$> default [] (cache st))
  /\ (absent st disk block_ -> cache_update disk block_ buf st = st).
Proof.
  unfold cache_update.
  destruct buf as [src |]; [| split; reflexivity].
  destruct (negb (cache_enabled st) || (disk <? 0) || (block_ <? 0));
    [split; reflexivity |].
  unfold find_cache_entry.
  destruct (find_cache_entry_from_spec disk block_ (slots st) 0 ltac:(lia))
    as [[-> _] | (j & e & -> & Hj & Hv & Hd & Hb)].
  - split; reflexivity.
  - replace (negb (0 + Z.of_nat j =? -1)) with true
      by (symmetry; apply negb_true_iff, Z.eqb_neq; lia).
    split.
    + set (l := default [] (cache st)). cbn [cache default from_option id].
      apply list_eq. intros k.
      rewrite !list_lookup_fmap, list_lookup_alter.
      destruct (decide (Z.to_nat (0 + Z.of_nat j) = k)) as [<- | _]; [| reflexivity].
      destruct (l !! Z.to_nat (0 + Z.of_nat j)); reflexivity.
    + intros Habs. exfalso. exact (Habs j e Hj Hv (conj Hd Hb)).
Qed.

Lemma update_never_inserts_witness :
  cache_update 5 5 (Some (replicate 256 1)) (run_calls warm_calls)
  = run_calls warm_calls.
Proof.
  apply (proj2 (update_never_inserts (run_calls warm_calls) 5 5
                  (Some (replicate 256 1)))).
  intros [| [| [| j]]] e H; simpl in H; try discriminate H;
    injection H as <-; simpl; intros Hv [Hd _]; (discriminate Hv || discriminate Hd).
Defined.

(** X4. Update, then lookup: in a state the cache reaches, after an update
    of a cached pair a lookup of that pair hits and returns the 256 bytes
    of the update, not the bytes cached before. *)
Theorem update_then_lookup (cs : list cache_call) (es : list cache_entry_t)
    (i : nat) (e : cache_entry_t) (disk block_ : Z) (src out : list Z) :
  cache (run_calls cs) = Some es ->
  cached_at es i e disk block_ ->
  0 <= disk -> 0 <= block_ ->
  length (block e) = 256%nat -> (256 <= length out)%nat ->
  exists out' st2,
    cache_lookup disk block_ (Some out)
      (cache_update disk block_ (Some src) (run_calls cs))
      = (1, Some out', st2)
    /\ (forall k, 0 <= k < 256 -> byte_at out' k = byte_at src k)
    /\ clock st2 = clock (run_calls cs) + 2.
Proof.
  intros Hes Hat Hd Hb Hblk Hout.
  pose proof (well_formed_of_inv _ es (run_calls_inv cs) Hes) as (_ & Hlen & Hsz & _).
  assert (Huniq : forall (j : nat) (e' : cache_entry_t),
             cached_at es j e' disk block_ -> j = i).
  { intros j e' Hj. exact (cached_at_unique cs es i j e e' disk block_ Hes Hat Hj). }
  rewrite (cache_update_hit _ es i e disk block_ src Hes Hlen Hsz Hat Huniq Hd Hb).
  pose proof Hat as (Hi & Hv & Hdk & Hbk).
  pose proof (lookup_lt_Some es i e Hi) as Hlt.
  set (e1 := refresh src (clock (run_calls cs) + 1) e).
  eexists _, _. split.
  { apply (cache_lookup_hit _ (<[i := e1]> es) i e1 disk block_ out);
      cbn [cache cache_size]; try assumption; try reflexivity.
    - rewrite length_insert. exact Hlen.
    - split_and!; try assumption. apply list_lookup_insert_eq. exact Hlt.
    - intros j e' (Hj & Hv' & Hdj & Hbj).
      destruct (decide (j = i)) as [-> | Hne]; [reflexivity |].
      rewrite list_lookup_insert_ne in Hj by congruence.
      apply (Huniq j e'). split_and!; assumption. }
  cbn [clock]. split; [| lia].
  intros k Hk. rewrite byte_at_block_copy by lia.
  subst e1. cbn [block]. apply byte_at_block_copy; lia.
Qed.

Lemma update_then_lookup_witness :
  exists out' st2,
    cache_lookup 1 9 (Some (replicate 256 0))
      (cache_update 1 9 (Some (replicate 256 8)) (run_calls warm_calls))
      = (1, Some out', st2)
    /\ byte_at out' 0 = 8.
Proof.
  destruct (update_then_lookup warm_calls
              (default [] (cache (run_calls warm_calls))) 1
              (fill 1 9 (replicate 256 6) 2 (fresh zeroed 1)) 1 9
              (replicate 256 8) (replicate 256 0))
    as (out' & st2 & H & Hbytes & _).
  - reflexivity.
  - split_and!; reflexivity.
  - lia.
  - lia.
  - reflexivity.
  - rewrite length_replicate. lia.
  - exists out', st2. split; [exact H |]. rewrite Hbytes by lia. reflexivity.
Defined.

(** X5. No duplicates: an insert of a pair that a valid slot already holds
    returns -1 and changes nothing, whatever the buffer. *)
Theorem insert_duplicate_rejected (st : cache_state) (disk block_ : Z)
    (buf : option (list Z)) (j : nat) (e : cache_entry_t) :
  cached_at (slots st) j e disk block_ ->
  cache_insert disk block_ buf st = (-1, st).
Proof.
  intros (Hj & Hv & Hd & Hb). unfold cache_insert.
  destruct buf as [src |]; [| reflexivity].
  destruct (negb (cache_enabled st) || (disk <? 0) || (block_ <? 0)); [reflexivity |].
  unfold find_cache_entry.
  destruct (find_cache_entry_from_spec disk block_ (slots st) 0 ltac:(lia))
    as [[_ Hnone] | (j' & e' & -> & _)].
  - exfalso. exact (Hnone j e Hj Hv Hd Hb).
  - replace (negb (0 + Z.of_nat j' =? -1)) with true
      by (symmetry; apply negb_true_iff, Z.eqb_neq; lia).
    reflexivity.
Qed.

Lemma insert_duplicate_rejected_witness :
  cache_insert 1 9 (Some (replicate 256 3)) (run_calls warm_calls)
  = (-1, run_calls warm_calls).
Proof.
  apply (insert_duplicate_rejected (run_calls warm_calls) 1 9
           (Some (replicate 256 3)) 1
           (fill 1 9 (replicate 256 6) 2 (fresh zeroed 1))).
  split_and!; reflexivity.
Defined.

(** X6. While an invalid slot exists, an insert of a new pair evicts
    nothing: it fills the invalid slot of lowest index and every valid
    entry stays in its slot. *)
Theorem insert_fills_first_invalid (st : cache_state) (es : list cache_entry_t)
    (disk block_ : Z) (src : list Z) (i : nat) (e : cache_entry_t) :
  well_formed st es ->
  0 <= disk -> 0 <= block_ ->
  absent st disk block_ ->
  es !! i = Some e -> valid e = false ->
  (forall (j : nat) (e' : cache_entry_t),
      es !! j = Some e' -> (j < i)%nat -> valid e' = true) ->
  cache_insert disk block_ (Some src) st
  = (1, {| cache := Some (<[i := fill disk block_ src (clock st + 1) e]> es);
           cache_size := cache_size st;
           clock := clock st + 1;
           num_queries := num_queries st;
           num_hits := num_hits st |})
  /\ (forall (j : nat) (e' : cache_entry_t),
        es !! j = Some e' -> valid e' = true ->
        <[i := fill disk block_ src (clock st + 1) e]> es !! j = Some e').
Proof.
  intros (Hes & Hlen & Hsz & _) Hd Hb Habs Hi Hv Hbefore.
  destruct (enabled_of_slots st es Hes Hlen Hsz) as [Hen Hsl].
  split.
  - unfold cache_insert. rewrite Hen.
    destruct (Z.ltb_spec disk 0); [lia |]. destruct (Z.ltb_spec block_ 0); [lia |].
    cbn [negb orb].
    unfold find_cache_entry, find_invalid_entry. rewrite Hsl.
    destruct (find_cache_entry_from_spec disk block_ es 0 ltac:(lia))
      as [[-> _] | (j & e' & _ & Hj & Hv' & Hd' & Hb')].
    2:{ exfalso. apply (Habs j e'); [rewrite Hsl; exact Hj | exact Hv' | tauto]. }
    change (negb (-1 =? -1)) with false. cbv iota.
    rewrite (find_invalid_entry_from_first es i e 0 Hi Hv Hbefore).
    assert (Hne : (0 + Z.of_nat i =? -1) = false) by (apply Z.eqb_neq; lia).
    rewrite Hne. cbv beta iota zeta. rewrite Hne.
    replace (Z.to_nat (0 + Z.of_nat i)) with i by lia.
    rewrite Hes. cbn [default from_option id].
    rewrite (alter_as_insert _ i es e Hi). reflexivity.
  - intros j e' Hj Hv'.
    rewrite list_lookup_insert_ne; [exact Hj |].
    intros ->. rewrite Hi in Hj. injection Hj as <-. congruence.
Qed.

Lemma insert_fills_first_invalid_witness :
  fst (cache_insert 2 2 (Some (replicate 256 1)) (run_calls warm_calls)) = 1
  /\ default [] (cache (snd (cache_insert 2 2 (Some (replicate 256 1))
                               (run_calls warm_calls)))) !! 2%nat
     = Some (fill 2 2 (replicate 256 1) 4 (invalidate (fresh zeroed 2))).
Proof.
  destruct (insert_fills_first_invalid (run_calls warm_calls)
              (default [] (cache (run_calls warm_calls)))
              2 2 (replicate 256 1) 2 (invalidate (fresh zeroed 2)))
    as [H _].
  - split_and!; [reflexivity | reflexivity | reflexivity |].
    intros [| [| [| j]]] e H; simpl in H; try discriminate H;
      injection H as <-; simpl; lia.
  - lia.
  - lia.
  - intros [| [| [| j]]] e H; simpl in H; try discriminate H;
      injection H as <-; simpl; intros Hv [Hd _]; (discriminate Hv || discriminate Hd).
  - reflexivity.
  - reflexivity.
  - intros [| [| j]] e' H Hlt; simpl in H; try lia; injection H as <-; reflexivity.
  - rewrite H. split; reflexivity.
Defined.

(** X7. After every sequence of calls the hit count lies between 0 and
    the query count. *)
Theorem hits_at_most_queries (cs : list cache_call) :
  0 <= num_hits (run_calls cs) <= num_queries (run_calls cs).
Proof.
  unfold run_calls. induction cs as [| c cs IH] using rev_ind.
  - simpl. lia.
  - rewrite foldl_app. simpl. apply run_call_counters, IH.
Qed.

(** X8. Without a cache (before [cache_create], after [cache_destroy]) the
    cache is not enabled and every other call is refused without any
    change: lookup, insert and destroy return -1, update returns. *)
Theorem no_cache_rejects (st : cache_state) (disk block_ : Z)
    (buf : option (list Z)) :
  cache st = None ->
  cache_enabled st = false
  /\ cache_lookup disk block_ buf st = (-1, buf, st)
  /\ cache_update disk block_ buf st = st
  /\ cache_insert disk block_ buf st = (-1, st)
  /\ cache_destroy st = (-1, st).
Proof.
  intros Hnone.
  assert (Hen : cache_enabled st = false).
  { unfold cache_enabled. rewrite Hnone.
    rewrite bool_decide_false by (intros [x Hx]; discriminate Hx). reflexivity. }
  unfold cache_lookup, cache_update, cache_insert, cache_destroy.
  rewrite Hen, Hnone. destruct buf; split_and!; reflexivity.
Qed.

Lemma no_cache_rejects_witness :
  cache_insert 0 0 (Some (replicate 256 1))
    (run_calls [Call_create zeroed 4; Call_destroy])
  = (-1, run_calls [Call_create zeroed 4; Call_destroy]).
Proof.
  exact (proj1 (proj2 (proj2 (proj2
           (no_cache_rejects (run_calls [Call_create zeroed 4; Call_destroy])
              0 0 (Some (replicate 256 1)) eq_refl))))).
Defined.

(** X9. A resize keeps the cached pairs of the slots it keeps: in a state
    the cache reaches, after a successful resize a lookup of a pair cached
    in slot [i] still hits and returns the same bytes when [i] is below the
    new size, and misses when slot [i] was dropped. *)
Theorem resize_keeps_cached_pairs (cs : list cache_call) (es : list cache_entry_t)
    (i : nat) (e : cache_entry_t) (disk block_ : Z) (out : list Z)
    (m : malloc_outcome) (new_size : Z) :
  cache (run_calls cs) = Some es ->
  cached_at es i e disk block_ ->
  0 <= disk -> 0 <= block_ ->
  2 <= new_size <= 4096 -> alloc_ok m = true ->
  fst (cache_resize m new_size (run_calls cs)) = 1
  /\ fst (cache_lookup disk block_ (Some out)
            (snd (cache_resize m new_size (run_calls cs))))
     = if Z.of_nat i <? new_size
       then (1, Some (memcpy out 0 (block e) 0 JBOD_BLOCK_SIZE))
       else (-1, Some out).
Proof.
  intros Hes Hat Hd Hb Hn Hok.
  pose proof (run_calls_inv cs) as Hinv.
  destruct (cache_resize_enabled m new_size (run_calls cs) es Hinv Hes Hn Hok)
    as (es' & -> & Hlen' & Hcopy & Hrest).
  pose proof (well_formed_of_inv _ es Hinv Hes) as (_ & Hlen & Hsz & _).
  cbn [fst snd]. split; [reflexivity |].
  pose proof Hat as (Hi & Hv & Hdk & Hbk).
  pose proof (lookup_lt_Some es i e Hi) as Hlt.
  assert (Hold : forall (j : nat) (e' : cache_entry_t),
             es' !! j = Some e' -> valid e' = true ->
             Z.of_nat j < new_size /\ es !! j = Some e').
  { intros j e' Hj Hv'.
    destruct (Z_lt_ge_dec (Z.of_nat j) (Z.min new_size (cache_size (run_calls cs))))
      as [Hjlt | Hjge].
    - rewrite <- (Hcopy j Hjlt). split; [lia | exact Hj].
    - rewrite (Hrest j e' ltac:(lia) Hj) in Hv'. discriminate Hv'. }
  destruct (Z.ltb_spec (Z.of_nat i) new_size) as [Hin | Hout].
  - rewrite (cache_lookup_hit _ es' i e disk block_ out);
      cbn [cache cache_size]; try reflexivity; try assumption; try lia.
    + split_and!; try assumption. rewrite Hcopy by lia. exact Hi.
    + intros j e' (Hj & Hv' & Hdj & Hbj).
      destruct (Hold j e' Hj Hv') as [_ Hj'].
      apply (cached_at_unique cs es i j e e' disk block_ Hes Hat).
      split_and!; assumption.
  - rewrite cache_lookup_absent; [reflexivity |].
    intros j e' Hj Hv' [Hdj Hbj].
    unfold slots in Hj. cbn [cache cache_size default from_option id] in Hj.
    rewrite take_ge in Hj by lia.
    destruct (Hold j e' Hj Hv') as [Hjlt Hj'].
    assert (j = i); [| lia].
    apply (cached_at_unique cs es i j e e' disk block_ Hes Hat).
    split_and!; assumption.
Qed.

Lemma resize_keeps_cached_pairs_witness :
  fst (cache_lookup 0 7 (Some (replicate 256 0))
         (snd (cache_resize zeroed 8 (run_calls warm_calls))))
  = (1, Some (replicate 256 5))
  /\ fst (cache_lookup 1 9 (Some (replicate 256 0))
            (snd (cache_resize zeroed 8 (run_calls warm_calls))))
     = (1, Some (replicate 256 6)).
Proof.
  split.
  - rewrite (proj2 (resize_keeps_cached_pairs warm_calls
                      (default [] (cache (run_calls warm_calls))) 0
                      (stamp 3 (fill 0 7 (replicate 256 5) 1 (fresh zeroed 0)))
                      0 7 (replicate 256 0) zeroed 8
                      eq_refl ltac:(split_and!; reflexivity)
                      ltac:(lia) ltac:(lia) ltac:(lia) eq_refl)).
    reflexivity.
  - rewrite (proj2 (resize_keeps_cached_pairs warm_calls
                      (default [] (cache (run_calls warm_calls))) 1
                      (fill 1 9 (replicate 256 6) 2 (fresh zeroed 1))
                      1 9 (replicate 256 0) zeroed 8
                      eq_refl ltac:(split_and!; reflexivity)
                      ltac:(lia) ltac:(lia) ltac:(lia) eq_refl)).
    reflexivity.
Defined.

End CacheExtras.


(** * Further properties of the volume engine *)

Section Encoding.

Import Mdadm.

Lemma u8_range (x : Z) : 0 <= u8 x < 256.
Proof. unfold u8. apply Z.mod_pos_bound. lia. Qed.

Lemma shiftr_small (x n : Z) : 0 <= n -> 0 <= x < 2 ^ n -> Z.shiftr x n = 0.
Proof. intros Hn Hx. rewrite Z.shiftr_div_pow2 by lia. apply Z.div_small. exact Hx. Qed.

(** The fields of an operation word, for arbitrary arguments: the command
    is [cmd] modulo 256; a [disk_id] above 15 spills into the block field. *)
Lemma encode_op_fields (cmd disk_id block_id : Z) :
  0 <= encode_op cmd disk_id block_id < 2 ^ 20
  /\ op_cmd (encode_op cmd disk_id block_id) = u8 cmd
  /\ op_disk (encode_op cmd disk_id block_id) = u8 disk_id mod 16
  /\ op_block (encode_op cmd disk_id block_id)
     = Z.lor (u8 block_id) (u8 disk_id / 16).
Proof.
  unfold encode_op, op_cmd, op_disk, op_block.
  pose proof (u8_range cmd) as HC. pose proof (u8_range disk_id) as HD.
  pose proof (u8_range block_id) as HB.
  set (C := u8 cmd) in *. set (D := u8 disk_id) in *. set (B := u8 block_id) in *.
  set (X := Z.lor (Z.lor (Z.shiftl C 12) (Z.shiftl B 4)) D).
  assert (Hnn : 0 <= X).
  { unfold X. rewrite !Z.lor_nonneg, !Z.shiftl_nonneg. lia. }
  assert (H12 : Z.shiftr X 12 = C).
  { unfold X. rewrite !Z.shiftr_lor.
    rewrite Z.shiftr_shiftl_l by lia. rewrite Z.shiftr_shiftl_r by lia.
    change (12 - 12) with 0. change (12 - 4) with 8. rewrite Z.shiftl_0_r.
    rewrite (shiftr_small B 8) by lia. rewrite (shiftr_small D 12) by lia.
    rewrite !Z.lor_0_r. reflexivity. }
  assert (Hlt : X < 2 ^ 20).
  { rewrite Z.shiftr_div_pow2 in H12 by lia.
    change (2 ^ 12) with 4096 in H12. change (2 ^ 20) with 1048576.
    Z.div_mod_to_equations. lia. }
  assert (Hu : u32 X = X) by (apply Z.mod_small; lia).
  rewrite Hu. split; [lia |]. split; [exact H12 |]. split.
  - unfold X. rewrite !Z.land_lor_distr_l.
    change 15 with (Z.ones 4). rewrite !Z.land_ones by lia.
    rewrite !Z.shiftl_mul_pow2 by lia.
    replace (C * 2 ^ 12) with (C * 256 * 2 ^ 4) by lia.
    rewrite !Z.mod_mul by lia. reflexivity.
  - unfold X. rewrite !Z.shiftr_lor, !Z.land_lor_distr_l.
    rewrite !Z.shiftr_shiftl_l by lia.
    change (12 - 4) with 8. change (4 - 4) with 0. rewrite Z.shiftl_0_r.
    change 255 with (Z.ones 8). rewrite !Z.land_ones by lia.
    rewrite Z.shiftl_mul_pow2 by lia. rewrite Z.mod_mul by lia.
    rewrite Z.lor_0_l. rewrite Z.shiftr_div_pow2 by lia.
    rewrite (Z.mod_small B) by lia.
    rewrite (Z.mod_small (D / 2 ^ 4)); [reflexivity |].
    split; [apply Z.div_pos; lia | apply Z.div_lt_upper_bound; lia].
Qed.

(** X10. The layout of an operation word: for a command below 256, a disk
    index below 16 and a block index below 256, [encode_op] computes
    [cmd * 4096 + block * 16 + disk], and command, block and disk are read
    back from bits 12 and up, bits 4 to 11 and bits 0 to 3. *)
Theorem encode_op_layout (cmd disk_id block_id : Z) :
  0 <= cmd < 256 -> 0 <= disk_id < 16 -> 0 <= block_id < 256 ->
  encode_op cmd disk_id block_id = cmd * 4096 + block_id * 16 + disk_id
  /\ op_cmd (encode_op cmd disk_id block_id) = cmd
  /\ op_block (encode_op cmd disk_id block_id) = block_id
  /\ op_disk (encode_op cmd disk_id block_id) = disk_id.
Proof.
  intros Hc Hd Hb.
  destruct (encode_op_fields cmd disk_id block_id) as (Hrange & Hcmd & Hdisk & Hblock).
  unfold u8 in Hcmd, Hdisk, Hblock. change (2 ^ 8) with 256 in *.
  rewrite (Z.mod_small cmd) in Hcmd by lia.
  rewrite (Z.mod_small disk_id 256) in Hdisk, Hblock by lia.
  rewrite (Z.mod_small disk_id 16) in Hdisk by lia.
  rewrite (Z.mod_small block_id) in Hblock by lia.
  rewrite (Z.div_small disk_id 16), Z.lor_0_r in Hblock by lia.
  split_and!; try assumption.
  set (X := encode_op cmd disk_id block_id) in *.
  unfold op_cmd, op_block, op_disk in Hcmd, Hblock, Hdisk.
  change 255 with (Z.ones 8) in Hblock. change 15 with (Z.ones 4) in Hdisk.
  rewrite Z.land_ones in Hblock, Hdisk by lia.
  rewrite Z.shiftr_div_pow2 in Hcmd, Hblock by lia.
  change (2 ^ 12) with 4096 in *. change (2 ^ 4) with 16 in *.
  change (2 ^ 8) with 256 in *.
  Z.div_mod_to_equations. lia.
Qed.

Lemma encode_op_layout_witness :
  encode_op JBOD_SEEK_TO_BLOCK 0 200 = 3 * 4096 + 200 * 16 + 0
  /\ op_block (encode_op JBOD_SEEK_TO_BLOCK 0 200) = 200.
Proof.
  destruct (encode_op_layout JBOD_SEEK_TO_BLOCK 0 200) as (H1 & _ & H2 & _);
    [unfold JBOD_SEEK_TO_BLOCK; lia | lia | lia |].
  split; [exact H1 | exact H2].
Defined.

End Encoding.

Section Discipline.

Import Mdadm.

Context {device : Type}.
Variable jbod_operation :
  Z -> option (list Z) -> device -> Z * option (list Z) * device.
Variable stack_block : list Z.

(** Whatever the start address, a segment moves at least one byte and at
    most what is left of the transfer and of a block. *)
Lemma seg_len_bounds (start_addr len done : Z) :
  0 <= done < len -> len < 2 ^ 32 ->
  1 <= seg_len (segment_at start_addr len done) <= len - done
  /\ seg_len (segment_at start_addr len done) <= 256.
Proof.
  intros Hd Hl. unfold segment_at, JBOD_DISK_SIZE, JBOD_BLOCK_SIZE. cbn [seg_len].
  set (off := (u32 (start_addr + done) mod 65536) mod 256).
  assert (Hoff : 0 <= off < 256) by (apply Z.mod_pos_bound; lia).
  rewrite (u32_small (256 - off)) by lia.
  rewrite (u32_small (len - done)) by lia.
  destruct (Z.gtb_spec (len - done) (256 - off)); lia.
Qed.

Variable P : device -> Prop.
Hypothesis P_kept :
  forall op blk d, transfer_cmd op -> P d -> P (snd (jbod_operation op blk d)).

(** What one call of the array leaves, for a command word [encode_op c _ _]. *)
Lemma jbod_call_frame (c disk_id block_id : Z) (blk : option (list Z))
    (st : mdadm_state (device := device)) :
  0 <= c < 256 ->
  let r := jbod_call jbod_operation (encode_op c disk_id block_id) blk st in
  mounted (snd r) = mounted st
  /\ write_permission (snd r) = write_permission st
  /\ issued (snd r) = issued st ++ [encode_op c disk_id block_id]
  /\ op_cmd (encode_op c disk_id block_id) = c
  /\ (transfer_cmd (encode_op c disk_id block_id) -> P (jbod st) -> P (jbod (snd r))).
Proof.
  intros Hc. unfold jbod_call.
  pose proof (P_kept (encode_op c disk_id block_id) blk (jbod st)) as HP.
  destruct (jbod_operation (encode_op c disk_id block_id) blk (jbod st))
    as [[rc blk'] d]. cbn [snd fst mounted write_permission issued jbod] in *.
  split_and!; try reflexivity; [| exact HP].
  destruct (encode_op_fields c disk_id block_id) as (_ & -> & _).
  unfold u8. apply Z.mod_small. change (2 ^ 8) with 256. lia.
Qed.

Local Ltac forall_ops :=
  repeat (constructor 2; [assumption |]); constructor 1.

Lemma read_segment_frame (s : segment) (buf : list Z) (k : Z)
    (st : mdadm_state (device := device)) :
  exists rc buf' st' ops,
    read_segment jbod_operation stack_block s buf k st = (rc, buf', st')
    /\ mounted st' = mounted st
    /\ write_permission st' = write_permission st
    /\ issued st' = issued st ++ ops
    /\ Forall read_cmd ops
    /\ (P (jbod st) -> P (jbod st')).
Proof.
  unfold read_segment.
  destruct (jbod_call_frame JBOD_SEEK_TO_DISK (Z.land (seg_disk s) 15) 0 None st
              ltac:(unfold JBOD_SEEK_TO_DISK; lia)) as (Hm1 & Hw1 & Hi1 & Hc1 & HP1).
  destruct (jbod_call _ _ None st) as [[rc1 b1] st1]. cbn [snd] in *.
  assert (Hr1 : read_cmd (encode_op JBOD_SEEK_TO_DISK (Z.land (seg_disk s) 15) 0))
    by (left; exact Hc1).
  destruct (negb (rc1 =? 0)).
  { eexists _, _, _, _. split; [reflexivity |].
    split_and!; [exact Hm1 | exact Hw1 | exact Hi1 | | ].
    - forall_ops.
    - apply HP1. left. exact Hr1. }
  destruct (jbod_call_frame JBOD_SEEK_TO_BLOCK 0 (Z.land (seg_block s) 255) None st1
              ltac:(unfold JBOD_SEEK_TO_BLOCK; lia)) as (Hm2 & Hw2 & Hi2 & Hc2 & HP2).
  destruct (jbod_call _ _ None st1) as [[rc2 b2] st2]. cbn [snd] in *.
  assert (Hr2 : read_cmd (encode_op JBOD_SEEK_TO_BLOCK 0 (Z.land (seg_block s) 255)))
    by (right; left; exact Hc2).
  destruct (negb (rc2 =? 0)).
  { eexists _, _, _, _. split; [reflexivity |].
    split_and!; [congruence | congruence | | | ].
    - rewrite Hi2, Hi1, <- app_assoc. reflexivity.
    - forall_ops.
    - intros HP. apply HP2; [left; exact Hr2 |]. apply HP1; [left; exact Hr1 | exact HP]. }
  destruct (jbod_call_frame JBOD_READ_BLOCK 0 0 (Some stack_block) st2
              ltac:(unfold JBOD_READ_BLOCK; lia)) as (Hm3 & Hw3 & Hi3 & Hc3 & HP3).
  destruct (jbod_call _ _ (Some stack_block) st2) as [[rc3 b3] st3]. cbn [snd] in *.
  assert (Hr3 : read_cmd (encode_op JBOD_READ_BLOCK 0 0))
    by (right; right; exact Hc3).
  assert (Hall : mounted st3 = mounted st /\ write_permission st3 = write_permission st
                 /\ issued st3 = issued st ++ read_segment_ops s
                 /\ Forall read_cmd (read_segment_ops s)
                 /\ (P (jbod st) -> P (jbod st3))).
  { split_and!; [congruence | congruence | | | ].
    - rewrite Hi3, Hi2, Hi1, <- !app_assoc. reflexivity.
    - unfold read_segment_ops. forall_ops.
    - intros HP. apply HP3; [left; exact Hr3 |].
      apply HP2; [left; exact Hr2 |]. apply HP1; [left; exact Hr1 | exact HP]. }
  destruct (negb (rc3 =? 0)); eexists _, _, _, _; (split; [reflexivity | exact Hall]).
Qed.

Lemma write_segment_frame (s : segment) (buf : list Z) (k : Z)
    (st : mdadm_state (device := device)) :
  exists rc st' ops,
    write_segment jbod_operation s buf k st = (rc, st')
    /\ mounted st' = mounted st
    /\ write_permission st' = write_permission st
    /\ issued st' = issued st ++ ops
    /\ Forall transfer_cmd ops
    /\ (P (jbod st) -> P (jbod st')).
Proof.
  unfold write_segment.
  destruct (jbod_call_frame JBOD_SEEK_TO_DISK (seg_disk s) 0 None st
              ltac:(unfold JBOD_SEEK_TO_DISK; lia)) as (Hm1 & Hw1 & Hi1 & Hc1 & HP1).
  destruct (jbod_call _ _ None st) as [[rc1 b1] st1]. cbn [snd] in *.
  assert (Hr1 : transfer_cmd (encode_op JBOD_SEEK_TO_DISK (seg_disk s) 0))
    by (left; left; exact Hc1).
  destruct (negb (rc1 =? 0)).
  { eexists _, _, _. split; [reflexivity |].
    split_and!; [exact Hm1 | exact Hw1 | exact Hi1 | | ].
    - forall_ops.
    - apply HP1. exact Hr1. }
  destruct (jbod_call_frame JBOD_SEEK_TO_BLOCK 0 (seg_block s) None st1
              ltac:(unfold JBOD_SEEK_TO_BLOCK; lia)) as (Hm2 & Hw2 & Hi2 & Hc2 & HP2).
  destruct (jbod_call _ _ None st1) as [[rc2 b2] st2]. cbn [snd] in *.
  assert (Hr2 : transfer_cmd (encode_op JBOD_SEEK_TO_BLOCK 0 (seg_block s)))
    by (left; right; left; exact Hc2).
  destruct (negb (rc2 =? 0)).
  { eexists _, _, _. split; [reflexivity |].
    split_and!; [congruence | congruence | | | ].
    - rewrite Hi2, Hi1, <- app_assoc. reflexivity.
    - forall_ops.
    - intros HP. apply HP2; [exact Hr2 |]. apply HP1; [exact Hr1 | exact HP]. }
  set (zeros := replicate (Z.to_nat JBOD_BLOCK_SIZE) 0).
  assert (Hpre : exists rc3 b3 st3 ops3,
             (if (seg_len s <? JBOD_BLOCK_SIZE) || negb (seg_offset s =? 0)
              then jbod_call jbod_operation (encode_op JBOD_READ_BLOCK 0 0)
                             (Some zeros) st2
              else (0, zeros, st2)) = (rc3, b3, st3)
             /\ mounted st3 = mounted st2
             /\ write_permission st3 = write_permission st2
             /\ issued st3 = issued st2 ++ ops3
             /\ Forall transfer_cmd ops3
             /\ (P (jbod st2) -> P (jbod st3))).
  { destruct ((seg_len s <? JBOD_BLOCK_SIZE) || negb (seg_offset s =? 0)).
    - destruct (jbod_call_frame JBOD_READ_BLOCK 0 0 (Some zeros) st2
                  ltac:(unfold JBOD_READ_BLOCK; lia)) as (Hm3 & Hw3 & Hi3 & Hc3 & HP3).
      destruct (jbod_call _ _ (Some zeros) st2) as [[rc3 b3] st3]. cbn [snd] in *.
      assert (Hr3 : transfer_cmd (encode_op JBOD_READ_BLOCK 0 0))
        by (left; right; right; exact Hc3).
      exists rc3, b3, st3, [encode_op JBOD_READ_BLOCK 0 0].
      split_and!; try assumption; try reflexivity.
      + forall_ops.
      + apply HP3. exact Hr3.
    - exists 0, zeros, st2, []. rewrite app_nil_r.
      split_and!; try reflexivity; [constructor 1 | tauto]. }
  destruct Hpre as (rc3 & b3 & st3 & ops3 & -> & Hm3 & Hw3 & Hi3 & Hf3 & HP3).
  destruct (negb (rc3 =? 0)).
  { eexists _, _, _. split; [reflexivity |].
    split_and!; [congruence | congruence | | | ].
    - rewrite Hi3, Hi2, Hi1, <- !app_assoc. reflexivity.
    - rewrite ?Forall_app. split_and!; first [exact Hf3 | forall_ops].
    - intros HP. apply HP3, HP2; [exact Hr2 |]. apply HP1; [exact Hr1 | exact HP]. }
  set (merged := memcpy b3 (seg_offset s) buf k (seg_len s)).
  destruct (jbod_call_frame JBOD_WRITE_BLOCK 0 0 (Some merged) st3
              ltac:(unfold JBOD_WRITE_BLOCK; lia)) as (Hm4 & Hw4 & Hi4 & Hc4 & HP4).
  destruct (jbod_call _ _ (Some merged) st3) as [[rc4 b4] st4]. cbn [snd] in *.
  assert (Hr4 : transfer_cmd (encode_op JBOD_WRITE_BLOCK 0 0)) by (right; exact Hc4).
  assert (Hall : mounted st4 = mounted st /\ write_permission st4 = write_permission st
                 /\ issued st4
                    = issued st
                      ++ ([encode_op JBOD_SEEK_TO_DISK (seg_disk s) 0;
                           encode_op JBOD_SEEK_TO_BLOCK 0 (seg_block s)]
                          ++ ops3 ++ [encode_op JBOD_WRITE_BLOCK 0 0])
                 /\ Forall transfer_cmd
                      ([encode_op JBOD_SEEK_TO_DISK (seg_disk s) 0;
                        encode_op JBOD_SEEK_TO_BLOCK 0 (seg_block s)]
                       ++ ops3 ++ [encode_op JBOD_WRITE_BLOCK 0 0])
                 /\ (P (jbod st) -> P (jbod st4))).
  { split_and!; [congruence | congruence | | | ].
    - rewrite Hi4, Hi3, Hi2, Hi1, <- !app_assoc. reflexivity.
    - rewrite ?Forall_app. split_and!; first [exact Hf3 | forall_ops].
    - intros HP. apply HP4; [exact Hr4 |]. apply HP3, HP2; [exact Hr2 |].
      apply HP1; [exact Hr1 | exact HP]. }
  destruct (negb (rc4 =? 0)); eexists _, _, _; (split; [reflexivity | exact Hall]).
Qed.

(** The loops end for every start address, and keep the frame. *)
Lemma read_loop_frame (start_addr read_len : Z) :
  read_len < 2 ^ 32 ->
  forall (fuel : nat) (buf : list Z) (k : Z) (st : mdadm_state (device := device)),
    0 <= k -> read_len - k <= Z.of_nat fuel ->
    exists rc buf' st' ops,
      read_loop jbod_operation stack_block fuel start_addr read_len buf k st
        = Some (rc, buf', st')
      /\ mounted st' = mounted st
      /\ write_permission st' = write_permission st
      /\ issued st' = issued st ++ ops
      /\ Forall read_cmd ops
      /\ (P (jbod st) -> P (jbod st')).
Proof.
  intros Hlen. induction fuel as [| fuel IH]; intros buf k st Hk Hfuel;
    cbn [read_loop].
  - destruct (Z.ltb_spec k read_len); [lia |].
    exists k, buf, st, []. rewrite app_nil_r.
    split_and!; try reflexivity; [constructor 1 | tauto].
  - destruct (Z.ltb_spec k read_len) as [Hlt | Hge].
    2:{ exists k, buf, st, []. rewrite app_nil_r.
        split_and!; try reflexivity; [constructor 1 | tauto]. }
    cbv zeta.
    destruct (read_segment_frame (segment_at start_addr read_len k) buf k st)
      as (rc1 & b1 & st1 & ops1 & -> & Hm1 & Hw1 & Hi1 & Hf1 & HP1).
    destruct (negb (rc1 =? 0)).
    { exists rc1, b1, st1, ops1. split_and!; try assumption; reflexivity. }
    destruct (seg_len_bounds start_addr read_len k ltac:(lia) Hlen) as [Hn _].
    rewrite u32_small by lia.
    destruct (IH b1 (k + seg_len (segment_at start_addr read_len k)) st1
                ltac:(lia) ltac:(lia))
      as (rc & buf' & st' & ops & -> & Hm & Hw & Hi & Hf & HP).
    exists rc, buf', st', (ops1 ++ ops).
    split_and!; [reflexivity | congruence | congruence | | | tauto].
    + rewrite Hi, Hi1, <- app_assoc. reflexivity.
    + apply Forall_app. split; assumption.
Qed.

Lemma write_loop_frame (start_addr write_len : Z) (buf : list Z) :
  write_len < 2 ^ 32 ->
  forall (fuel : nat) (k : Z) (st : mdadm_state (device := device)),
    0 <= k -> write_len - k <= Z.of_nat fuel ->
    exists rc st' ops,
      write_loop jbod_operation fuel start_addr write_len buf k st = Some (rc, st')
      /\ mounted st' = mounted st
      /\ write_permission st' = write_permission st
      /\ issued st' = issued st ++ ops
      /\ Forall transfer_cmd ops
      /\ (P (jbod st) -> P (jbod st')).
Proof.
  intros Hlen. induction fuel as [| fuel IH]; intros k st Hk Hfuel;
    cbn [write_loop].
  - destruct (Z.ltb_spec k write_len); [lia |].
    exists k, st, []. rewrite app_nil_r.
    split_and!; try reflexivity; [constructor 1 | tauto].
  - destruct (Z.ltb_spec k write_len) as [Hlt | Hge].
    2:{ exists k, st, []. rewrite app_nil_r.
        split_and!; try reflexivity; [constructor 1 | tauto]. }
    cbv zeta.
    destruct (write_segment_frame (segment_at start_addr write_len k) buf k st)
      as (rc1 & st1 & ops1 & -> & Hm1 & Hw1 & Hi1 & Hf1 & HP1).
    destruct (negb (rc1 =? 0)).
    { exists rc1, st1, ops1. split_and!; try assumption; reflexivity. }
    destruct (seg_len_bounds start_addr write_len k ltac:(lia) Hlen) as [Hn _].
    rewrite u32_small by lia.
    destruct (IH (k + seg_len (segment_at start_addr write_len k)) st1
                ltac:(lia) ltac:(lia))
      as (rc & st' & ops & -> & Hm & Hw & Hi & Hf & HP).
    exists rc, st', (ops1 ++ ops).
    split_and!; [reflexivity | congruence | congruence | | | tauto].
    + rewrite Hi, Hi1, <- app_assoc. reflexivity.
    + apply Forall_app. split; assumption.
Qed.

Lemma mdadm_read_frame (start_addr read_len : Z) (read_buf : option (list Z))
    (st : mdadm_state (device := device)) :
  exists rc buf' st' ops,
    mdadm_read jbod_operation stack_block start_addr read_len read_buf st
      = Some (rc, buf', st')
    /\ mounted st' = mounted st
    /\ write_permission st' = write_permission st
    /\ issued st' = issued st ++ ops
    /\ Forall read_cmd ops
    /\ (P (jbod st) -> P (jbod st')).
Proof.
  assert (Hstay : forall rc : Z,
             exists rc' buf' st' ops,
               Some (rc, read_buf, st) = Some (rc', buf', st')
               /\ mounted st' = mounted st
               /\ write_permission st' = write_permission st
               /\ issued st' = issued st ++ ops
               /\ Forall read_cmd ops
               /\ (P (jbod st) -> P (jbod st'))).
  { intros rc. exists rc, read_buf, st, []. rewrite app_nil_r.
    split_and!; try reflexivity; [constructor 1 | tauto]. }
  unfold mdadm_read.
  destruct (mounted st =? 0); [apply Hstay |].
  destruct (Z.gtb_spec read_len 1024); [apply Hstay |].
  destruct ((read_len >? 0) && bool_decide (read_buf = None)); [apply Hstay |].
  destruct (out_of_range start_addr read_len); [apply Hstay |].
  destruct read_buf as [buf |]; [| apply Hstay].
  destruct (read_loop_frame start_addr read_len ltac:(lia)
              (Z.to_nat read_len) buf 0 st ltac:(lia) ltac:(lia))
    as (rc & buf' & st' & ops & -> & Hframe).
  exists rc, (Some buf'), st', ops. split; [reflexivity | exact Hframe].
Qed.

Lemma mdadm_write_frame (start_addr write_len : Z) (write_buf : option (list Z))
    (st : mdadm_state (device := device)) :
  exists rc st' ops,
    mdadm_write jbod_operation start_addr write_len write_buf st = Some (rc, st')
    /\ mounted st' = mounted st
    /\ write_permission st' = write_permission st
    /\ issued st' = issued st ++ ops
    /\ Forall transfer_cmd ops
    /\ (P (jbod st) -> P (jbod st')).
Proof.
  assert (Hstay : forall rc : Z,
             exists rc' st' ops,
               Some (rc, st) = Some (rc', st')
               /\ mounted st' = mounted st
               /\ write_permission st' = write_permission st
               /\ issued st' = issued st ++ ops
               /\ Forall transfer_cmd ops
               /\ (P (jbod st) -> P (jbod st'))).
  { intros rc. exists rc, st, []. rewrite app_nil_r.
    split_and!; try reflexivity; [constructor 1 | tauto]. }
  unfold mdadm_write.
  destruct (mounted st =? 0); [apply Hstay |].
  destruct (negb (write_permission st)); [apply Hstay |].
  destruct (Z.gtb_spec write_len 1024); [apply Hstay |].
  destruct ((write_len >? 0) && bool_decide (write_buf = None)); [apply Hstay |].
  destruct (write_len =? 0); [apply Hstay |].
  destruct (out_of_range start_addr write_len); [apply Hstay |].
  destruct write_buf as [buf |]; [| apply Hstay].
  apply (write_loop_frame start_addr write_len buf ltac:(lia)
           (Z.to_nat write_len) 0 st ltac:(lia) ltac:(lia)).
Qed.

End Discipline.

Section ArrayReads.

Import Mdadm.

Lemma land_small (x n : Z) : 0 <= n -> 0 <= x < 2 ^ n -> Z.land x (Z.ones n) = x.
Proof. intros Hn Hx. rewrite Z.land_ones by lia. apply Z.mod_small. exact Hx. Qed.

Lemma read_segment_on_array (stack_block : list Z) (s : segment) (buf : list Z)
    (k : Z) (st : mdadm_state (device := jbod_t)) :
  jbod_mounted (jbod st) = true ->
  0 <= seg_disk s < 16 -> 0 <= seg_block s < 256 -> 0 <= seg_offset s < 256 ->
  1 <= seg_len s <= 256 - seg_offset s ->
  0 <= k ->
  exists buf' st',
    read_segment spec_jbod_operation stack_block s buf k st = (0, buf', st')
    /\ mounted st' = mounted st
    /\ write_permission st' = write_permission st
    /\ jbod_mounted (jbod st') = true
    /\ storage (jbod st') = storage (jbod st)
    /\ issued st' = issued st ++ read_segment_ops s
    /\ length buf' = length buf
    /\ forall i, 0 <= i < Z.of_nat (length buf) ->
         byte_at buf' i
           = if (k <=? i) && (i <? k + seg_len s)
             then storage (jbod st) (seg_disk s) (seg_block s)
                          (seg_offset s + (i - k))
             else byte_at buf i.
Proof.
  intros Hm Hd Hb Ho Hl Hk.
  unfold read_segment, read_segment_ops, jbod_call.
  change 15 with (Z.ones 4). change 255 with (Z.ones 8).
  rewrite (land_small (seg_disk s) 4) by (simpl; lia).
  rewrite (land_small (seg_block s) 8) by (simpl; lia).
  rewrite (spec_seek_to_disk _ _ Hm Hd). cbn [jbod mounted write_permission issued].
  change (negb (0 =? 0)) with false. cbv iota.
  rewrite (spec_seek_to_block (seg_block s)) by (reflexivity || assumption).
  cbn [jbod mounted write_permission issued cur_disk cur_block storage
       jbod_write_permission jbod_mounted].
  change (negb (0 =? 0)) with false. cbv iota.
  rewrite spec_read_block by reflexivity.
  cbn [jbod mounted write_permission issued cur_disk cur_block storage
       jbod_write_permission jbod_mounted default from_option id].
  change (negb (0 =? 0)) with false. cbv iota.
  eexists _, _. split; [reflexivity |].
  cbn [jbod mounted write_permission issued storage jbod_mounted].
  split_and!; try reflexivity.
  - rewrite <- !app_assoc. reflexivity.
  - unfold memcpy. apply length_imap.
  - intros i Hi. rewrite byte_at_memcpy by lia.
    destruct (Z.leb_spec k i); destruct (Z.ltb_spec i (k + seg_len s));
      cbn [andb]; try reflexivity.
    rewrite byte_at_block_under_cursor by lia. reflexivity.
Qed.

Lemma segment_address (A n a : Z) :
  0 <= A -> 1 <= n <= 256 - (A mod 65536) mod 256 -> A <= a < A + n ->
  a / 65536 = A / 65536
  /\ (a mod 65536) / 256 = (A mod 65536) / 256
  /\ (a mod 65536) mod 256 = (A mod 65536) mod 256 + (a - A).
Proof. intros HA Hn Ha. Z.div_mod_to_equations. lia. Qed.

Lemma read_loop_on_array (stack_block : list Z) (start_addr read_len : Z) :
  0 <= start_addr -> start_addr + read_len <= 16 * 65536 ->
  forall (fuel : nat) (buf : list Z) (k : Z) (st : mdadm_state (device := jbod_t)),
    0 <= k <= read_len -> read_len - k <= Z.of_nat fuel ->
    read_len <= Z.of_nat (length buf) ->
    jbod_mounted (jbod st) = true ->
    exists buf' st',
      read_loop spec_jbod_operation stack_block fuel start_addr read_len buf k st
        = Some (read_len, buf', st')
      /\ mounted st' = mounted st
      /\ write_permission st' = write_permission st
      /\ jbod_mounted (jbod st') = true
      /\ storage (jbod st') = storage (jbod st)
      /\ issued st'
         = issued st
           ++ flat_map read_segment_ops (segments_from fuel start_addr read_len k)
      /\ length buf' = length buf
      /\ forall i, 0 <= i < Z.of_nat (length buf) ->
           byte_at buf' i
             = if (k <=? i) && (i <? read_len)
               then volume_byte (jbod st) (start_addr + i)
               else byte_at buf i.
Proof.
  intros Hs Hend. induction fuel as [| fuel IH]; intros buf k st Hk Hfuel Hbuf Hm.
  - assert (k = read_len) as -> by lia.
    cbn [read_loop segments_from]. rewrite Z.ltb_irrefl.
    exists buf, st. split_and!; try reflexivity; try assumption.
    + cbn [flat_map]. rewrite app_nil_r. reflexivity.
    + intros i Hi.
      destruct (Z.leb_spec read_len i); destruct (Z.ltb_spec i read_len);
        cbn [andb]; reflexivity || lia.
  - cbn [read_loop segments_from].
    destruct (Z.ltb_spec k read_len) as [Hlt | Hge].
    2:{ assert (k = read_len) as -> by lia.
        exists buf, st. split_and!; try reflexivity; try assumption.
        + cbn [flat_map]. rewrite app_nil_r. reflexivity.
        + intros i Hi.
          destruct (Z.leb_spec read_len i); destruct (Z.ltb_spec i read_len);
            cbn [andb]; reflexivity || lia. }
    cbv zeta.
    rewrite (segment_at_in_range start_addr read_len k) by lia.
    set (A := start_addr + k).
    set (s := {| seg_disk := A / 65536; seg_block := (A mod 65536) / 256;
                 seg_offset := (A mod 65536) mod 256;
                 seg_len := Z.min (read_len - k) (256 - (A mod 65536) mod 256) |}).
    destruct (segment_bounds A ltac:(unfold A; lia)) as (Hd & Hb & Ho).
    assert (Hn : 1 <= seg_len s <= 256 - seg_offset s)
      by (cbn [s seg_len seg_offset]; lia).
    destruct (read_segment_on_array stack_block s buf k st Hm Hd Hb Ho Hn ltac:(lia))
      as (b1 & st1 & -> & Hm1 & Hw1 & Hjm1 & Hst1 & Hi1 & Hlen1 & Hb1).
    change (negb (0 =? 0)) with false. cbv iota.
    assert (Hk' : u32 (k + seg_len s) = k + seg_len s).
    { apply u32_small. cbn [s seg_len]. lia. }
    rewrite Hk'.
    destruct (IH b1 (k + seg_len s) st1) as
      (buf' & st' & -> & Hm' & Hw' & Hjm' & Hst' & Hi' & Hlen' & Hb');
      [cbn [s seg_len]; lia | cbn [s seg_len]; lia | lia | exact Hjm1 |].
    exists buf', st'. split_and!; try congruence.
    + rewrite Hi', Hi1. cbn [flat_map]. rewrite <- !app_assoc. reflexivity.
    + intros i Hi. rewrite Hb' by lia. rewrite Hb1 by lia.
      unfold volume_byte, JBOD_DISK_SIZE, JBOD_BLOCK_SIZE. rewrite Hst1.
      assert (Hle : k + seg_len s <= read_len) by (cbn [s seg_len]; lia).
      destruct (Z.leb_spec (k + seg_len s) i); destruct (Z.ltb_spec i read_len);
        destruct (Z.leb_spec k i); destruct (Z.ltb_spec i (k + seg_len s));
        cbn [andb]; try reflexivity; try lia.
      destruct (segment_address A (seg_len s) (start_addr + i))
        as (-> & -> & ->); [unfold A; lia | exact Hn | unfold A; lia |].
      cbn [s seg_disk seg_block seg_offset]. f_equal. unfold A. lia.
Qed.

Lemma mdadm_read_on_array (stack_block : list Z)
    (st : mdadm_state (device := jbod_t)) (start_addr read_len : Z) (buf : list Z) :
  mounted st <> 0 -> jbod_mounted (jbod st) = true ->
  0 <= start_addr -> 0 <= read_len <= 1024 ->
  start_addr + read_len <= 16 * 65536 ->
  read_len <= Z.of_nat (length buf) ->
  exists buf' st',
    mdadm_read spec_jbod_operation stack_block start_addr read_len (Some buf) st
      = Some (read_len, Some buf', st')
    /\ mounted st' = mounted st
    /\ write_permission st' = write_permission st
    /\ jbod_mounted (jbod st') = true
    /\ storage (jbod st') = storage (jbod st)
    /\ issued st'
       = issued st ++ flat_map read_segment_ops (segments start_addr read_len)
    /\ length buf' = length buf
    /\ forall i, 0 <= i < Z.of_nat (length buf) ->
         byte_at buf' i
           = if (0 <=? i) && (i <? read_len)
             then volume_byte (jbod st) (start_addr + i)
             else byte_at buf i.
Proof.
  intros Hm Hjm Hs Hl Hend Hbuf. unfold mdadm_read.
  destruct (Z.eqb_spec (mounted st) 0); [contradiction |].
  destruct (Z.gtb_spec read_len 1024); [lia |].
  rewrite bool_decide_false by discriminate. rewrite andb_false_r.
  destruct (out_of_range start_addr read_len) eqn:Hoor.
  { apply out_of_range_spec in Hoor; lia. }
  destruct (read_loop_on_array stack_block start_addr read_len Hs Hend
              (Z.to_nat read_len) buf 0 st ltac:(lia) ltac:(lia) Hbuf Hjm)
    as (buf' & st' & -> & Hrest).
  exists buf', st'. split; [reflexivity | exact Hrest].
Qed.

Lemma mdadm_write_on_array (st : mdadm_state (device := jbod_t))
    (start_addr write_len : Z) (buf : list Z) :
  mounted st <> 0 -> write_permission st = true ->
  jbod_mounted (jbod st) = true ->
  0 <= start_addr -> 0 < write_len <= 1024 ->
  start_addr + write_len <= 16 * 65536 ->
  exists st',
    mdadm_write spec_jbod_operation start_addr write_len (Some buf) st
      = Some (write_len, st')
    /\ mounted st' = mounted st
    /\ write_permission st' = write_permission st
    /\ jbod_mounted (jbod st') = true
    /\ forall a, 0 <= a < 16 * 65536 ->
         volume_byte (jbod st') a
           = if (start_addr <=? a) && (a <? start_addr + write_len)
             then byte_at buf (a - start_addr)
             else volume_byte (jbod st) a.
Proof.
  intros Hm Hw Hjm Hs Hl Hend.
  destruct (mdadm_write_frame spec_jbod_operation
              (fun d => jbod_mounted d = true)) with
    (start_addr := start_addr) (write_len := write_len)
    (write_buf := Some buf) (st := st)
    as (rc0 & st0 & ops & Heq0 & _ & _ & _ & _ & Hkeep).
  { intros op blk d Hcmd Hd. unfold spec_jbod_operation. rewrite Hd.
    destruct Hcmd as [[Hc | [Hc | Hc]] | Hc]; rewrite Hc; cbn;
      try reflexivity; destruct blk; cbn; assumption || reflexivity. }
  assert (Hunf : mdadm_write spec_jbod_operation start_addr write_len (Some buf) st
                 = write_loop spec_jbod_operation (Z.to_nat write_len)
                              start_addr write_len buf 0 st).
  { unfold mdadm_write.
    destruct (Z.eqb_spec (mounted st) 0); [contradiction |].
    rewrite Hw. cbn [negb].
    destruct (Z.gtb_spec write_len 1024); [lia |].
    rewrite bool_decide_false by discriminate. rewrite andb_false_r.
    destruct (Z.eqb_spec write_len 0); [lia |].
    destruct (out_of_range start_addr write_len) eqn:Hoor; [| reflexivity].
    apply out_of_range_spec in Hoor; lia. }
  rewrite Hunf in Heq0 |- *.
  destruct (write_loop_on_array start_addr write_len buf Hs Hend
              (Z.to_nat write_len) 0 st ltac:(lia) ltac:(lia) Hjm)
    as (st' & Hloop & Hm' & Hw' & _ & Hbytes).
  exists st'. rewrite Hloop in Heq0. injection Heq0 as _ <-.
  split; [exact Hloop |]. split; [exact Hm' |]. split; [exact Hw' |].
  split; [exact (Hkeep Hjm) |].
  intros a Ha. rewrite (Hbytes a Ha). rewrite Z.add_0_r. reflexivity.
Qed.

Lemma mount_on_array (st : mdadm_state (device := jbod_t)) :
  mounted st = 0 -> jbod_mounted (jbod st) = false ->
  exists st',
    mdadm_mount spec_jbod_operation st = (1, st')
    /\ mounted st' = 1
    /\ write_permission st' = write_permission st
    /\ jbod_mounted (jbod st') = true
    /\ storage (jbod st') = storage (jbod st)
    /\ issued st' = issued st ++ [encode_op JBOD_MOUNT 0 0].
Proof.
  intros Hm Hjm. unfold mdadm_mount, jbod_call, spec_jbod_operation.
  rewrite Hm. cbn [Z.eqb negb].
  change (op_cmd (encode_op JBOD_MOUNT 0 0)) with JBOD_MOUNT.
  rewrite Hjm. cbn.
  eexists. split; [reflexivity |]. cbn. split_and!; reflexivity.
Qed.

Lemma unmount_on_array (st : mdadm_state (device := jbod_t)) :
  mounted st <> 0 -> jbod_mounted (jbod st) = true ->
  exists st',
    mdadm_unmount spec_jbod_operation st = (1, st')
    /\ mounted st' = 0
    /\ write_permission st' = write_permission st
    /\ jbod_mounted (jbod st') = false
    /\ storage (jbod st') = storage (jbod st)
    /\ issued st' = issued st ++ [encode_op JBOD_UNMOUNT 0 0].
Proof.
  intros Hm Hjm. unfold mdadm_unmount, jbod_call, spec_jbod_operation.
  destruct (Z.eqb_spec (mounted st) 0); [contradiction |].
  change (op_cmd (encode_op JBOD_UNMOUNT 0 0)) with JBOD_UNMOUNT.
  rewrite Hjm. cbn.
  eexists. split; [reflexivity |]. cbn. split_and!; reflexivity.
Qed.

(** The transfer commands leave the mount flag of the array alone. *)
Lemma transfer_keeps_jbod_mounted (b : bool) (op : Z) (blk : option (list Z))
    (d : jbod_t) :
  transfer_cmd op -> jbod_mounted d = b ->
  jbod_mounted (snd (spec_jbod_operation op blk d)) = b.
Proof.
  intros Hcmd Hd. unfold spec_jbod_operation.
  destruct Hcmd as [[Hc | [Hc | Hc]] | Hc]; rewrite Hc; cbn;
    destruct (jbod_mounted d) eqn:Hjm; cbn; try (rewrite Hjm; exact Hd);
    try exact Hd; destruct blk; cbn; try exact Hd; rewrite Hjm; exact Hd.
Qed.

Lemma run_mdadm_call_agree (st : mdadm_state (device := jbod_t)) (c : mdadm_call) :
  flags_agree st -> flags_agree (run_mdadm_call st c).
Proof.
  intros Hagree.
  assert (Hkeep : forall st' : mdadm_state (device := jbod_t),
             mounted st' = mounted st ->
             (jbod_mounted (jbod st) = jbod_mounted (jbod st) ->
              jbod_mounted (jbod st') = jbod_mounted (jbod st)) ->
             flags_agree st').
  { intros st' Hm Hj. unfold flags_agree. rewrite Hm, (Hj eq_refl). exact Hagree. }
  destruct c as [| | | | stack start len buf | start len buf]; cbn [run_mdadm_call].
  - destruct Hagree as [[Hm Hjm] | [Hm Hjm]].
    + destruct (mount_on_array st Hm Hjm) as (st' & -> & Hm' & _ & Hjm' & _).
      right. split; assumption.
    + unfold mdadm_mount. rewrite Hm. cbn. right. split; assumption.
  - destruct Hagree as [[Hm Hjm] | [Hm Hjm]].
    + unfold mdadm_unmount. rewrite Hm. cbn. left. split; assumption.
    + destruct (unmount_on_array st ltac:(lia) Hjm) as (st' & -> & Hm' & _ & Hjm' & _).
      left. split; assumption.
  - exact Hagree.
  - exact Hagree.
  - destruct (mdadm_read_frame spec_jbod_operation stack
                (fun d => jbod_mounted d = jbod_mounted (jbod st))
                (transfer_keeps_jbod_mounted _) start len buf st)
      as (rc & buf' & st' & ops & -> & Hm & _ & _ & _ & Hj).
    exact (Hkeep st' Hm Hj).
  - destruct (mdadm_write_frame spec_jbod_operation
                (fun d => jbod_mounted d = jbod_mounted (jbod st))
                (transfer_keeps_jbod_mounted _) start len buf st)
      as (rc & st' & ops & -> & Hm & _ & _ & _ & Hj).
    exact (Hkeep st' Hm Hj).
Qed.

Lemma segments_from_tile (start_addr len : Z) :
  0 <= start_addr -> start_addr + len <= 16 * 65536 ->
  forall (fuel : nat) (k : Z),
    0 <= k <= len -> len - k <= Z.of_nat fuel ->
    foldr (fun s acc => seg_len s + acc) 0 (segments_from fuel start_addr len k)
    = len - k
    /\ Forall in_one_block (segments_from fuel start_addr len k)
    /\ Z.of_nat (length (segments_from fuel start_addr len k))
       = if k <? len
         then (start_addr + len - 1) / 256 - (start_addr + k) / 256 + 1
         else 0.
Proof.
  intros Hs Hend. induction fuel as [| fuel IH]; intros k Hk Hfuel;
    cbn [segments_from].
  - destruct (Z.ltb_spec k len); [lia |]. cbn. split_and!; [lia | constructor 1 | reflexivity].
  - destruct (Z.ltb_spec k len) as [Hlt | Hge];
      [| cbn; split_and!; [lia | constructor 1 | reflexivity]].
    cbv zeta. rewrite (segment_at_in_range start_addr len k) by lia.
    set (A := start_addr + k).
    set (n := Z.min (len - k) (256 - (A mod 65536) mod 256)).
    cbn [seg_len foldr length].
    destruct (segment_bounds A ltac:(unfold A; lia)) as (Hd & Hb & Ho).
    assert (Hn : 1 <= n <= len - k) by (unfold n; lia).
    destruct (IH (k + n) ltac:(lia) ltac:(lia)) as (H1 & H2 & H3).
    split_and!.
    + rewrite H1. lia.
    + constructor 2; [| exact H2].
      unfold in_one_block. cbn [seg_disk seg_block seg_offset seg_len]. fold n. lia.
    + rewrite Nat2Z.inj_succ, H3.
      destruct (Z.ltb_spec (k + n) len).
      * assert (n = 256 - (A mod 65536) mod 256) by (unfold n; lia).
        replace (start_addr + (k + n)) with (A + n) by (unfold A; lia).
        fold A. Z.div_mod_to_equations. lia.
      * assert (k + n = len) by lia.
        assert (start_addr + len - 1 = A + n - 1) by (unfold A; lia).
        assert (n <= 256 - (A mod 65536) mod 256) by (unfold n; lia).
        fold A. Z.div_mod_to_equations. lia.
Qed.

End ArrayReads.

Section EngineExtras.

Import Mdadm.

(** X11. For every array, every state and all arguments, [mdadm_read] and
    [mdadm_write] return; neither touches the mount flag or the
    write-permission flag; a read hands the array only seek-to-disk,
    seek-to-block and read-block words, a write only these and write-block:
    no transfer ever issues mount, unmount, sign-block or a permission
    command. *)
Theorem transfers_issue_transfer_commands_only {device : Type}
    (jbod_operation : Z -> option (list Z) -> device -> Z * option (list Z) * device)
    (stack_block : list Z) (st : mdadm_state (device := device))
    (start_addr len : Z) (buf : option (list Z)) :
  (exists rc buf' st' ops,
      mdadm_read jbod_operation stack_block start_addr len buf st
        = Some (rc, buf', st')
      /\ mounted st' = mounted st
      /\ write_permission st' = write_permission st
      /\ issued st' = issued st ++ ops
      /\ Forall read_cmd ops)
  /\ (exists rc st' ops,
        mdadm_write jbod_operation start_addr len buf st = Some (rc, st')
        /\ mounted st' = mounted st
        /\ write_permission st' = write_permission st
        /\ issued st' = issued st ++ ops
        /\ Forall transfer_cmd ops).
Proof.
  split.
  - destruct (mdadm_read_frame jbod_operation stack_block (fun _ => True)
                ltac:(tauto) start_addr len buf st)
      as (rc & buf' & st' & ops & H1 & H2 & H3 & H4 & H5 & _).
    exists rc, buf', st', ops. split_and!; assumption.
  - destruct (mdadm_write_frame jbod_operation (fun _ => True)
                ltac:(tauto) start_addr len buf st)
      as (rc & st' & ops & H1 & H2 & H3 & H4 & H5 & _).
    exists rc, st', ops. split_and!; assumption.
Qed.

(** X12. On the disk array of the specification a mounted read of 0 to
    1024 bytes inside the volume, into a buffer that is large enough,
    returns its length; the first [read_len] bytes of the buffer become the
    bytes of the volume from [start_addr] on and the rest of the buffer
    stays; the storage is untouched; each segment costs seek-to-disk,
    seek-to-block and read-block. *)
Theorem read_returns_volume_bytes (stack_block : list Z)
    (st : mdadm_state (device := jbod_t)) (start_addr read_len : Z)
    (buf : list Z) :
  mounted st <> 0 -> jbod_mounted (jbod st) = true ->
  0 <= start_addr -> 0 <= read_len <= 1024 ->
  start_addr + read_len <= 16 * 65536 ->
  read_len <= Z.of_nat (length buf) ->
  exists buf' st',
    mdadm_read spec_jbod_operation stack_block start_addr read_len (Some buf) st
      = Some (read_len, Some buf', st')
    /\ storage (jbod st') = storage (jbod st)
    /\ issued st'
       = issued st ++ flat_map read_segment_ops (segments start_addr read_len)
    /\ length buf' = length buf
    /\ forall i, 0 <= i < Z.of_nat (length buf) ->
         byte_at buf' i
           = if (0 <=? i) && (i <? read_len)
             then volume_byte (jbod st) (start_addr + i)
             else byte_at buf i.
Proof.
  intros Hm Hjm Hs Hl Hend Hbuf.
  destruct (mdadm_read_on_array stack_block st start_addr read_len buf
              Hm Hjm Hs Hl Hend Hbuf)
    as (buf' & st' & H1 & _ & _ & _ & H2 & H3 & H4 & H5).
  exists buf', st'. split_and!; assumption.
Qed.

Lemma read_returns_volume_bytes_witness :
  exists buf' st',
    mdadm_read spec_jbod_operation [] 250 10 (Some (replicate 12 1)) blank_state
      = Some (10, Some buf', st')
    /\ issued st' = [encode_op JBOD_SEEK_TO_DISK 0 0;
                     encode_op JBOD_SEEK_TO_BLOCK 0 0;
                     encode_op JBOD_READ_BLOCK 0 0;
                     encode_op JBOD_SEEK_TO_DISK 0 0;
                     encode_op JBOD_SEEK_TO_BLOCK 0 1;
                     encode_op JBOD_READ_BLOCK 0 0]
    /\ byte_at buf' 9 = 0 /\ byte_at buf' 10 = 1.
Proof.
  destruct (read_returns_volume_bytes [] blank_state 250 10 (replicate 12 1))
    as (buf' & st' & H1 & _ & H2 & _ & H3);
    [discriminate | reflexivity | lia | lia | lia | rewrite length_replicate; lia |].
  exists buf', st'. split; [exact H1 |]. split; [rewrite H2; reflexivity |].
  rewrite !H3 by (rewrite length_replicate; lia). split; reflexivity.
Defined.

(** X13. Write, unmount, mount, read: on the disk array of the
    specification the bytes written to a range of the volume are the bytes
    a read of that range returns after the volume was unmounted and mounted
    again. *)
Theorem write_remount_read (stack_block : list Z)
    (st : mdadm_state (device := jbod_t)) (start_addr len : Z)
    (buf out : list Z) :
  mounted st <> 0 -> write_permission st = true ->
  jbod_mounted (jbod st) = true ->
  0 <= start_addr -> 0 < len <= 1024 -> start_addr + len <= 16 * 65536 ->
  len <= Z.of_nat (length out) ->
  exists st1 st2 st3 out' st4,
    mdadm_write spec_jbod_operation start_addr len (Some buf) st = Some (len, st1)
    /\ mdadm_unmount spec_jbod_operation st1 = (1, st2)
    /\ mdadm_mount spec_jbod_operation st2 = (1, st3)
    /\ mdadm_read spec_jbod_operation stack_block start_addr len (Some out) st3
       = Some (len, Some out', st4)
    /\ forall i, 0 <= i < len -> byte_at out' i = byte_at buf i.
Proof.
  intros Hm Hw Hjm Hs Hl Hend Hout.
  destruct (mdadm_write_on_array st start_addr len buf Hm Hw Hjm Hs Hl Hend)
    as (st1 & H1 & Hm1 & Hw1 & Hjm1 & Hb1).
  destruct (unmount_on_array st1 ltac:(congruence) Hjm1)
    as (st2 & H2 & Hm2 & Hw2 & Hjm2 & Hst2 & _).
  destruct (mount_on_array st2 Hm2 Hjm2)
    as (st3 & H3 & Hm3 & Hw3 & Hjm3 & Hst3 & _).
  destruct (mdadm_read_on_array stack_block st3 start_addr len out
              ltac:(lia) Hjm3 Hs ltac:(lia) Hend Hout)
    as (out' & st4 & H4 & _ & _ & _ & _ & _ & _ & Hb4).
  exists st1, st2, st3, out', st4. split_and!; try assumption.
  intros i Hi. rewrite Hb4 by lia.
  destruct (Z.leb_spec 0 i); [| lia]. destruct (Z.ltb_spec i len); [| lia].
  cbn [andb]. unfold volume_byte. rewrite Hst3, Hst2.
  fold (volume_byte (jbod st1) (start_addr + i)). rewrite Hb1 by lia.
  destruct (Z.leb_spec start_addr (start_addr + i)); [| lia].
  destruct (Z.ltb_spec (start_addr + i) (start_addr + len)); [| lia].
  cbn [andb]. f_equal. lia.
Qed.

Lemma write_remount_read_witness :
  exists st1 st2 st3 out' st4,
    mdadm_write spec_jbod_operation 0 500 (Some (replicate 500 7)) blank_state
      = Some (500, st1)
    /\ mdadm_unmount spec_jbod_operation st1 = (1, st2)
    /\ mdadm_mount spec_jbod_operation st2 = (1, st3)
    /\ mdadm_read spec_jbod_operation [] 0 500 (Some (replicate 500 0)) st3
       = Some (500, Some out', st4)
    /\ byte_at out' 499 = 7.
Proof.
  destruct (write_remount_read [] blank_state 0 500 (replicate 500 7)
              (replicate 500 0))
    as (st1 & st2 & st3 & out' & st4 & H1 & H2 & H3 & H4 & Hb);
    [discriminate | reflexivity | reflexivity | lia | lia | lia
     | rewrite length_replicate; lia |].
  exists st1, st2, st3, out', st4. split_and!; try assumption.
  rewrite Hb by lia. reflexivity.
Defined.

(** X14. A failed array operation ends the call at once: on an array whose
    operations fail, a mounted transfer of 1 to 1024 bytes inside the volume
    returns -4 after the one seek-to-disk word it issued, the read leaves
    the caller's buffer as it was, and no later word is issued. *)
Theorem failing_array_aborts {device : Type}
    (jbod_operation : Z -> option (list Z) -> device -> Z * option (list Z) * device)
    (stack_block : list Z) (st : mdadm_state (device := device))
    (start_addr len : Z) (buf : list Z) :
  always_fails jbod_operation ->
  mounted st <> 0 ->
  0 <= start_addr -> 0 < len <= 1024 -> start_addr + len <= 16 * 65536 ->
  (exists st',
      mdadm_read jbod_operation stack_block start_addr len (Some buf) st
        = Some (-4, Some buf, st')
      /\ issued st'
         = issued st ++ [encode_op JBOD_SEEK_TO_DISK (start_addr / 65536) 0])
  /\ (write_permission st = true ->
      exists st',
        mdadm_write jbod_operation start_addr len (Some buf) st = Some (-4, st')
        /\ issued st'
           = issued st ++ [encode_op JBOD_SEEK_TO_DISK (start_addr / 65536) 0]).
Proof.
  intros Hfail Hm Hs Hl Hend.
  assert (Hoor : out_of_range start_addr len = false).
  { destruct (out_of_range start_addr len) eqn:Hoor; [| reflexivity].
    apply out_of_range_spec in Hoor; lia. }
  destruct (Z.to_nat len) as [| fuel] eqn:Hfuel; [lia |].
  pose proof (segment_at_in_range start_addr len 0 Hs ltac:(lia) Hend) as Hseg.
  rewrite Z.add_0_r in Hseg.
  destruct (segment_bounds start_addr ltac:(lia)) as (Hd & _ & _).
  split.
  - unfold mdadm_read.
    destruct (Z.eqb_spec (mounted st) 0); [contradiction |].
    destruct (Z.gtb_spec len 1024); [lia |].
    rewrite bool_decide_false by discriminate. rewrite andb_false_r, Hoor, Hfuel.
    cbn [read_loop]. destruct (Z.ltb_spec 0 len); [| lia]. cbv zeta.
    rewrite Hseg. unfold read_segment, jbod_call. cbn [seg_disk].
    change 15 with (Z.ones 4). rewrite land_small by (simpl; lia).
    pose proof (Hfail (encode_op JBOD_SEEK_TO_DISK (start_addr / 65536) 0)
                  None (jbod st)) as Hrc.
    destruct (jbod_operation _ None (jbod st)) as [[rc blk] d]. cbn [fst] in Hrc.
    destruct (Z.eqb_spec rc 0); [contradiction |]. cbn [negb].
    eexists. split; reflexivity.
  - intros Hw. unfold mdadm_write.
    destruct (Z.eqb_spec (mounted st) 0); [contradiction |].
    rewrite Hw. cbn [negb].
    destruct (Z.gtb_spec len 1024); [lia |].
    rewrite bool_decide_false by discriminate. rewrite andb_false_r.
    destruct (Z.eqb_spec len 0); [lia |]. rewrite Hoor, Hfuel.
    cbn [write_loop]. destruct (Z.ltb_spec 0 len); [| lia]. cbv zeta.
    rewrite Hseg. unfold write_segment, jbod_call. cbn [seg_disk].
    pose proof (Hfail (encode_op JBOD_SEEK_TO_DISK (start_addr / 65536) 0)
                  None (jbod st)) as Hrc.
    destruct (jbod_operation _ None (jbod st)) as [[rc blk] d]. cbn [fst] in Hrc.
    destruct (Z.eqb_spec rc 0); [contradiction |]. cbn [negb].
    eexists. split; reflexivity.
Qed.

Lemma failing_array_aborts_witness :
  exists st',
    mdadm_read failing_jbod_operation [] 70000 300 (Some (replicate 300 2))
      (dead_state 1 true)
    = Some (-4, Some (replicate 300 2), st')
    /\ issued st' = [encode_op JBOD_SEEK_TO_DISK 1 0].
Proof.
  destruct (proj1 (failing_array_aborts failing_jbod_operation [] (dead_state 1 true)
                     70000 300 (replicate 300 2)
                     ltac:(intros op blk d; discriminate)
                     ltac:(discriminate) ltac:(lia) ltac:(lia) ltac:(lia)))
    as (st' & H & Hi).
  exists st'. split; [exact H | rewrite Hi; reflexivity].
Defined.

(** X15. Over the disk array of the specification, started unmounted, the
    mount flag of the core and the mount flag of the array agree after
    every sequence of calls (mount, unmount, grant, revoke, read, write with
    any arguments); so a mount succeeds exactly when the volume is
    unmounted and an unmount exactly when it is mounted. *)
Theorem mount_flags_agree (d : jbod_t) (cs : list mdadm_call) :
  jbod_mounted d = false ->
  flags_agree (run_mdadm_calls d cs)
  /\ fst (mdadm_mount spec_jbod_operation (run_mdadm_calls d cs))
     = (if mounted (run_mdadm_calls d cs) =? 0 then 1 else -1)
  /\ fst (mdadm_unmount spec_jbod_operation (run_mdadm_calls d cs))
     = (if mounted (run_mdadm_calls d cs) =? 0 then -1 else 1).
Proof.
  intros Hd.
  assert (Hagree : flags_agree (run_mdadm_calls d cs)).
  { unfold run_mdadm_calls. induction cs as [| c cs IH] using rev_ind.
    - left. split; [reflexivity | exact Hd].
    - rewrite foldl_app. cbn [foldl]. apply run_mdadm_call_agree, IH. }
  split; [exact Hagree |].
  destruct Hagree as [[Hm Hjm] | [Hm Hjm]]; rewrite Hm; cbn [Z.eqb].
  - destruct (mount_on_array _ Hm Hjm) as (st' & -> & _). split; [reflexivity |].
    unfold mdadm_unmount. rewrite Hm. reflexivity.
  - destruct (unmount_on_array (run_mdadm_calls d cs)
                ltac:(rewrite Hm; discriminate) Hjm) as (st' & -> & _).
    split; [| reflexivity]. unfold mdadm_mount. rewrite Hm. reflexivity.
Qed.

Lemma mount_flags_agree_witness :
  flags_agree (run_mdadm_calls cold_jbod
                 [Do_mount; Do_mount; Do_write_permission;
                  Do_write 0 4 (Some [1; 2; 3; 4]); Do_unmount; Do_read [] 0 4 None])
  /\ fst (mdadm_mount spec_jbod_operation
            (run_mdadm_calls cold_jbod
               [Do_mount; Do_mount; Do_write_permission;
                Do_write 0 4 (Some [1; 2; 3; 4]); Do_unmount; Do_read [] 0 4 None]))
     = 1.
Proof.
  destruct (mount_flags_agree cold_jbod
              [Do_mount; Do_mount; Do_write_permission;
               Do_write 0 4 (Some [1; 2; 3; 4]); Do_unmount; Do_read [] 0 4 None]
              eq_refl) as (H1 & H2 & _).
  split; [exact H1 | rewrite H2; reflexivity].
Defined.

(** X16. The segments of a transfer inside the volume tile it: each lies
    inside one block of one disk and moves at least one byte, their lengths
    add up to the length of the transfer, and there is one segment per
    block the range touches. *)
Theorem segments_tile_the_range (start_addr len : Z) :
  0 <= start_addr -> 0 <= len <= 1024 -> start_addr + len <= 16 * 65536 ->
  foldr (fun s acc => seg_len s + acc) 0 (segments start_addr len) = len
  /\ Forall in_one_block (segments start_addr len)
  /\ Z.of_nat (length (segments start_addr len))
     = (if 0 <? len
        then (start_addr + len - 1) / 256 - start_addr / 256 + 1
        else 0)
  /\ (length (segments start_addr len) <= 5)%nat.
Proof.
  intros Hs Hl Hend.
  destruct (segments_from_tile start_addr len Hs Hend (Z.to_nat len) 0
              ltac:(lia) ltac:(lia)) as (H1 & H2 & H3).
  unfold segments. rewrite Z.add_0_r in H3. rewrite H1, H3, Z.sub_0_r.
  split_and!; [reflexivity | exact H2 | reflexivity |].
  apply Nat2Z.inj_le. rewrite H3.
  destruct (Z.ltb_spec 0 len); [| lia].
  Z.div_mod_to_equations. lia.
Qed.

Lemma segments_tile_the_range_witness :
  foldr (fun s acc => seg_len s + acc) 0 (segments 65436 1024) = 1024
  /\ length (segments 65436 1024) = 5%nat.
Proof.
  destruct (segments_tile_the_range 65436 1024) as (H1 & _ & H3 & _);
    [lia | lia | lia |].
  split; [exact H1 |]. apply Nat2Z.inj. rewrite H3. reflexivity.
Defined.

End EngineExtras.
